(** * Jimeng image-generation client: request signing, asset upload,
      submission and polling

    A shallow embedding of [gen_pic_from_pic.py] (class [JimengApiClient])
    and of the library routines it calls, followed by the properties of
    the client that the design document states (C1 to C10) and by
    further properties read off the code (X1 to X29).

    Python values are modelled as the interpreter has them: integers are
    unbounded ([Z]), floats are IEEE doubles ([PrimFloat.float]), a [str]
    is its UTF-8 byte sequence, a [dict] is an association list in
    insertion order. Code that can raise returns an [outcome]; code that
    touches the network, the clock, the random generators or the file
    system runs in the monad [M] over an explicit [world]. *)

From Stdlib Require Import ZArith List String Ascii Strings.Byte Lia Bool.
From Stdlib Require Import HexString DecimalString DecimalPos DecimalZ.
From Stdlib Require Import PrimFloat FloatOps SpecFloat.
Import ListNotations.
Open Scope string_scope.
Open Scope list_scope.
Open Scope Z_scope.

(** ** Bytes *)

(** A Python [bytes] object is a [list byte]; iterating it yields the
    integers 0..255. [s.encode('utf-8')] is the identity on the
    representation of [str]. *)
Definition byte_val (b : byte) : Z := Z.of_N (Byte.to_N b).

Definition bytes_of_string (s : string) : list byte := list_byte_of_string s.

Definition byte_of_Z (z : Z) : byte :=
  match Byte.of_N (Z.to_N (z mod 256)) with Some b => b | None => x00 end.

(** ** Decimal text, and [repr] of a float *)

(** [str(n)] for an [int]. *)
Definition str_of_Z (n : Z) : string := NilZero.string_of_int (Z.to_int n).

Fixpoint repeat_string (n : nat) (s : string) : string :=
  match n with O => EmptyString | S n' => String.append s (repeat_string n' s) end.

(** The shortest decimal that reads back as the same double, found by
    exact integer arithmetic on the rounding interval of the double. *)
Module FloatRepr.

(** Scaled boundaries of the rounding interval of [m * 2^e]:
    the value is [r/s], the interval is [(r - mm)/s, (r + mp)/s]. *)
Definition bounds (m e : Z) : Z * Z * Z * Z :=
  let tight := (m =? 2 ^ 52) && (-1074 <? e) in
  if 0 <=? e then
    if tight then (m * 2 ^ e * 4, 4, 2 * 2 ^ e, 2 ^ e)
    else (m * 2 ^ e * 2, 2, 2 ^ e, 2 ^ e)
  else
    if tight then (m * 4, 2 ^ (- e) * 4, 2, 1)
    else (m * 2, 2 ^ (- e) * 2, 1, 1).

(** The decimal exponent [x] with [10^x <= r/s < 10^(x+1)], searched
    upwards from a lower estimate. *)
Fixpoint find_exp (fuel : nat) (r s x : Z) : Z :=
  match fuel with
  | O => x
  | S fuel' =>
      let below := if 0 <=? x + 1 then r <? s * 10 ^ (x + 1) else r * 10 ^ (- (x + 1)) <? s in
      if below then x else find_exp fuel' r s (x + 1)
  end.

(** Digits and scale of the shortest decimal inside the interval,
    trying 1, 2, ... 17 significant digits. *)
Fixpoint shortest (fuel : nat) (p : Z) (even : bool) (r s mp mm x : Z) : Z * Z :=
  let t := x - p + 1 in
  let up := if 0 <=? t then 1 else 10 ^ (- t) in
  let dn := if 0 <=? t then 10 ^ t else 1 in
  let d := (r * up) / (s * dn) in
  let lo_ok := if even then (r - mm) * up <=? d * s * dn else (r - mm) * up <? d * s * dn in
  let hi_ok := if even then (d + 1) * s * dn <=? (r + mp) * up else (d + 1) * s * dn <? (r + mp) * up in
  let dlo := r * up - d * s * dn in
  let dhi := (d + 1) * s * dn - r * up in
  let pick :=
    if lo_ok && hi_ok then
      Some (if dlo <? dhi then d else if dhi <? dlo then d + 1 else if Z.even d then d else d + 1)
    else if lo_ok then Some d else if hi_ok then Some (d + 1) else None in
  match pick, fuel with
  | Some v, _ => (v, t)
  | None, O => (d, t)
  | None, S fuel' => shortest fuel' (p + 1) even r s mp mm x
  end.

Fixpoint strip_zeros (fuel : nat) (d t : Z) : Z * Z :=
  match fuel with
  | O => (d, t)
  | S fuel' => if (d mod 10 =? 0) && negb (d =? 0) then strip_zeros fuel' (d / 10) (t + 1) else (d, t)
  end.

Definition pad2 (n : Z) : string :=
  if n <? 10 then String.append "0" (str_of_Z n) else str_of_Z n.

(** [float_repr_style = 'short']: format code ['r']. *)
Definition format (digits : string) (decpt : Z) : string :=
  let n := Z.of_nat (String.length digits) in
  if (decpt <=? -4) || (16 <? decpt) then
    let mant := if n =? 1 then digits
                else String.append (String.substring 0 1 digits)
                       (String.append "." (String.substring 1 (String.length digits - 1) digits)) in
    let x := decpt - 1 in
    String.append mant (String.append "e" (String.append (if x <? 0 then "-" else "+") (pad2 (Z.abs x))))
  else if decpt <=? 0 then
    String.append "0." (String.append (repeat_string (Z.to_nat (- decpt)) "0") digits)
  else if n <=? decpt then
    String.append digits (String.append (repeat_string (Z.to_nat (decpt - n)) "0") ".0")
  else
    String.append (String.substring 0 (Z.to_nat decpt) digits)
      (String.append "." (String.substring (Z.to_nat decpt) (String.length digits - Z.to_nat decpt) digits)).

Definition finite (m e : Z) : string :=
  let '(r, s, mp, mm) := bounds m e in
  let x := find_exp 8 r s ((Z.log2 r - Z.log2 s - 1) * 30103 / 100000 - 1) in
  let '(d, t) := shortest 17 1 (Z.even m) r s mp mm x in
  let '(d, t) := strip_zeros 20 d t in
  let digits := str_of_Z d in
  format digits (Z.of_nat (String.length digits) + t).

End FloatRepr.

(** [repr] of a Python float. *)
Definition float_repr (f : float) : string :=
  match Prim2SF f with
  | S754_zero s => if s then "-0.0" else "0.0"
  | S754_infinity s => if s then "-inf" else "inf"
  | S754_nan => "nan"
  | S754_finite s m e =>
      String.append (if s then "-" else EmptyString) (FloatRepr.finite (Z.pos m) e)
  end.


(** ** Python values

    What [response.json()] returns and what [json.dumps] accepts: [None],
    [bool], [int], [float], [str], [list], and [dict] with string keys in
    insertion order. A [str] is its UTF-8 byte sequence. *)
#[local] Set Warnings "-register-all".
Inductive json : Type :=
| JNull
| JBool (b : bool)
| JInt (n : Z)
| JFloat (f : float)
| JStr (s : string)
| JArr (items : list json)
| JObj (fields : list (string * json)).

Definition dict : Type := list (string * json).

Fixpoint dict_get (d : dict) (k : string) : option json :=
  match d with
  | [] => None
  | (k', v) :: d' => if String.eqb k' k then Some v else dict_get d' k
  end.

(** [d[k] = v]: an existing key keeps its place. *)
Fixpoint dict_set (d : dict) (k : string) (v : json) : dict :=
  match d with
  | [] => [(k, v)]
  | (k', v') :: d' => if String.eqb k' k then (k', v) :: d' else (k', v') :: dict_set d' k v
  end.

(** [{**a, **b}]. *)
Definition dict_merge (a b : dict) : dict :=
  fold_left (fun acc kv => dict_set acc (fst kv) (snd kv)) b a.

Definition dict_keys (d : dict) : list string := map fst d.

(** Characters and code points. *)
Definition code (c : ascii) : Z := Z.of_nat (nat_of_ascii c).
Definition chr (n : Z) : ascii := ascii_of_nat (Z.to_nat n).
Definition str1 (c : ascii) : string := String c EmptyString.

Definition hex_digit (n : Z) : ascii := chr (if n <? 10 then 48 + n else 87 + n).
Definition HEX_digit (n : Z) : ascii := chr (if n <? 10 then 48 + n else 55 + n).

(** [n] as [k] lower-case hexadecimal digits. *)
Fixpoint hex_fixed (k : nat) (n : Z) : string :=
  match k with
  | O => EmptyString
  | S k' => String.append (hex_fixed k' (n / 16)) (str1 (hex_digit (n mod 16)))
  end.

Fixpoint str_map (f : ascii -> string) (s : string) : string :=
  match s with
  | EmptyString => EmptyString
  | String c s' => String.append (f c) (str_map f s')
  end.

Fixpoint str_mem (c : ascii) (s : string) : bool :=
  match s with
  | EmptyString => false
  | String c' s' => Ascii.eqb c c' || str_mem c s'
  end.

(** [s in t] for strings. *)
Fixpoint str_contains (fuel : nat) (needle hay : string) : bool :=
  String.prefix needle hay ||
  match fuel, hay with
  | S fuel', String _ hay' => str_contains fuel' needle hay'
  | _, _ => false
  end.

(** ** json.dumps (default arguments: [ensure_ascii], separators [", "] and [": "]) *)
Module Json.

(** The code points of a UTF-8 byte sequence. *)
Fixpoint code_points (fuel : nat) (s : string) : list Z :=
  match fuel, s with
  | S fuel', String a rest =>
      let a := code a in
      let cont (c : ascii) := code c mod 64 in
      if a <? 0x80 then a :: code_points fuel' rest
      else match rest with
      | String b rest1 =>
          if a <? 0xE0 then ((a mod 32) * 64 + cont b) :: code_points fuel' rest1
          else match rest1 with
          | String c rest2 =>
              if a <? 0xF0 then ((a mod 16) * 4096 + cont b * 64 + cont c) :: code_points fuel' rest2
              else match rest2 with
              | String d rest3 =>
                  ((a mod 8) * 262144 + cont b * 4096 + cont c * 64 + cont d)
                    :: code_points fuel' rest3
              | EmptyString => [a]
              end
          | EmptyString => [a]
          end
      | EmptyString => [a]
      end
  | _, _ => []
  end.

Definition u_escape (n : Z) : string := String.append "\u" (hex_fixed 4 n).

(** [py_encode_basestring_ascii], one code point. *)
Definition escape (c : Z) : string :=
  if c =? 34 then String (chr 92) (str1 (chr 34))
  else if c =? 92 then "\\"
  else if c =? 10 then "\n"
  else if c =? 13 then "\r"
  else if c =? 9 then "\t"
  else if c =? 12 then "\f"
  else if c =? 8 then "\b"
  else if (32 <=? c) && (c <=? 126) then str1 (chr c)
  else if c <? 0x10000 then u_escape c
  else
    let v := c - 0x10000 in
    String.append (u_escape (Z.lor 0xd800 (Z.land (Z.shiftr v 10) 0x3ff)))
                  (u_escape (Z.lor 0xdc00 (Z.land v 0x3ff))).

Definition encode_string (s : string) : string :=
  String.append (str1 (chr 34))
    (String.append (String.concat EmptyString (map escape (code_points (String.length s) s)))
                   (str1 (chr 34))).

Definition encode_float (f : float) : string :=
  match Prim2SF f with
  | S754_nan => "NaN"
  | S754_infinity s => if s then "-Infinity" else "Infinity"
  | _ => float_repr f
  end.

Fixpoint dumps (v : json) : string :=
  match v with
  | JNull => "null"
  | JBool b => if b then "true" else "false"
  | JInt n => str_of_Z n
  | JFloat f => encode_float f
  | JStr s => encode_string s
  | JArr items =>
      String.append "[" (String.append (String.concat ", " (map dumps items)) "]")
  | JObj fields =>
      String.append "{"
        (String.append
           (String.concat ", "
              ((fix members (l : list (string * json)) : list string :=
                  match l with
                  | [] => []
                  | (k, x) :: l' =>
                      String.append (encode_string k) (String.append ": " (dumps x)) :: members l'
                  end) fields))
           "}")
  end.

End Json.

(** ** [repr] and [str] *)
Module Repr.

(** [repr] of a [str]: single quotes unless the text holds one and no
    double quote; control characters escaped. This is CPython's [repr]
    on ASCII text. Code points above 127 are copied, as CPython does
    with the printable ones; the ones it escapes (U+200B and the like)
    are outside the model. *)
Definition repr_char (quote : ascii) (c : ascii) : string :=
  let n := code c in
  if Ascii.eqb c quote || (n =? 92) then String (chr 92) (str1 c)
  else if n =? 9 then "\t"
  else if n =? 10 then "\n"
  else if n =? 13 then "\r"
  else if (n <? 32) || (n =? 127) then String.append "\x" (hex_fixed 2 n)
  else str1 c.

Definition repr_str (s : string) : string :=
  let quote := if str_mem (chr 39) s && negb (str_mem (chr 34) s) then chr 34 else chr 39 in
  String quote (String.append (str_map (repr_char quote) s) (str1 quote)).

Fixpoint repr (v : json) : string :=
  match v with
  | JNull => "None"
  | JBool b => if b then "True" else "False"
  | JInt n => str_of_Z n
  | JFloat f => float_repr f
  | JStr s => repr_str s
  | JArr items =>
      String.append "[" (String.append (String.concat ", " (map repr items)) "]")
  | JObj fields =>
      String.append "{"
        (String.append
           (String.concat ", "
              ((fix members (l : list (string * json)) : list string :=
                  match l with
                  | [] => []
                  | (k, x) :: l' =>
                      String.append (repr_str k) (String.append ": " (repr x)) :: members l'
                  end) fields))
           "}")
  end.

(** [str(v)], which is also what an f-string field [{v}] inserts. *)
Definition str (v : json) : string :=
  match v with
  | JStr s => s
  | _ => repr v
  end.

End Repr.

Definition py_str : json -> string := Repr.str.

(** ** urllib.parse *)
Module Urllib.

(** [_ALWAYS_SAFE]. *)
Definition always_safe (c : ascii) : bool :=
  let n := code c in
  ((65 <=? n) && (n <=? 90)) || ((97 <=? n) && (n <=? 122)) ||
  ((48 <=? n) && (n <=? 57)) || str_mem c "_.-~".

Definition percent (c : ascii) : string :=
  String "%" (String (HEX_digit (code c / 16)) (str1 (HEX_digit (code c mod 16)))).

(** [quote(s, safe)]. *)
Definition quote_with (safe : string) (s : string) : string :=
  str_map (fun c => if always_safe c || str_mem c safe then str1 c else percent c) s.

(** [quote(s)], whose default is [safe='/']. *)
Definition quote (s : string) : string := quote_with "/" s.

(** [quote_plus(s)]. *)
Definition quote_plus (s : string) : string :=
  str_map (fun c => if Ascii.eqb c " " then "+" else str1 c) (quote_with " " s).

(** [urlencode(query)] for a dict with string keys. *)
Definition urlencode (query : dict) : string :=
  String.concat "&"
    (map (fun kv => String.append (quote_plus (fst kv))
                      (String.append "=" (quote_plus (py_str (snd kv))))) query).

End Urllib.

(** ** hashlib.sha256 and hmac (FIPS 180-4, RFC 2104) *)
Module Hashlib.

Definition add32 (x y : Z) : Z := (x + y) mod 2 ^ 32.
Definition rotr (n x : Z) : Z :=
  Z.lor (Z.shiftr x n) (Z.shiftl x (32 - n) mod 2 ^ 32).
Definition not32 (x : Z) : Z := Z.lxor x 0xFFFFFFFF.

Definition Ch (x y z : Z) := Z.lxor (Z.land x y) (Z.land (not32 x) z).
Definition Maj (x y z : Z) := Z.lxor (Z.lxor (Z.land x y) (Z.land x z)) (Z.land y z).
Definition Sigma0 x := Z.lxor (Z.lxor (rotr 2 x) (rotr 13 x)) (rotr 22 x).
Definition Sigma1 x := Z.lxor (Z.lxor (rotr 6 x) (rotr 11 x)) (rotr 25 x).
Definition sigma0 x := Z.lxor (Z.lxor (rotr 7 x) (rotr 18 x)) (Z.shiftr x 3).
Definition sigma1 x := Z.lxor (Z.lxor (rotr 17 x) (rotr 19 x)) (Z.shiftr x 10).

(** The largest [r] in [lo, hi) with [r ^ k <= n], by bisection. *)
Fixpoint bisect (fuel : nat) (k n lo hi : Z) : Z :=
  match fuel with
  | O => lo
  | S fuel' =>
      if hi - lo <=? 1 then lo
      else let mid := (lo + hi) / 2 in
           if mid ^ k <=? n then bisect fuel' k n mid hi else bisect fuel' k n lo mid
  end.

(** The first 32 bits of the fractional part of the [k]-th root of [p]. *)
Definition root_fraction (k p : Z) : Z :=
  bisect 64 k (p * 2 ^ (32 * k)) 0 (2 ^ 42) mod 2 ^ 32.

Definition is_prime (n : nat) : bool :=
  forallb (fun d => negb (Nat.eqb (n mod d) 0)) (seq 2 (n - 2)).

Definition primes : list Z :=
  map Z.of_nat (firstn 64 (filter is_prime (seq 2 310))).

(** The round constants and the initial hash value of FIPS 180-4, 4.2.2
    and 5.3.3: the fractional parts of the cube roots of the first 64
    primes and of the square roots of the first 8. *)
Definition K : list Z := Eval vm_compute in map (root_fraction 3) primes.

Definition H0 : list Z := Eval vm_compute in map (root_fraction 2) (firstn 8 primes).

(** Big-endian words of a block of bytes. *)
Fixpoint words (bs : list Z) : list Z :=
  match bs with
  | a :: b :: c :: d :: rest =>
      (a * 2 ^ 24 + b * 2 ^ 16 + c * 2 ^ 8 + d) :: words rest
  | _ => []
  end.

Definition be_bytes (n : nat) (x : Z) : list Z :=
  map (fun i => Z.shiftr x (8 * Z.of_nat (n - 1 - i)) mod 256) (seq 0 n).

(** Padding: a one bit, zeros, the bit length on 64 bits. *)
Definition pad (msg : list Z) : list Z :=
  let len := Z.of_nat (List.length msg) in
  let zeros := (55 - len) mod 64 in
  msg ++ [0x80] ++ repeat 0 (Z.to_nat zeros) ++ be_bytes 8 (len * 8).

(** The message schedule, most recent word first. *)
Fixpoint schedule (n : nat) (rev_w : list Z) : list Z :=
  match n with
  | O => rev_w
  | S n' =>
      let w2 := nth 1 rev_w 0 in
      let w7 := nth 6 rev_w 0 in
      let w15 := nth 14 rev_w 0 in
      let w16 := nth 15 rev_w 0 in
      schedule n' (add32 (add32 (sigma1 w2) w7) (add32 (sigma0 w15) w16) :: rev_w)
  end.

Definition round (st : list Z) (kw : Z * Z) : list Z :=
  match st with
  | [a; b; c; d; e; f; g; h] =>
      let t1 := add32 (add32 (add32 h (Sigma1 e)) (add32 (Ch e f g) (fst kw))) (snd kw) in
      let t2 := add32 (Sigma0 a) (Maj a b c) in
      [add32 t1 t2; a; b; c; add32 d t1; e; f; g]
  | _ => st
  end.

Definition compress (h : list Z) (block : list Z) : list Z :=
  let w := rev (schedule 48 (rev (words block))) in
  map (fun p => add32 (fst p) (snd p)) (combine h (fold_left round (combine K w) h)).

Fixpoint blocks (n : nat) (bs : list Z) : list (list Z) :=
  match n with
  | O => []
  | S n' => match bs with [] => [] | _ => firstn 64 bs :: blocks n' (skipn 64 bs) end
  end.

Definition sha256 (msg : list byte) : list byte :=
  let padded := pad (map byte_val msg) in
  let h := fold_left compress (blocks (List.length padded) padded) H0 in
  map byte_of_Z (flat_map (be_bytes 4) h).

Definition hexdigest (d : list byte) : string :=
  string_of_list_ascii
    (flat_map (fun b => [hex_digit (byte_val b / 16); hex_digit (byte_val b mod 16)]) d).

(** [hmac.new(key, msg, hashlib.sha256).digest()]. *)
Definition hmac_sha256 (key msg : list byte) : list byte :=
  let key := if (64 <? Z.of_nat (List.length key)) then sha256 key else key in
  let key := map byte_val key ++ repeat 0 (64 - List.length key) in
  let ipad := map (fun k => byte_of_Z (Z.lxor k 0x36)) key in
  let opad := map (fun k => byte_of_Z (Z.lxor k 0x5c)) key in
  sha256 (opad ++ sha256 (ipad ++ msg)).

End Hashlib.


(** ** Strings as Python uses them *)

(** [str.lower] and [str.upper]; the letters the client passes through
    them (header names, HTTP methods) are ASCII, and only those are
    mapped. *)
Definition lower_char (c : ascii) : ascii :=
  let n := code c in if (65 <=? n) && (n <=? 90) then chr (n + 32) else c.

Definition upper_char (c : ascii) : ascii :=
  let n := code c in if (97 <=? n) && (n <=? 122) then chr (n - 32) else c.

Definition str_lower (s : string) : string := str_map (fun c => str1 (lower_char c)) s.
Definition str_upper (s : string) : string := str_map (fun c => str1 (upper_char c)) s.

(** [sorted] on strings: code-point order, which on UTF-8 text is byte
    order. *)
Fixpoint insert_sorted (x : string) (l : list string) : list string :=
  match l with
  | [] => [x]
  | y :: l' => if String.leb x y then x :: l else y :: insert_sorted x l'
  end.

Definition sorted (l : list string) : list string := fold_right insert_sorted [] l.

(** ** Floats against integers *)

Definition float_eq_Z (f : float) (n : Z) : bool :=
  match Prim2SF f with
  | S754_zero _ => n =? 0
  | S754_finite s m e =>
      let v := if s then Z.neg m else Z.pos m in
      if 0 <=? e then v * 2 ^ e =? n else v =? n * 2 ^ (- e)
  | _ => false
  end.

Definition float_le_Z (f : float) (n : Z) : bool :=
  match Prim2SF f with
  | S754_zero _ => 0 <=? n
  | S754_finite s m e =>
      let v := if s then Z.neg m else Z.pos m in
      if 0 <=? e then v * 2 ^ e <=? n else v <=? n * 2 ^ (- e)
  | S754_infinity s => s
  | S754_nan => false
  end.

(** [float(n)]: the nearest double, [None] where CPython raises
    [OverflowError]. *)
Definition float_of_Z (n : Z) : option float :=
  match binary_normalize 53 1024 n 0 false with
  | S754_infinity _ => None
  | sf => Some (SF2Prim sf)
  end.

(** ** Exceptions

    An exception is its class and its argument. The text of [str(e)] is
    kept symbolic: an f-string that interpolates it is a list of
    fragments. Classes derived from [requests.exceptions.RequestException]
    are all tagged [RequestException]. *)
Inductive exc_class : Type :=
| Exception | ValueError | TypeError | AttributeError | KeyError | IndexError
| OverflowError | OSError | RequestException.

Inductive exn : Type :=
| Raised (cls : exc_class) (arg : payload)
with payload : Type :=
| NoArg
| Arg (v : json)
| Message (parts : list fragment)
with fragment : Type :=
| Lit (s : string)
| StrOf (e : exn).

Definition exn_class (e : exn) : exc_class := match e with Raised c _ => c end.

Definition is_RequestException (e : exn) : bool :=
  match exn_class e with RequestException => true | _ => false end.

(** What running a piece of the client yields. [OutOfFuel] marks a run
    of the poll loop cut off by the bound on its iterations. *)
Inductive outcome (A : Type) : Type :=
| Ok (a : A)
| Raise (e : exn)
| OutOfFuel.
Arguments Ok {A} a.
Arguments Raise {A} e.
Arguments OutOfFuel {A}.

Definition obind {A B : Type} (o : outcome A) (k : A -> outcome B) : outcome B :=
  match o with
  | Ok a => k a
  | Raise e => Raise e
  | OutOfFuel => OutOfFuel
  end.

(** ** Operations on Python values *)

(** Truth value. *)
Definition py_truth (v : json) : bool :=
  match v with
  | JNull => false
  | JBool b => b
  | JInt n => negb (n =? 0)
  | JFloat f => negb (PrimFloat.eqb f 0)
  | JStr s => negb (String.eqb s EmptyString)
  | JArr items => match items with [] => false | _ => true end
  | JObj fields => match fields with [] => false | _ => true end
  end.

(** [v == n] for an [int] literal and [v == s] for a [str] literal. *)
Definition py_eq_int (v : json) (n : Z) : bool :=
  match v with
  | JInt m => m =? n
  | JBool b => Z.b2z b =? n
  | JFloat f => float_eq_Z f n
  | _ => false
  end.

Definition py_eq_str (v : json) (s : string) : bool :=
  match v with
  | JStr t => String.eqb t s
  | _ => false
  end.

(** [v <= n] for an [int] literal. *)
Definition py_le_int (v : json) (n : Z) : outcome bool :=
  match v with
  | JInt m => Ok (m <=? n)
  | JBool b => Ok (Z.b2z b <=? n)
  | JFloat f => Ok (float_le_Z f n)
  | _ => Raise (Raised TypeError NoArg)
  end.

(** [a + b]. *)
Definition py_add (a b : json) : outcome json :=
  let as_int (v : json) : option Z :=
    match v with JInt n => Some n | JBool b => Some (Z.b2z b) | _ => None end in
  let as_float (v : json) : outcome (option float) :=
    match v with
    | JFloat f => Ok (Some f)
    | _ => match as_int v with
           | Some n => match float_of_Z n with
                       | Some f => Ok (Some f)
                       | None => Raise (Raised OverflowError NoArg)
                       end
           | None => Ok None
           end
    end in
  match a, b with
  | JStr s, JStr t => Ok (JStr (String.append s t))
  | JArr l, JArr r => Ok (JArr (l ++ r))
  | _, _ =>
      match as_int a, as_int b with
      | Some m, Some n => Ok (JInt (m + n))
      | _, _ =>
          match a, b with
          | JFloat _, _ | _, JFloat _ =>
              obind (as_float a) (fun x =>
              obind (as_float b) (fun y =>
              match x, y with
              | Some f, Some g => Ok (JFloat (PrimFloat.add f g))
              | _, _ => Raise (Raised TypeError NoArg)
              end))
          | _, _ => Raise (Raised TypeError NoArg)
          end
      end
  end.

(** [v.get(k, default)]. *)
Definition py_get (v : json) (k : string) (default : json) : outcome json :=
  match v with
  | JObj d => Ok (match dict_get d k with Some x => x | None => default end)
  | _ => Raise (Raised AttributeError NoArg)
  end.

(** [v.get(key)] where the key is itself a value: a [list] or [dict]
    cannot be hashed, and no other value than a [str] is a key of a
    parsed JSON object. *)
Definition py_get_value (v key : json) : outcome json :=
  match v with
  | JObj d =>
      match key with
      | JStr k => Ok (match dict_get d k with Some x => x | None => JNull end)
      | JArr _ | JObj _ => Raise (Raised TypeError NoArg)
      | _ => Ok JNull
      end
  | _ => Raise (Raised AttributeError NoArg)
  end.

(** [v[k]] for a [str] literal. *)
Definition py_item (v : json) (k : string) : outcome json :=
  match v with
  | JObj d => match dict_get d k with
              | Some x => Ok x
              | None => Raise (Raised KeyError (Arg (JStr k)))
              end
  | _ => Raise (Raised TypeError NoArg)
  end.

(** The continuation bytes a UTF-8 text starts with. *)
Fixpoint continuation_bytes (s : string) : string :=
  match s with
  | String c s' =>
      if (128 <=? code c) && (code c <? 192) then String c (continuation_bytes s')
      else EmptyString
  | EmptyString => EmptyString
  end.

(** [v[0]]; of a [str], its first character: the leading byte and the
    continuation bytes after it. *)
Definition py_first (v : json) : outcome json :=
  match v with
  | JArr items => match items with
                  | x :: _ => Ok x
                  | [] => Raise (Raised IndexError NoArg)
                  end
  | JStr s => match s with
              | String c rest => Ok (JStr (String c (continuation_bytes rest)))
              | EmptyString => Raise (Raised IndexError NoArg)
              end
  | JObj _ => Raise (Raised KeyError (Arg (JInt 0)))
  | _ => Raise (Raised TypeError NoArg)
  end.

(** [k in v] for a [str] literal. *)
Definition py_in (k : string) (v : json) : outcome bool :=
  match v with
  | JObj d => Ok (match dict_get d k with Some _ => true | None => false end)
  | JArr items => Ok (existsb (fun x => py_eq_str x k) items)
  | JStr s => Ok (str_contains (String.length s) k s)
  | _ => Raise (Raised TypeError NoArg)
  end.

(** [int(f)]. *)
Definition py_int_of_float (f : float) : outcome Z :=
  match Prim2SF f with
  | S754_zero _ => Ok 0
  | S754_finite s m e =>
      let mag := if 0 <=? e then Z.pos m * 2 ^ e else Z.pos m / 2 ^ (- e) in
      Ok (if s then - mag else mag)
  | S754_infinity _ => Raise (Raised OverflowError NoArg)
  | S754_nan => Raise (Raised ValueError NoArg)
  end.

(** ** The world outside the client

    The network, the clock, the random generators and the file system
    are oracles indexed by the number of times each has been consulted;
    [trace] records what the client did to the outside, oldest first. *)

(** What is handed to [requests]: [session.get], [session.request],
    [requests.get] or [requests.post]. *)
Record request : Type := mkRequest {
  via_session : bool;
  method : string;
  url : string;
  params : option dict;
  json_body : option dict;
  data_body : option (list byte);
  headers : option dict
}.

(** A [requests.Response], by the three things the client asks of it. *)
Record response : Type := mkResponse {
  raise_for_status : option exn;
  json_of : exn + json;
  content : list byte
}.

(** [time.gmtime()]. *)
Record struct_time : Type := mkTime {
  tm_year : Z; tm_mon : Z; tm_mday : Z; tm_hour : Z; tm_min : Z; tm_sec : Z
}.

Inductive event : Type :=
| Sent (r : request)
| Slept (seconds : Z)
| Opened (path : string).

Record world : Type := mkWorld {
  network : nat -> request -> exn + response;
  exchanges : nat;
  uuid4 : nat -> string;
  uuids_drawn : nat;
  randbits : nat -> Z;
  randoms_drawn : nat;
  time_time : nat -> float;
  time_gmtime : nat -> struct_time;
  clock_reads : nat;
  file_system : string -> exn + list byte;
  trace : list event
}.

(** State and exceptions. *)
Definition M (A : Type) : Type := world -> outcome A * world.

Definition ret {A : Type} (a : A) : M A := fun w => (Ok a, w).

Definition raise {A : Type} (e : exn) : M A := fun w => (Raise e, w).

Definition bind {A B : Type} (m : M A) (k : A -> M B) : M B :=
  fun w =>
    match m w with
    | (Ok a, w') => k a w'
    | (Raise e, w') => (Raise e, w')
    | (OutOfFuel, w') => (OutOfFuel, w')
    end.

Definition lift {A : Type} (o : outcome A) : M A := fun w => (o, w).

(** [try: m  except <class> as e: handler e]. *)
Definition try_except {A : Type} (m : M A) (caught : exn -> bool) (handler : exn -> M A) : M A :=
  fun w =>
    match m w with
    | (Raise e, w') => if caught e then handler e w' else (Raise e, w')
    | r => r
    end.

Declare Scope monad_scope.
Delimit Scope monad_scope with monad.
Notation "x <- m ;; k" := (bind m (fun x => k))
  (at level 61, m at next level, right associativity) : monad_scope.
Notation "m ;; k" := (bind m (fun _ => k))
  (at level 61, right associativity) : monad_scope.
Open Scope monad_scope.

Definition log (ev : event) (w : world) : world :=
  mkWorld (network w) (exchanges w) (uuid4 w) (uuids_drawn w) (randbits w) (randoms_drawn w)
          (time_time w) (time_gmtime w) (clock_reads w) (file_system w) (trace w ++ [ev]).

(** One HTTP exchange: the call into [requests] returns a response or
    raises. *)
Definition send (r : request) : M response :=
  fun w =>
    let w' := mkWorld (network w) (S (exchanges w)) (uuid4 w) (uuids_drawn w) (randbits w)
                      (randoms_drawn w) (time_time w) (time_gmtime w) (clock_reads w)
                      (file_system w) (trace w ++ [Sent r]) in
    match network w (exchanges w) r with
    | inl e => (Raise e, w')
    | inr resp => (Ok resp, w')
    end.

(** [response.raise_for_status()], [response.json()]. *)
Definition check_status (resp : response) : M unit :=
  match raise_for_status resp with
  | Some e => raise e
  | None => ret tt
  end.

Definition read_json (resp : response) : M json :=
  match json_of resp with
  | inl e => raise e
  | inr v => ret v
  end.

(** [time.sleep(n)]. *)
Definition sleep (n : Z) : M unit := fun w => (Ok tt, log (Slept n) w).

Definition tick (w : world) : world :=
  mkWorld (network w) (exchanges w) (uuid4 w) (uuids_drawn w) (randbits w) (randoms_drawn w)
          (time_time w) (time_gmtime w) (S (clock_reads w)) (file_system w) (trace w).

(** [time.time()], [time.gmtime()]. *)
Definition now : M float := fun w => (Ok (time_time w (clock_reads w)), tick w).

Definition gmtime : M struct_time := fun w => (Ok (time_gmtime w (clock_reads w)), tick w).

(** [str(uuid.uuid4())]. *)
Definition new_uuid : M string :=
  fun w =>
    (Ok (uuid4 w (uuids_drawn w)),
     mkWorld (network w) (exchanges w) (uuid4 w) (S (uuids_drawn w)) (randbits w)
             (randoms_drawn w) (time_time w) (time_gmtime w) (clock_reads w)
             (file_system w) (trace w)).

(** The generator behind [random.choice] and [random.randint]: a number
    below [n]. *)
Definition randbelow (n : Z) : M Z :=
  fun w =>
    (Ok (randbits w (randoms_drawn w) mod n),
     mkWorld (network w) (exchanges w) (uuid4 w) (uuids_drawn w) (randbits w)
             (S (randoms_drawn w)) (time_time w) (time_gmtime w) (clock_reads w)
             (file_system w) (trace w)).

(** [random.randint(a, b)], both ends included. *)
Definition randint (a b : Z) : M Z := (r <- randbelow (b - a + 1) ;; ret (a + r)).

(** [open(path, 'rb').read()]. *)
Definition read_file (path : string) : M (list byte) :=
  fun w =>
    match file_system w path with
    | inl e => (Raise e, log (Opened path) w)
    | inr bs => (Ok bs, log (Opened path) w)
    end.

(** [time.strftime('%Y%m%dT%H%M%SZ', t)]. *)
Definition zero_pad (width : nat) (s : string) : string :=
  String.append (repeat_string (width - String.length s) "0") s.

Definition strftime_amz (t : struct_time) : string :=
  String.concat EmptyString
    [ zero_pad 4 (str_of_Z (tm_year t)); zero_pad 2 (str_of_Z (tm_mon t));
      zero_pad 2 (str_of_Z (tm_mday t)); "T"; zero_pad 2 (str_of_Z (tm_hour t));
      zero_pad 2 (str_of_Z (tm_min t)); zero_pad 2 (str_of_Z (tm_sec t)); "Z" ].

(** ** The client: [class JimengApiClient] *)

Record client : Type := mkClient {
  refresh_token : string;
  web_id : float;
  user_id : string
}.

Definition MODEL_MAP : dict :=
  [ ("jimeng-3.1", JStr "high_aes_general_v30l_art_fangzhou:general_v3.0_18b");
    ("jimeng-3.0", JStr "high_aes_general_v30l:general_v3.0_18b");
    ("jimeng-2.1", JStr "high_aes_general_v21_L:general_v2.1_L");
    ("jimeng-2.0-pro", JStr "high_aes_general_v20_L:general_v2.0_L");
    ("jimeng-2.0", JStr "high_aes_general_v20:general_v2.0");
    ("jimeng-1.4", JStr "high_aes_general_v14:general_v1.4");
    ("jimeng-xl-pro", JStr "text2img_xl_sft") ].

Definition DEFAULT_MODEL : string := "jimeng-3.1".
Definition DEFAULT_BLEND_MODEL : string := "jimeng-3.0".
Definition DRAFT_VERSION : string := "3.0.2".
Definition DEFAULT_ASSISTANT_ID : string := "513695".
(** [int(self.DEFAULT_ASSISTANT_ID)]. *)
Definition assistant_id_int : Z := 513695.
Definition upload_image_proof_url : string := "https://imagex.bytedanceapi.com/".

Definition exception (text : string) : exn := Raised Exception (Arg (JStr text)).

(** Infix string append for the f-strings below. *)
Infix "+++" := String.append (at level 60, right associativity).

(** [_generate_cookie]. *)
Definition _generate_cookie (self : client) : M string :=
  t <- now ;;
  timestamp <- lift (py_int_of_float t) ;;
  ret (String.concat "; "
         [ "_tea_web_id=" +++ float_repr (web_id self);
           "is_staff_user=false";
           "store-region=cn-gd";
           "store-region-src=uid";
           "sid_guard=" +++ refresh_token self +++ "%7C" +++ str_of_Z timestamp
             +++ "%7C5184000%7CMon%2C+03-Feb-2025+08%3A17%3A09+GMT";
           "uid_tt=" +++ user_id self;
           "uid_tt_ss=" +++ user_id self;
           "sid_tt=" +++ refresh_token self;
           "sessionid=" +++ refresh_token self;
           "sessionid_ss=" +++ refresh_token self;
           "sid_tt=" +++ refresh_token self ]).

(** [_get_model]. *)
Definition _get_model (model : string) : json :=
  let default := match dict_get MODEL_MAP DEFAULT_MODEL with Some m => m | None => JNull end in
  match dict_get MODEL_MAP model with
  | Some m => m
  | None => default
  end.

(** [_generate_uuid]. *)
Definition _generate_uuid : M string := new_uuid.

(** [x or {}] for an optional dict. *)
Definition or_empty (d : option dict) : dict := match d with Some d => d | None => [] end.

(** [_request]. *)
Definition _request (self : client) (meth path : string) (data params hdrs : option dict)
  : M json :=
  let base_url := "https://jimeng.jianying.com" in
  let url := if String.prefix "https://" path then path else base_url +++ path in
  cookie <- _generate_cookie self ;;
  let request_headers := dict_merge [("Cookie", JStr cookie)] (or_empty hdrs) in
  try_except
    (resp <- (if String.eqb (str_upper meth) "GET"
              then send (mkRequest true "GET" url
                           (Some (dict_merge (or_empty data) (or_empty params)))
                           None None (Some request_headers))
              else send (mkRequest true (str_lower meth) url params data None
                           (Some request_headers))) ;;
     check_status resp ;;
     read_json resp)
    is_RequestException
    (fun e => raise (Raised Exception
                       (Message [Lit "即梦API请求失败: "; StrOf e]))).

Definition generate_referer : dict :=
  [("Referer", JStr "https://jimeng.jianying.com/ai-tool/image/generate")].

(** [get_credit]. *)
Definition get_credit (self : client) : M dict :=
  result <- _request self "POST" "/commerce/v1/benefits/user_credit"
              (Some []) (Some []) (Some generate_referer) ;;
  credit <- lift (py_get result "credit" (JObj [])) ;;
  gift_credit <- lift (py_get credit "gift_credit" (JInt 0)) ;;
  purchase_credit <- lift (py_get credit "purchase_credit" (JInt 0)) ;;
  vip_credit <- lift (py_get credit "vip_credit" (JInt 0)) ;;
  partial <- lift (py_add gift_credit purchase_credit) ;;
  total <- lift (py_add partial vip_credit) ;;
  ret [ ("gift_credit", gift_credit); ("purchase_credit", purchase_credit);
        ("vip_credit", vip_credit); ("total_credit", total) ].

(** [receive_credit]. *)
Definition receive_credit (self : client) : M unit :=
  _request self "POST" "/commerce/v1/benefits/credit_receive"
    (Some [("time_zone", JStr "Asia/Shanghai")]) (Some []) (Some generate_referer) ;;
  ret tt.

(** [_get_file_content]. *)
Definition _get_file_content (file_path : string) : M (list byte) :=
  try_except
    (if String.prefix "http://" file_path || String.prefix "https://" file_path
     then
       resp <- send (mkRequest false "GET" file_path None None None None) ;;
       check_status resp ;;
       ret (content resp)
     else read_file file_path)
    (fun _ => true)
    (fun e => raise (Raised Exception
                       (Message [Lit "读取文件失败: "; Lit file_path; Lit ", 错误: "; StrOf e]))).

(** [_generate_random_string]. *)
Definition characters : string := "abcdefghijklmnopqrstuvwxyz0123456789".

Fixpoint _generate_random_string (length : nat) : M string :=
  match length with
  | O => ret EmptyString
  | S length' =>
      i <- randbelow 36 ;;
      rest <- _generate_random_string length' ;;
      ret (String.substring (Z.to_nat i) 1 characters +++ rest)
  end.

(** [_get_upload_auth]. *)
Definition _get_upload_auth (self : client) : M json :=
  auth_res <- _request self "POST"
                "/mweb/v1/get_upload_token?aid=513695&da_version=3.2.2&aigc_features=app_lip_sync"
                (Some [("scene", JInt 2)]) None None ;;
  data <- lift (py_get auth_res "data" JNull) ;;
  if negb (py_truth data) then
    errmsg <- lift (py_get auth_res "errmsg" (JStr "获取上传凭证失败,账号可能已掉线!")) ;;
    raise (Raised Exception (Arg errmsg))
  else lift (py_item auth_res "data").

(** ** The request signer *)

(** The newline character. *)
Definition LF : string := str1 (chr 10).

(** [hashlib.sha256(s.encode('utf-8')).hexdigest()]. *)
Definition sha256_hex (s : string) : string :=
  Hashlib.hexdigest (Hashlib.sha256 (bytes_of_string s)).

(** [_add_headers]. *)
Definition _add_headers (amz_date : string) (session_token : json) (request_body : dict) : dict :=
  let headers := [("X-Amz-Date", JStr amz_date); ("X-Amz-Security-Token", session_token)] in
  if py_truth (JObj request_body)
  then dict_set headers "X-Amz-Content-Sha256"
         (JStr (sha256_hex (Json.dumps (JObj request_body))))
  else headers.

(** [_credential_string]. *)
Definition _credential_string (amz_date region service : string) : string :=
  String.concat "/" [String.substring 0 8 amz_date; region; service; "aws4_request"].

(** [_signed_headers]. *)
Definition _signed_headers (request_headers : dict) : string :=
  String.concat ";" (sorted (map str_lower (dict_keys request_headers))).

(** [request_headers[key]] for a key taken from the dict itself. *)
Definition header_value (request_headers : dict) (key : string) : json :=
  match dict_get request_headers key with Some v => v | None => JNull end.

(** [_canonical_string]. *)
Definition _canonical_string (request_method : string) (request_params request_headers : dict)
    (request_body : dict) : string :=
  let canonical_headers :=
    map (fun key => str_lower key +++ ":" +++ py_str (header_value request_headers key))
        (sorted (dict_keys request_headers)) in
  let canonical_headers_str := String.concat LF canonical_headers +++ LF in
  let body := if py_truth (JObj request_body) then Json.dumps (JObj request_body)
              else EmptyString in
  String.concat LF
    [ str_upper request_method;
      "/";
      Urllib.urlencode request_params;
      canonical_headers_str;
      _signed_headers request_headers;
      sha256_hex body ].

(** [_signature]. *)
Definition _signature (secret_access_key : json) (amz_date region service request_method : string)
    (request_params request_headers request_body : dict) : string :=
  let amz_day := String.substring 0 8 amz_date in
  let k_date := Hashlib.hmac_sha256 (bytes_of_string ("AWS4" +++ py_str secret_access_key))
                                    (bytes_of_string amz_day) in
  let k_region := Hashlib.hmac_sha256 k_date (bytes_of_string region) in
  let k_service := Hashlib.hmac_sha256 k_region (bytes_of_string service) in
  let signing_key := Hashlib.hmac_sha256 k_service (bytes_of_string "aws4_request") in
  let string_to_sign :=
    String.concat LF
      [ "AWS4-HMAC-SHA256";
        amz_date;
        _credential_string amz_date region service;
        sha256_hex (_canonical_string request_method request_params request_headers
                                      request_body) ] in
  Hashlib.hexdigest (Hashlib.hmac_sha256 signing_key (bytes_of_string string_to_sign)).

(** The part of [_generate_authorization_and_header] after the clock has
    been read. *)
Definition authorization_and_header (amz_date : string)
    (access_key_id secret_access_key session_token : json)
    (region service request_method : string) (request_params : dict)
    (request_body : option dict) : dict :=
  let request_body := or_empty request_body in
  let request_headers := _add_headers amz_date session_token request_body in
  let authorization_params :=
    [ "AWS4-HMAC-SHA256 Credential=" +++ py_str access_key_id +++ "/"
        +++ _credential_string amz_date region service;
      "SignedHeaders=" +++ _signed_headers request_headers;
      "Signature=" +++ _signature secret_access_key amz_date region service request_method
                         request_params request_headers request_body ] in
  let authorization := String.concat ", " authorization_params in
  dict_set request_headers "Authorization" (JStr authorization).

(** [_generate_authorization_and_header]. *)
Definition _generate_authorization_and_header
    (access_key_id secret_access_key session_token : json)
    (region service request_method : string) (request_params : dict)
    (request_body : option dict) : M dict :=
  t <- gmtime ;;
  let amz_date := strftime_amz t in
  ret (authorization_and_header amz_date access_key_id secret_access_key session_token
         region service request_method request_params request_body).
(** ** crcmod

    [crcmod.mkCrcFun] as the library's reference implementation defines it
    (module [crcmod.crcmod], Python fall-back of the C extension), for the
    default [rev=True]. *)
Module Crcmod.

(** [_verifyPoly]: the degree of the polynomial, or [None] where the
    library raises [ValueError]. *)
Definition _verifyPoly (poly : Z) : option Z :=
  find (fun n => (2 ^ n <=? poly) && (poly <? 2 ^ n * 2)) [8; 16; 24; 32; 64].

(** [_bitrev]: [for i in xrange(n): y = (y << 1) | (x & 1); x = x >> 1]. *)
Fixpoint _bitrev_loop (i : nat) (x y : Z) : Z :=
  match i with
  | O => y
  | S i' => _bitrev_loop i' (Z.shiftr x 1) (Z.lor (Z.shiftl y 1) (Z.land x 1))
  end.

Definition _bitrev (x n : Z) : Z := _bitrev_loop (Z.to_nat n) x 0.

(** One round of [_bytecrc_r]'s loop body. *)
Definition _bytecrc_r_round (poly crc : Z) : Z :=
  if Z.land crc 1 =? 0 then Z.shiftr crc 1 else Z.lxor (Z.shiftr crc 1) poly.

Definition _bytecrc_r (crc poly n : Z) : Z :=
  Z.land (Nat.iter 8 (_bytecrc_r_round poly) crc) (Z.shiftl 1 n - 1).

Definition _mkTable_r (poly n : Z) : list Z :=
  let mask := Z.shiftl 1 n - 1 in
  let poly := _bitrev (Z.land poly mask) n in
  map (fun i => _bytecrc_r (Z.of_nat i) poly n) (seq 0 256).

(** [_crc32r] and its siblings of the other widths:
    [crc = table[x ^ (crc & 0xFF)] ^ (crc >> 8)] for each byte [x]. The
    index is always below 256, the length of the table. *)
Definition _crc_r_byte (table : list Z) (crc x : Z) : Z :=
  Z.lxor (nth (Z.to_nat (Z.lxor x (Z.land crc 255))) table 0) (Z.shiftr crc 8).

Definition _crc_r (n : Z) (data : list byte) (crc : Z) (table : list Z) : Z :=
  fold_left (_crc_r_byte table) (map byte_val data) (Z.land crc (Z.shiftl 1 n - 1)).

(** [mkCrcFun(poly, initCrc, rev=True, xorOut)]: [_verifyParams] masks
    [initCrc] and [xorOut] to the width, [_mkCrcFun] builds the table and
    returns [crcfun], called here with its default [crc=initCrc]. *)
Definition mkCrcFun (poly initCrc xorOut : Z) : option (list byte -> Z) :=
  match _verifyPoly poly with
  | None => None
  | Some sizeBits =>
      let mask := Z.shiftl 1 sizeBits - 1 in
      let initCrc := Z.land initCrc mask in
      let xorOut := Z.land xorOut mask in
      let table := _mkTable_r poly sizeBits in
      Some (fun data =>
              if xorOut =? 0 then _crc_r sizeBits data initCrc table
              else Z.lxor xorOut (_crc_r sizeBits data (Z.lxor xorOut initCrc) table))
  end.

End Crcmod.

(** ** The checksum of the upload pipeline

    [_upload_cover_file], lines 343-344:
    [crc32_func = crcmod.mkCrcFun(0x104c11db7, initCrc=0, xorOut=0xFFFFFFFF)],
    [image_crc32 = hex(crc32_func(image_data))[2:]]. *)

(** Python's [hex] of a non-negative integer, and the slice [s[2:]]. *)
Definition py_hex (n : Z) : string := HexString.of_Z n.

Definition drop2 (s : string) : string := String.substring 2 (String.length s - 2) s.

Definition crc32_func : option (list byte -> Z) :=
  Crcmod.mkCrcFun 0x104c11db7 0 0xFFFFFFFF.

Definition image_crc32 (image_data : list byte) : option string :=
  match crc32_func with
  | None => None
  | Some f => Some (drop2 (py_hex (f image_data)))
  end.

(** ** CRC-32 bit by bit

    The textbook reflected CRC, written from its definition and
    independent of any table: the register is shifted right one bit at a
    time and the reflected polynomial is added whenever a one falls out. *)
Module CrcRef.

(** The [width]-bit mirror image of [x]. *)
Fixpoint reflect (width : nat) (x : Z) : Z :=
  match width with
  | O => 0
  | S w => (if Z.odd x then 2 ^ Z.of_nat w else 0) + reflect w (x / 2)
  end.

Definition shift_bit (rpoly reg : Z) : Z :=
  if Z.odd reg then Z.lxor (Z.shiftr reg 1) rpoly else Z.shiftr reg 1.

Definition feed_byte (rpoly reg b : Z) : Z :=
  Nat.iter 8 (shift_bit rpoly) (Z.lxor reg b).

(** Reflected CRC-32 with generator [poly] (degree 32, written with its
    leading bit), shift register starting at [reg_init], result XORed
    with [xor_out]. *)
Definition crc32_reflected (poly reg_init xor_out : Z) (data : list byte) : Z :=
  Z.lxor (fold_left (feed_byte (reflect 32 (poly mod 2 ^ 32))) (map byte_val data) reg_init)
         xor_out.

End CrcRef.

(** The polynomial of [crc32_func] without its leading bit, mirrored. *)
Definition rpoly32 : Z := 0xEDB88320.


(** ** The upload pipeline *)

Definition ServiceId : string := "tb4s082cfz".
Definition imagex_version : string := "2018-08-01".

(** [if 'Response' in res and 'Error' in res['Response']:
       raise Exception(res['Response']['Error']['Message'])]. *)
Definition check_error_envelope (res : json) : outcome unit :=
  obind (py_in "Response" res) (fun has_response =>
  if has_response then
    obind (py_item res "Response") (fun r =>
    obind (py_in "Error" r) (fun has_error =>
    if has_error then
      obind (py_item res "Response") (fun r1 =>
      obind (py_item r1 "Error") (fun err =>
      obind (py_item err "Message") (fun message =>
      Raise (Raised Exception (Arg message)))))
    else Ok tt))
  else Ok tt).

(** [_upload_cover_file]. *)
Definition _upload_cover_file (self : client) (file_path : string) : M json :=
  try_except
    (upload_auth <- _get_upload_auth self ;;
     image_data <- _get_file_content file_path ;;
     image_crc32 <- (match image_crc32 image_data with
                     | Some s => ret s
                     | None => raise (Raised ValueError NoArg)
                     end) ;;
     let FileSize := JInt (Z.of_nat (List.length image_data)) in
     s <- _generate_random_string 11 ;;
     let get_upload_image_proof_request_params :=
       [ ("Action", JStr "ApplyImageUpload"); ("FileSize", FileSize);
         ("ServiceId", JStr ServiceId); ("Version", JStr imagex_version); ("s", JStr s) ] in
     access_key_id <- lift (py_item upload_auth "access_key_id") ;;
     secret_access_key <- lift (py_item upload_auth "secret_access_key") ;;
     session_token <- lift (py_item upload_auth "session_token") ;;
     request_headers_info <-
       _generate_authorization_and_header access_key_id secret_access_key session_token
         "cn-north-1" "imagex" "GET" get_upload_image_proof_request_params None ;;
     upload_img_res <-
       _request self "GET"
         (upload_image_proof_url +++ "?"
            +++ Urllib.urlencode get_upload_image_proof_request_params)
         (Some []) (Some []) (Some request_headers_info) ;;
     lift (check_error_envelope upload_img_res) ;;
     result <- lift (py_item upload_img_res "Result") ;;
     upload_address <- lift (py_item result "UploadAddress") ;;
     hosts <- lift (py_item upload_address "UploadHosts") ;;
     host <- lift (py_first hosts) ;;
     store_infos <- lift (py_item upload_address "StoreInfos") ;;
     store_info <- lift (py_first store_infos) ;;
     store_uri <- lift (py_item store_info "StoreUri") ;;
     let upload_img_url :=
       "https://" +++ py_str host +++ "/upload/v1/" +++ py_str store_uri in
     store_infos' <- lift (py_item upload_address "StoreInfos") ;;
     store_info' <- lift (py_first store_infos') ;;
     auth <- lift (py_item store_info' "Auth") ;;
     let upload_headers :=
       [ ("Authorization", auth); ("Content-Crc32", JStr image_crc32);
         ("Content-Type", JStr "application/octet-stream") ] in
     resp <- send (mkRequest false "POST" upload_img_url None None (Some image_data)
                     (Some upload_headers)) ;;
     image_upload_res <- read_json resp ;;
     code <- lift (py_get image_upload_res "code" JNull) ;;
     (if negb (py_eq_int code 2000) then
        message <- lift (py_get image_upload_res "message" (JStr "上传失败")) ;;
        raise (Raised Exception (Arg message))
      else ret tt) ;;
     let commit_img_params :=
       [ ("Action", JStr "CommitImageUpload"); ("FileSize", FileSize);
         ("ServiceId", JStr ServiceId); ("Version", JStr imagex_version) ] in
     session_key <- lift (py_item upload_address "SessionKey") ;;
     let commit_img_content := [("SessionKey", session_key)] in
     access_key_id' <- lift (py_item upload_auth "access_key_id") ;;
     secret_access_key' <- lift (py_item upload_auth "secret_access_key") ;;
     session_token' <- lift (py_item upload_auth "session_token") ;;
     commit_img_head <-
       _generate_authorization_and_header access_key_id' secret_access_key' session_token'
         "cn-north-1" "imagex" "POST" commit_img_params (Some commit_img_content) ;;
     let commit_img_head := dict_set commit_img_head "Content-Type" (JStr "application/json") in
     commit_img <-
       _request self "POST"
         (upload_image_proof_url +++ "?" +++ Urllib.urlencode commit_img_params)
         (Some commit_img_content) (Some []) (Some commit_img_head) ;;
     lift (check_error_envelope commit_img) ;;
     result' <- lift (py_item commit_img "Result") ;;
     results <- lift (py_item result' "Results") ;;
     first <- lift (py_first results) ;;
     lift (py_item first "Uri"))
    (fun _ => true)
    (fun e => raise (Raised Exception (Message [Lit "上传文件失败: "; StrOf e]))).

(** ** Generation: draft, submission, polling *)

Declare Scope outcome_scope.
Delimit Scope outcome_scope with outcome.
Notation "x <- m ;; k" := (obind m (fun x => k))
  (at level 61, m at next level, right associativity) : outcome_scope.

(** The [abilities] of a request with a reference image. *)
Definition blend_abilities (actual_model : json) (prompt : string) (sample_strength : float)
    (upload_id : json) : M dict :=
  blend_id <- _generate_uuid ;;
  core_param_id <- _generate_uuid ;;
  large_image_info_id <- _generate_uuid ;;
  ability_id <- _generate_uuid ;;
  image_id <- _generate_uuid ;;
  history_option_id <- _generate_uuid ;;
  placeholder_id <- _generate_uuid ;;
  postedit_param_id <- _generate_uuid ;;
  ret [ ("blend", JObj
      [ ("type", JStr EmptyString);
        ("id", JStr blend_id);
        ("min_features", JArr []);
        ("core_param", JObj
          [ ("type", JStr EmptyString);
            ("id", JStr core_param_id);
            ("model", actual_model);
            ("prompt", JStr (prompt +++ "##"));
            ("sample_strength", JFloat sample_strength);
            ("image_ratio", JInt 1);
            ("large_image_info", JObj
              [ ("type", JStr EmptyString);
                ("id", JStr large_image_info_id);
                ("height", JInt 1360);
                ("width", JInt 1360);
                ("resolution_type", JStr "1k") ]) ]);
        ("ability_list", JArr
          [ JObj
            [ ("type", JStr EmptyString);
              ("id", JStr ability_id);
              ("name", JStr "byte_edit");
              ("image_uri_list", JArr [upload_id]);
              ("image_list", JArr
                [ JObj
                  [ ("type", JStr "image");
                    ("id", JStr image_id);
                    ("source_from", JStr "upload");
                    ("platform_type", JInt 1);
                    ("name", JStr EmptyString);
                    ("image_uri", upload_id);
                    ("width", JInt 0);
                    ("height", JInt 0);
                    ("format", JStr EmptyString);
                    ("uri", upload_id) ] ]);
              ("strength", JFloat 0.5) ] ]);
        ("history_option", JObj
          [ ("type", JStr EmptyString);
            ("id", JStr history_option_id) ]);
        ("prompt_placeholder_info_list", JArr
          [ JObj
            [ ("type", JStr EmptyString);
              ("id", JStr placeholder_id);
              ("ability_index", JInt 0) ] ]);
        ("postedit_param", JObj
          [ ("type", JStr EmptyString);
            ("id", JStr postedit_param_id);
            ("generate_type", JInt 0) ]) ]) ].

(** The [abilities] of a request without one. *)
Definition generate_abilities (actual_model : json) (prompt negative_prompt : string)
    (width height : Z) (sample_strength : float) : M dict :=
  generate_id <- _generate_uuid ;;
  core_param_id <- _generate_uuid ;;
  seed <- randint 2500000000 2600000000 ;;
  large_image_info_id <- _generate_uuid ;;
  history_option_id <- _generate_uuid ;;
  ret [ ("generate", JObj
      [ ("type", JStr EmptyString);
        ("id", JStr generate_id);
        ("core_param", JObj
          [ ("type", JStr EmptyString);
            ("id", JStr core_param_id);
            ("model", actual_model);
            ("prompt", JStr prompt);
            ("negative_prompt", JStr negative_prompt);
            ("seed", JInt seed);
            ("sample_strength", JFloat sample_strength);
            ("image_ratio", JInt 1);
            ("large_image_info", JObj
              [ ("type", JStr EmptyString);
                ("id", JStr large_image_info_id);
                ("height", JInt height);
                ("width", JInt width);
                ("resolution_type", JStr "1k") ]) ]);
        ("history_option", JObj
          [ ("type", JStr EmptyString);
            ("id", JStr history_option_id) ]) ]) ].

(** The dict that [json.dumps] turns into [draft_content]. *)
Definition draft_document (has_file_path : bool) (component_id : string) (abilities : dict)
  : M json :=
  draft_id <- _generate_uuid ;;
  metadata_id <- _generate_uuid ;;
  t <- now ;;
  created_time_in_ms <- lift (py_int_of_float (PrimFloat.mul t 1000)) ;;
  abilities_id <- _generate_uuid ;;
  ret (JObj
    [ ("type", JStr "draft");
      ("id", JStr draft_id);
      ("min_version", JStr DRAFT_VERSION);
      ("is_from_tsn", JBool true);
      ("version", JStr "3.2.2");
      ("main_component_id", JStr component_id);
      ("component_list", JArr
        [ JObj
          [ ("type", JStr "image_base_component");
            ("id", JStr component_id);
            ("min_version", JStr DRAFT_VERSION);
            ("metadata", JObj
              [ ("type", JStr EmptyString);
                ("id", JStr metadata_id);
                ("created_platform", JInt 3);
                ("created_platform_version", JStr EmptyString);
                ("created_time_in_ms", JInt created_time_in_ms);
                ("created_did", JStr EmptyString) ]);
            ("generate_type", JStr (if has_file_path then "blend" else "generate"));
            ("aigc_mode", JStr "workbench");
            ("abilities", JObj
              (dict_merge [("type", JStr EmptyString); ("id", JStr abilities_id)]
                          abilities)) ] ]) ]).

Definition metrics_extra : json :=
  JObj [ ("templateId", JStr EmptyString);
         ("generateCount", JInt 1);
         ("promptSource", JStr "custom");
         ("templateSource", JStr EmptyString);
         ("lastRequestId", JStr EmptyString);
         ("originRequestId", JStr EmptyString) ].

(** The body of a status request. *)
Definition image_scene (scene : string) (width height : Z) (uniq_key : string) : json :=
  JObj [ ("scene", JStr scene); ("width", JInt width); ("height", JInt height);
         ("uniq_key", JStr uniq_key); ("format", JStr "webp") ].

Definition history_query (history_id : json) : dict :=
  [ ("history_ids", JArr [history_id]);
    ("image_info", JObj
      [ ("width", JInt 2048);
        ("height", JInt 2048);
        ("format", JStr "webp");
        ("image_scene_list", JArr
          [ image_scene "smart_crop" 360 360 "smart_crop-w:360-h:360";
            image_scene "smart_crop" 480 480 "smart_crop-w:480-h:480";
            image_scene "smart_crop" 720 720 "smart_crop-w:720-h:720";
            image_scene "smart_crop" 720 480 "smart_crop-w:720-h:480";
            image_scene "smart_crop" 360 240 "smart_crop-w:360-h:240";
            image_scene "smart_crop" 240 320 "smart_crop-w:240-h:320";
            image_scene "smart_crop" 480 640 "smart_crop-w:480-h:640";
            image_scene "normal" 2400 2400 "2400";
            image_scene "normal" 1080 1080 "1080";
            image_scene "normal" 720 720 "720";
            image_scene "normal" 480 480 "480";
            image_scene "normal" 360 360 "360" ]) ]);
    ("http_common_info", JObj [("aid", JInt assistant_id_int)]) ].

(** The three variables the poll loop carries. *)
Record poll_state : Type := mkPoll {
  status : json;
  fail_code : json;
  item_list : json
}.

Definition initial_poll_state : poll_state := mkPoll (JInt 20) JNull (JArr []).

(** The first half of the body of [while status == 20]: sleep, ask, and
    find the record of the job. *)
Definition poll_fetch (self : client) (history_id : json) : M json :=
  sleep 1 ;;
  result <- _request self "POST" "/mweb/v1/get_history_by_ids"
              (Some (history_query history_id)) None None ;;
  data <- lift (py_get result "data" (JObj [])) ;;
  record <- lift (py_get_value data history_id) ;;
  if negb (py_truth record) then raise (exception "记录不存在") else ret record.

(** The second half: read the record, fail on status 30. *)
Definition poll_read (record : json) : M poll_state :=
  status <- lift (py_get record "status" JNull) ;;
  fail_code <- lift (py_get record "fail_code" JNull) ;;
  item_list <- lift (py_get record "item_list" (JArr [])) ;;
  if py_eq_int status 30 then
    if py_eq_str fail_code "2038" then raise (exception "内容被过滤")
    else raise (exception "图像生成失败")
  else ret (mkPoll status fail_code item_list).

Definition poll_once (self : client) (history_id : json) : M poll_state :=
  record <- poll_fetch self history_id ;;
  poll_read record.

(** [while status == 20: ...], at most [fuel] passes. *)
Fixpoint poll_loop (fuel : nat) (self : client) (history_id : json) (st : poll_state)
  : M poll_state :=
  if py_eq_int (status st) 20 then
    match fuel with
    | O => fun w => (OutOfFuel, w)
    | S fuel' =>
        st' <- poll_once self history_id ;;
        poll_loop fuel' self history_id st'
    end
  else ret st.

(** The code points of a string, one string each. *)
Fixpoint split_chars (s : string) (current : string) : list string :=
  match s with
  | EmptyString => match current with EmptyString => [] | _ => [current] end
  | String c s' =>
      if (128 <=? code c) && (code c <? 192) then split_chars s' (current +++ str1 c)
      else match current with
           | EmptyString => split_chars s' (str1 c)
           | _ => current :: split_chars s' (str1 c)
           end
  end.

(** [for item in v]. *)
Definition py_iter (v : json) : outcome (list json) :=
  match v with
  | JArr items => Ok items
  | JObj fields => Ok (map JStr (dict_keys fields))
  | JStr s => Ok (map JStr (split_chars s EmptyString))
  | _ => Raise (Raised TypeError NoArg)
  end.

(** The body of [for item in item_list], up to the test of [image_url]. *)
Definition item_image_url (item : json) : outcome json :=
  (image <- py_get item "image" (JObj []) ;;
   large_images <- py_get image "large_images" JNull ;;
   if py_truth large_images then
     image' <- py_item item "image" ;;
     large_images' <- py_item image' "large_images" ;;
     first <- py_first large_images' ;;
     py_get first "image_url" JNull
   else
     common_attr <- py_get item "common_attr" (JObj []) ;;
     cover_url <- py_get common_attr "cover_url" JNull ;;
     if py_truth cover_url then
       common_attr' <- py_item item "common_attr" ;;
       py_item common_attr' "cover_url"
     else Ok JNull)%outcome.

Fixpoint collect_image_urls (items : list json) (image_urls : list json)
  : outcome (list json) :=
  match items with
  | [] => Ok image_urls
  | item :: rest =>
      (image_url <- item_image_url item ;;
       collect_image_urls rest
         (if py_truth image_url then image_urls ++ [image_url] else image_urls))%outcome
  end.

Definition extract_image_urls (item_list : json) : outcome (list json) :=
  (items <- py_iter item_list ;; collect_image_urls items [])%outcome.

(** [bool(file_path)]. *)
Definition has_file (file_path : option string) : bool :=
  match file_path with
  | Some p => negb (String.eqb p EmptyString)
  | None => false
  end.

(** [if has_file_path: upload_id = self._upload_cover_file(file_path)],
    [upload_id] being [None] otherwise. *)
Definition upload_phase (self : client) (file_path : option string) : M json :=
  match file_path with
  | Some p => if has_file file_path then _upload_cover_file self p else ret JNull
  | None => ret JNull
  end.

(** [self.DEFAULT_BLEND_MODEL if has_file_path else (model or self.DEFAULT_MODEL)]. *)
Definition model_name (file_path model : option string) : string :=
  if has_file file_path then DEFAULT_BLEND_MODEL
  else match model with
       | Some m => if String.eqb m EmptyString then DEFAULT_MODEL else m
       | None => DEFAULT_MODEL
       end.

(** [credit_info = self.get_credit()] and the claim of the daily grant. *)
Definition credit_phase (self : client) : M unit :=
  credit_info <- get_credit self ;;
  total_credit <- lift (match dict_get credit_info "total_credit" with
                        | Some t => Ok t
                        | None => Raise (Raised KeyError (Arg (JStr "total_credit")))
                        end) ;;
  out_of_credit <- lift (py_le_int total_credit 0) ;;
  if out_of_credit then receive_credit self else ret tt.

(** What the client builds for one submission: the query parameters, the
    [submit_id], and the draft before [json.dumps]. *)
Record submission : Type := mkSubmission {
  rq_params : dict;
  submit_id : string;
  draft : json
}.

Definition build_submission (self : client) (has_file_path : bool) (actual_model : json)
    (prompt negative_prompt : string) (width height : Z) (sample_strength : float)
    (upload_id : json) : M submission :=
  component_id <- _generate_uuid ;;
  web_id_int <- lift (py_int_of_float (web_id self)) ;;
  let rq_params :=
    [ ("babi_param", JStr (Urllib.quote (Json.dumps (JObj
         [ ("scenario", JStr "image_video_generation");
           ("feature_key", JStr (if has_file_path then "to_image_referenceimage_generate"
                                 else "aigc_to_image"));
           ("feature_entrance", JStr "to_image");
           ("feature_entrance_detail",
            JStr (if has_file_path then "to_image-referenceimage-byte_edit"
                  else "to_image-" +++ py_str actual_model)) ]))));
      ("aid", JInt assistant_id_int);
      ("device_platform", JStr "web");
      ("region", JStr "CN");
      ("web_id", JInt web_id_int) ] in
  abilities <- (if has_file_path
                then blend_abilities actual_model prompt sample_strength upload_id
                else generate_abilities actual_model prompt negative_prompt width height
                       sample_strength) ;;
  submit_id <- _generate_uuid ;;
  draft <- draft_document has_file_path component_id abilities ;;
  ret (mkSubmission rq_params submit_id draft).

(** [rq_data]. *)
Definition rq_data (has_file_path : bool) (actual_model : json) (s : submission) : dict :=
  let rq_data :=
    [ ("extend", JObj [("root_model", actual_model); ("template_id", JStr EmptyString)]);
      ("submit_id", JStr (submit_id s));
      ("draft_content", JStr (Json.dumps (draft s))) ] in
  if negb has_file_path
  then dict_set rq_data "metrics_extra" (JStr (Json.dumps metrics_extra))
  else rq_data.

(** The submission request and the job identifier in its answer. *)
Definition submit (self : client) (has_file_path : bool) (actual_model : json)
    (s : submission) : M json :=
  result <- _request self "POST" "/mweb/v1/aigc_draft/generate"
              (Some (rq_data has_file_path actual_model s)) (Some (rq_params s)) None ;;
  data <- lift (py_get result "data" (JObj [])) ;;
  aigc_data <- lift (py_get data "aigc_data" (JObj [])) ;;
  history_id <- lift (py_get aigc_data "history_record_id" JNull) ;;
  if negb (py_truth history_id) then
    error_msg <- lift (py_get result "errmsg" (JStr "记录ID不存在")) ;;
    raise (Raised Exception (Arg error_msg))
  else ret history_id.

(** The poll loop and the extraction of the URLs. *)
Definition await_result (fuel : nat) (self : client) (history_id : json) : M (list json) :=
  st <- poll_loop fuel self history_id initial_poll_state ;;
  lift (extract_image_urls (item_list st)).

(** From the draft to the job identifier. *)
Definition submit_job (self : client) (prompt : string) (file_path model : option string)
    (width height : Z) (sample_strength : float) (negative_prompt : string)
    (upload_id : json) : M json :=
  let has_file_path := has_file file_path in
  let actual_model := _get_model (model_name file_path model) in
  s <- build_submission self has_file_path actual_model prompt negative_prompt width height
         sample_strength upload_id ;;
  submit self has_file_path actual_model s.

(** [generate_image]. The poll loop makes at most [fuel] passes. *)
Definition generate_image (fuel : nat) (self : client) (prompt : string)
    (file_path model : option string) (width height : Z) (sample_strength : float)
    (negative_prompt : string) : M (list json) :=
  if String.eqb prompt EmptyString then
    raise (Raised ValueError (Arg (JStr "prompt必须是非空字符串")))
  else
    upload_id <- upload_phase self file_path ;;
    credit_phase self ;;
    history_id <- submit_job self prompt file_path model width height sample_strength
                    negative_prompt upload_id ;;
    await_result fuel self history_id.
(** ** Making a client: [__init__]

    The session of [requests] and the headers put on it live outside
    the client; a request made through the session says so
    ([via_session]). *)

(** [random.random()]: 53 random bits scaled into [0, 1). *)
Definition random_random : M float :=
  fun w =>
    (Ok (SF2Prim (binary_normalize 53 1024 (randbits w (randoms_drawn w) mod 2 ^ 53)
                    (-53) false)),
     mkWorld (network w) (exchanges w) (uuid4 w) (uuids_drawn w) (randbits w)
             (S (randoms_drawn w)) (time_time w) (time_gmtime w) (clock_reads w)
             (file_system w) (trace w)).

(** [s.replace(c, '')] for a one-character [c]. *)
Fixpoint str_remove (c : ascii) (s : string) : string :=
  match s with
  | EmptyString => EmptyString
  | String x s' => if Ascii.eqb x c then str_remove c s' else String x (str_remove c s')
  end.

Definition no_token : exn :=
  Raised ValueError (Arg (JStr "JIMENG_API_TOKEN 环境变量未设置或未提供 refresh_token")).

(** [__init__]; [environ] is [os.getenv] at the time of the call. *)
Definition __init__ (environ : string -> option string) (refresh_token : option string)
  : M client :=
  let refresh_token :=
    match refresh_token with
    | Some t => if String.eqb t EmptyString then environ "JIMENG_API_TOKEN" else Some t
    | None => environ "JIMENG_API_TOKEN"
    end in
  match refresh_token with
  | None => raise no_token
  | Some t =>
      if String.eqb t EmptyString then raise no_token
      else
        r <- random_random ;;
        let web_id := PrimFloat.add (PrimFloat.mul r 1e18) 7e18 in
        u <- new_uuid ;;
        ret (mkClient t web_id (str_remove "-" u))
  end.


(** ** Notions the properties are stated with *)

(** The check string of the CRC catalogues. *)
Definition check_input : list byte := bytes_of_string "123456789".

(** [generate_image] up to the job identifier: upload, credit, draft,
    submission. *)
Definition start_job (self : client) (prompt : string) (file_path model : option string)
    (width height : Z) (sample_strength : float) (negative_prompt : string) : M json :=
  upload_id <- upload_phase self file_path ;;
  credit_phase self ;;
  submit_job self prompt file_path model width height sample_strength negative_prompt
    upload_id.

(** The two messages of a failed job, and the error kinds of the design
    document they stand for. *)
Definition ContentFilteredError : exn := exception "内容被过滤".
Definition GenerationFailedError : exn := exception "图像生成失败".
(** The error of an empty prompt, the design document's [ValidationError]. *)
Definition ValidationError : exn := Raised ValueError (Arg (JStr "prompt必须是非空字符串")).

(** The world after [k] more polls that each found the job pending, if
    that is how the next [k] polls go. *)
Fixpoint pending_polls (k : nat) (self : client) (history_id : json) (w : world)
  : option world :=
  match k with
  | O => Some w
  | S k' =>
      match poll_once self history_id w with
      | (Ok st, w') =>
          if py_eq_int (status st) 20 then pending_polls k' self history_id w' else None
      | _ => None
      end
  end.

(** Where the requests of a trace went. *)
Definition sent_urls (t : list event) : list string :=
  flat_map (fun ev => match ev with Sent r => [url r] | _ => [] end) t.

(** What is left of [generate_image] once the credit is settled:
    submission, polling, extraction. *)
Definition after_credit (fuel : nat) (self : client) (prompt : string)
    (file_path model : option string) (width height : Z) (sample_strength : float)
    (negative_prompt : string) (upload_id : json) : M (list json) :=
  history_id <- submit_job self prompt file_path model width height sample_strength
                  negative_prompt upload_id ;;
  await_result fuel self history_id.

(** A field of a record of the service. *)
Definition field (fields : dict) (k : string) (default : json) : json :=
  match dict_get fields k with Some v => v | None => default end.

(** The identifiers of the nodes of a document: the values under the key
    [id], outermost first. *)
Fixpoint node_ids (v : json) : list json :=
  match v with
  | JArr items => flat_map node_ids items
  | JObj fields =>
      (fix members (l : list (string * json)) : list json :=
         match l with
         | [] => []
         | (k, x) :: l' =>
             (if String.eqb k "id" then [x] else []) ++ node_ids x ++ members l'
         end) fields
  | _ => []
  end.

(** [w'] is [w] or a later state of the same world: the same UUID
    generator, at least as many draws behind it. *)
Definition later (w w' : world) : Prop :=
  uuid4 w' = uuid4 w /\ (uuids_drawn w <= uuids_drawn w')%nat.

(** Every identifier of one submission. *)
Definition submission_ids (s : submission) : list json :=
  JStr (submit_id s) :: node_ids (draft s).

(** Counting exchanges. A step is quiet when it leaves the network
    alone; it is one exchange when it makes one, or fails before making
    it. A computation is doomed at [pos] when, started at the [pos]-th
    exchange of the network [net], it ends with an error and has made no
    exchange from the [limit]-th on. *)
Definition quiet {A : Type} (m : M A) : Prop :=
  forall w o w', m w = (o, w') ->
    network w' = network w /\ exchanges w' = exchanges w /\ o <> OutOfFuel.

Definition one_exchange {A : Type} (m : M A) : Prop :=
  forall w o w', m w = (o, w') ->
    network w' = network w /\ o <> OutOfFuel /\
    (exchanges w <= exchanges w' <= S (exchanges w))%nat /\
    forall a, o = Ok a -> exchanges w' = S (exchanges w).

Definition doomed {A : Type} (net : nat -> request -> exn + response) (limit pos : nat)
    (m : M A) : Prop :=
  forall w, network w = net -> exchanges w = pos ->
    exists e w', m w = (Raise e, w') /\ (exchanges w' <= limit)%nat.

(** The design document's wording, to compare the code with. *)
Module Spec.

(** Text and values within ASCII, where [str.lower], [str.upper] and
    [repr] are exactly the functions above. *)
Fixpoint ascii_text (s : string) : bool :=
  match s with
  | EmptyString => true
  | String c s' => (code c <? 128) && ascii_text s'
  end.

Fixpoint ascii_value (v : json) : bool :=
  match v with
  | JStr s => ascii_text s
  | JArr items => forallb ascii_value items
  | JObj fields =>
      (fix members (l : list (string * json)) : bool :=
         match l with
         | [] => true
         | (k, x) :: l' => ascii_text k && ascii_value x && members l'
         end) fields
  | _ => true
  end.

Definition ascii_dict (d : dict) : bool := ascii_value (JObj d).

Fixpoint insert_by_key (kv : string * json) (d : dict) : dict :=
  match d with
  | [] => [kv]
  | kv' :: d' =>
      if String.leb (fst kv) (fst kv') then kv :: d else kv' :: insert_by_key kv d'
  end.

(** A map with its entries sorted by key. *)
Definition sort_by_key (d : dict) : dict := fold_right insert_by_key [] d.

Definition lower_keys (d : dict) : dict :=
  map (fun kv => (str_lower (fst kv), snd kv)) d.

(** [key:value\n]. *)
Definition header_line (kv : string * json) : string :=
  fst kv +++ ":" +++ py_str (snd kv) +++ LF.

(** METHOD, '/', the URL-encoded query string with parameters sorted by
    key, the lower-cased key-sorted header lines each ending in a
    newline, the semicolon-joined sorted lower-cased header names, the
    hex SHA-256 of the serialized body (of the empty string when the
    body is empty), joined by newlines. *)
Definition canonical_request (meth : string) (query headers body : dict) : string :=
  String.concat LF
    [ str_upper meth;
      "/";
      Urllib.urlencode (sort_by_key query);
      String.concat EmptyString (map header_line (sort_by_key (lower_keys headers)));
      String.concat ";" (sorted (map str_lower (dict_keys headers)));
      sha256_hex (match body with
                  | [] => EmptyString
                  | _ => Json.dumps (JObj body)
                  end) ].

(** No name occurs twice. *)
Fixpoint distinct (names : list string) : bool :=
  match names with
  | [] => true
  | x :: rest => negb (existsb (String.eqb x) rest) && distinct rest
  end.

(** Lower-casing keeps the order of the names: any two of them compare
    the same before and after. *)
Definition order_kept_by_lower (names : list string) : bool :=
  forallb (fun a =>
    forallb (fun b => Bool.eqb (String.leb a b) (String.leb (str_lower a) (str_lower b)))
            names) names.

(** Reading a path of keys in a value. *)
Definition lookup (v : json) (k : string) : option json :=
  match v with
  | JObj d => dict_get d k
  | _ => None
  end.

Definition large_images (item : json) : list json :=
  match lookup item "image" with
  | Some image => match lookup image "large_images" with
                  | Some (JArr l) => l
                  | _ => []
                  end
  | None => []
  end.

Definition first_large_image_url (item : json) : option json :=
  match large_images item with
  | first :: _ => lookup first "image_url"
  | [] => None
  end.

Definition cover_image_url (item : json) : option json :=
  match lookup item "common_attr" with
  | Some common_attr => lookup common_attr "cover_url"
  | None => None
  end.

(** "The first large-image URL if the item has one, else the item's
    cover-image URL". *)
Definition claimed_item_url (item : json) : option json :=
  match first_large_image_url item with
  | Some u => Some u
  | None => cover_image_url item
  end.

Definition claimed_urls (items : list json) : list json :=
  flat_map (fun item => match claimed_item_url item with
                        | Some u => [u]
                        | None => []
                        end) items.

(** A URL that is there and not empty. *)
Definition present (o : option json) : list json :=
  match o with
  | Some u => if py_truth u then [u] else []
  | None => []
  end.

(** The first large image decides when there is one; the cover is read
    only when there is no large image. *)
Definition item_urls (item : json) : list json :=
  match large_images item with
  | first :: _ => present (lookup first "image_url")
  | [] => present (cover_image_url item)
  end.

Definition result_urls (items : list json) : list json := flat_map item_urls items.

(** The shape of an entry of [item_list]: an object whose [image] and
    [common_attr], where present, are objects, and whose
    [large_images], where present, is [null] or a list starting (if
    not empty) with an object. *)
Definition well_formed_item (item : json) : bool :=
  match item with
  | JObj fields =>
      match dict_get fields "image" with
      | None => true
      | Some (JObj image) =>
          match dict_get image "large_images" with
          | None | Some JNull | Some (JArr []) | Some (JArr (JObj _ :: _)) => true
          | _ => false
          end
      | Some _ => false
      end
      &&
      match dict_get fields "common_attr" with
      | None | Some (JObj _) => true
      | Some _ => false
      end
  | _ => false
  end.

End Spec.

(** Scripted worlds, for running the client on concrete exchanges. *)
Module Scenario.

Definition reply (v : json) : exn + response := inr (mkResponse None (inr v) []).

(** The balance endpoint reporting [total] gift credits. *)
Definition credit_reply (total : Z) : exn + response :=
  reply (JObj [("credit", JObj [("gift_credit", JInt total)])]).

(** The submission endpoint accepting the job as [h1]. *)
Definition submitted_reply : exn + response :=
  reply (JObj [("data", JObj [("aigc_data", JObj [("history_record_id", JStr "h1")])])]).

(** The status endpoint reporting [record] for the job [h1]. *)
Definition status_reply (record : json) : exn + response :=
  reply (JObj [("data", JObj [("h1", record)])]).

Definition pending : json := JObj [("status", JInt 20)].

Definition failed (fail_code : json) : json :=
  JObj [("status", JInt 30); ("fail_code", fail_code)].

Definition finished (status : Z) (items : list json) : json :=
  JObj [("status", JInt status); ("item_list", JArr items)].

(** A transport that answers its i-th exchange with the i-th entry of
    a script, and keeps reporting the job pending after that. *)
Definition scripted (script : list (exn + response)) : nat -> request -> exn + response :=
  fun i _ => nth i script (status_reply pending).

Definition numbered_uuid (n : nat) : string := "uuid-" +++ str_of_Z (Z.of_nat n).

Definition world_of (net : nat -> request -> exn + response) : world :=
  mkWorld net 0 numbered_uuid 0 (fun n => 7 * Z.of_nat n) 0
          (fun _ => 1762218000.5%float) (fun _ => mkTime 2026 11 4 1 0 0) 0
          (fun _ => inl (Raised OSError NoArg)) [].

Definition self : client := mkClient "token" 7.5e18%float "0123456789abcdef".

(** [self.generate_image(prompt)] with every other argument at its
    default. *)
Definition generate (fuel : nat) (prompt : string) : M (list json) :=
  generate_image fuel self prompt None None 1024 1024 0.5%float EmptyString.

Definition start (prompt : string) : M json :=
  start_job self prompt None None 1024 1024 0.5%float EmptyString.

(** The submission [generate "cat"] builds. *)
Definition build (w : world) : outcome submission * world :=
  build_submission self (has_file None) (_get_model (model_name None None))
    "cat" EmptyString 1024 1024 0.5%float JNull w.

Definition with_large_images : json :=
  JObj [ ("image", JObj [("large_images",
            JArr [JObj [("image_url", JStr "https://img.example/large-1.webp")]])]);
         ("common_attr", JObj [("cover_url", JStr "https://img.example/cover-1.webp")]) ].

Definition with_cover_only : json :=
  JObj [ ("common_attr", JObj [("cover_url", JStr "https://img.example/cover-2.webp")]) ].

(** An entry whose first large image carries no [image_url], beside a
    cover URL. *)
Definition large_image_without_url : json :=
  JObj [ ("image", JObj [("large_images", JArr [JObj [("width", JInt 2048)]])]);
         ("common_attr", JObj [("cover_url", JStr "https://img.example/cover-3.webp")]) ].

(** Status 20 twice, then 50 with two items. *)
Definition two_pending_then_done : world :=
  world_of (scripted [ credit_reply 10; submitted_reply;
                       status_reply pending; status_reply pending;
                       status_reply (finished 50 [with_large_images; with_cover_only]) ]).

Definition done_with (status : Z) (items : list json) : world :=
  world_of (scripted [ credit_reply 10; submitted_reply;
                       status_reply pending;
                       status_reply (finished status items) ]).

Definition one_pending_then_failed (fail_code : json) : world :=
  world_of (scripted [ credit_reply 10; submitted_reply;
                       status_reply pending; status_reply (failed fail_code) ]).

(** No credit left, and the claim of the daily grant fails in the
    transport. *)
Definition claim_fails : world :=
  world_of (scripted [ credit_reply 0;
                       inl (Raised RequestException (Arg (JStr "503 Server Error")));
                       submitted_reply;
                       status_reply (finished 50 [with_cover_only]) ]).

(** No credit left, and the claim is answered, with whatever. *)
Definition claim_answered (answer : json) : world :=
  world_of (scripted [ credit_reply 0; reply answer; submitted_reply;
                       status_reply (finished 50 [with_cover_only]) ]).

(** The upload pipeline: the token, the address to upload to, the
    answer of the storage host, the answer to the commit. *)
Definition upload_token_reply : exn + response :=
  reply (JObj [("data", JObj [ ("access_key_id", JStr "AKID");
                               ("secret_access_key", JStr "secret");
                               ("session_token", JStr "session") ])]).

Definition apply_reply : exn + response :=
  reply (JObj [("Result", JObj [("UploadAddress", JObj
           [ ("UploadHosts", JArr [JStr "upload.example"]);
             ("StoreInfos", JArr [JObj [ ("StoreUri", JStr "store/uri-1");
                                         ("Auth", JStr "SpaceKey/abc") ]]);
             ("SessionKey", JStr "session-key") ])])]).

Definition stored_reply (code : json) : exn + response := reply (JObj [("code", code)]).

Definition commit_reply : exn + response :=
  reply (JObj [("Result", JObj [("Results", JArr [JObj [("Uri", JStr "store/uri-1")]])])]).

(** A world whose file system holds [01.jpeg], nine bytes long. *)
Definition with_file (net : nat -> request -> exn + response) : world :=
  mkWorld net 0 numbered_uuid 0 (fun n => 7 * Z.of_nat n) 0
          (fun _ => 1762218000.5%float) (fun _ => mkTime 2026 11 4 1 0 0) 0
          (fun path => if String.eqb path "01.jpeg" then inr check_input
                       else inl (Raised OSError NoArg)) [].

Definition upload_answered (code : json) : world :=
  with_file (scripted [upload_token_reply; apply_reply; stored_reply code; commit_reply]).

End Scenario.

(** * Properties *)

(** ** The checksum (C1)

    The table-driven routine of crcmod computes, byte by byte, what eight
    single-bit shifts compute: shifting is linear over XOR, and the high
    part of the register only moves down. *)

Ltac xor_bits :=
  apply Z.bits_inj'; intros ?n ?Hn; rewrite ?Z.lxor_spec;
  repeat match goal with |- context [Z.testbit ?a ?n] => destruct (Z.testbit a n) end;
  reflexivity.

Section CrcProof.
Variable rpoly : Z.

Lemma round_is_shift_bit c : Crcmod._bytecrc_r_round rpoly c = CrcRef.shift_bit rpoly c.
Proof.
  unfold Crcmod._bytecrc_r_round, CrcRef.shift_bit.
  rewrite <- Z.bit0_odd.
  change 1 with (Z.ones 1) at 1. rewrite Z.land_ones by lia.
  change (2 ^ 1) with 2. rewrite <- Z.bit0_mod.
  destruct (Z.testbit c 0); reflexivity.
Qed.

Lemma odd_lxor a b : Z.odd (Z.lxor a b) = xorb (Z.odd a) (Z.odd b).
Proof. rewrite <- !Z.bit0_odd. apply Z.lxor_spec. Qed.

Lemma shift_bit_lxor a b :
  CrcRef.shift_bit rpoly (Z.lxor a b) =
  Z.lxor (CrcRef.shift_bit rpoly a) (CrcRef.shift_bit rpoly b).
Proof.
  unfold CrcRef.shift_bit. rewrite odd_lxor, Z.shiftr_lxor.
  destruct (Z.odd a), (Z.odd b); simpl; xor_bits.
Qed.

Lemma iter_shift_bit_lxor n a b :
  Nat.iter n (CrcRef.shift_bit rpoly) (Z.lxor a b) =
  Z.lxor (Nat.iter n (CrcRef.shift_bit rpoly) a) (Nat.iter n (CrcRef.shift_bit rpoly) b).
Proof.
  induction n as [|n IH]; simpl; [reflexivity|].
  rewrite IH. apply shift_bit_lxor.
Qed.

Lemma shift_bit_shiftl u k :
  0 <= k -> CrcRef.shift_bit rpoly (Z.shiftl u (k + 1)) = Z.shiftl u k.
Proof.
  intros Hk. unfold CrcRef.shift_bit.
  rewrite <- Z.bit0_odd, Z.shiftl_spec_low by lia.
  rewrite Z.shiftr_shiftl_l by lia. f_equal. lia.
Qed.

Lemma iter_shift_bit_shiftl n u :
  Nat.iter n (CrcRef.shift_bit rpoly) (Z.shiftl u (Z.of_nat n)) = u.
Proof.
  revert u. induction n as [|n IH]; intros u.
  - simpl. apply Z.shiftl_0_r.
  - rewrite Nat.iter_succ_r.
    replace (Z.of_nat (S n)) with (Z.of_nat n + 1) by lia.
    rewrite shift_bit_shiftl by lia. apply IH.
Qed.

End CrcProof.

Lemma split_low_byte c x :
  Z.lxor c x = Z.lxor (Z.shiftl (Z.shiftr c 8) 8) (Z.lxor x (Z.land c 255)).
Proof.
  apply Z.bits_inj'. intros n Hn.
  rewrite !Z.lxor_spec, Z.land_spec.
  change 255 with (Z.ones 8). rewrite Z.testbit_ones_nonneg by lia.
  destruct (Z.ltb_spec n 8).
  - rewrite Z.shiftl_spec_low by lia. rewrite andb_true_r.
    destruct (Z.testbit x n), (Z.testbit c n); reflexivity.
  - rewrite Z.shiftl_spec by lia. rewrite Z.shiftr_spec by lia.
    replace (n - 8 + 8) with n by lia. rewrite andb_false_r.
    destruct (Z.testbit x n), (Z.testbit c n); reflexivity.
Qed.

Lemma index_range c x : 0 <= x < 256 -> 0 <= Z.lxor x (Z.land c 255) < 256.
Proof.
  intros Hx.
  assert (E : Z.lxor x (Z.land c 255) = Z.land (Z.lxor x c) 255).
  { assert (Ex : x = Z.land x 255).
    { change 255 with (Z.ones 8). rewrite Z.land_ones by lia.
      symmetry. apply Z.mod_small. lia. }
    rewrite Ex at 1.
    apply Z.bits_inj'. intros n Hn.
    rewrite ?Z.lxor_spec, ?Z.land_spec, ?Z.lxor_spec.
    destruct (Z.testbit x n), (Z.testbit c n), (Z.testbit 255 n); reflexivity. }
  rewrite E. change 255 with (Z.ones 8). rewrite Z.land_ones by lia.
  apply Z.mod_pos_bound. lia.
Qed.

Lemma byte_val_range b : 0 <= byte_val b < 256.
Proof. unfold byte_val. pose proof (Byte.to_N_bounded b). lia. Qed.

Lemma table_rows_fit :
  forallb (fun i => let r := Nat.iter 8 (CrcRef.shift_bit rpoly32) (Z.of_nat i) in
                    (0 <=? r) && (r <? 2 ^ 32)) (seq 0 256) = true.
Proof. vm_compute. reflexivity. Qed.

Lemma table_lookup i :
  0 <= i < 256 ->
  nth (Z.to_nat i) (Crcmod._mkTable_r 0x104c11db7 32) 0 =
  Nat.iter 8 (CrcRef.shift_bit rpoly32) i.
Proof.
  intros Hi. unfold Crcmod._mkTable_r.
  change (Crcmod._bitrev (Z.land 0x104c11db7 (Z.shiftl 1 32 - 1)) 32) with rpoly32.
  set (f := fun i0 : nat => Crcmod._bytecrc_r (Z.of_nat i0) rpoly32 32).
  rewrite (nth_indep _ 0 (f 0%nat)) by (rewrite length_map, length_seq; lia).
  rewrite map_nth, seq_nth by lia. simpl Nat.add. unfold f, Crcmod._bytecrc_r.
  rewrite Z2Nat.id by lia.
  assert (R : forall k c, Nat.iter k (Crcmod._bytecrc_r_round rpoly32) c
                          = Nat.iter k (CrcRef.shift_bit rpoly32) c).
  { induction k; intros; simpl; [reflexivity|]. rewrite IHk. apply round_is_shift_bit. }
  rewrite R.
  pose proof table_rows_fit as T. rewrite forallb_forall in T.
  specialize (T (Z.to_nat i)). rewrite Z2Nat.id in T by lia.
  assert (In (Z.to_nat i) (seq 0 256)) as HIn by (apply in_seq; lia).
  apply T in HIn. cbv zeta in HIn. apply andb_prop in HIn as [H1 H2].
  apply Z.leb_le in H1. apply Z.ltb_lt in H2.
  change (Z.shiftl 1 32 - 1) with (Z.ones 32). rewrite Z.land_ones by lia.
  apply Z.mod_small. lia.
Qed.

Lemma crc_r_byte_is_feed_byte c x :
  0 <= x < 256 ->
  Crcmod._crc_r_byte (Crcmod._mkTable_r 0x104c11db7 32) c x = CrcRef.feed_byte rpoly32 c x.
Proof.
  intros Hx. unfold Crcmod._crc_r_byte, CrcRef.feed_byte.
  rewrite table_lookup by (apply index_range; exact Hx).
  pose proof (iter_shift_bit_shiftl rpoly32 8 (Z.shiftr c 8)) as E.
  change (Z.of_nat 8) with 8 in E.
  rewrite (split_low_byte c x).
  rewrite (iter_shift_bit_lxor rpoly32 8 (Z.shiftl (Z.shiftr c 8) 8)), E. apply Z.lxor_comm.
Qed.

Lemma crc_r_fold data c :
  fold_left (Crcmod._crc_r_byte (Crcmod._mkTable_r 0x104c11db7 32)) (map byte_val data) c =
  fold_left (CrcRef.feed_byte rpoly32) (map byte_val data) c.
Proof.
  revert c. induction data as [|b data IH]; intros c; simpl; [reflexivity|].
  rewrite crc_r_byte_is_feed_byte by apply byte_val_range. apply IH.
Qed.

Lemma crc32_func_run data :
  option_map (fun f => f data) crc32_func =
  Some (CrcRef.crc32_reflected 0x104C11DB7 0xFFFFFFFF 0xFFFFFFFF data).
Proof.
  unfold crc32_func, Crcmod.mkCrcFun.
  change (Crcmod._verifyPoly 0x104c11db7) with (Some 32).
  cbv beta iota zeta. unfold option_map. f_equal.
  change (Z.land 4294967295 (Z.shiftl 1 32 - 1)) with 0xFFFFFFFF.
  change (Z.land 0 (Z.shiftl 1 32 - 1)) with 0.
  change (0xFFFFFFFF =? 0) with false. cbv iota.
  unfold Crcmod._crc_r, CrcRef.crc32_reflected.
  change (Z.land (Z.lxor 0xFFFFFFFF 0) (Z.shiftl 1 32 - 1)) with 0xFFFFFFFF.
  change (CrcRef.reflect 32 (0x104C11DB7 mod 2 ^ 32)) with rpoly32.
  rewrite crc_r_fold. apply Z.lxor_comm.
Qed.

(** C1 (as amended). For every byte sequence the checksum of the upload
    pipeline is the reflected CRC-32 with generator 0x104C11DB7, shift
    register starting at 0xFFFFFFFF (crcmod's [initCrc=0] is the value
    after the final XOR) and final XOR 0xFFFFFFFF, that is the standard
    CRC-32; the pipeline sends its lower-case hexadecimal text. *)
Theorem upload_checksum_is_standard_crc32 (data : list byte) :
  option_map (fun f => f data) crc32_func =
    Some (CrcRef.crc32_reflected 0x104C11DB7 0xFFFFFFFF 0xFFFFFFFF data) /\
  image_crc32 data =
    Some (drop2 (py_hex (CrcRef.crc32_reflected 0x104C11DB7 0xFFFFFFFF 0xFFFFFFFF data))).
Proof.
  pose proof (crc32_func_run data) as H. split; [exact H|].
  unfold image_crc32. destruct crc32_func as [f|]; simpl in H; [|discriminate].
  injection H as ->. reflexivity.
Qed.

(** C1 (as stated) fails: on the check string the pipeline's checksum is
    0xCBF43926, which is not the reflected CRC with generator 0x104C11D97
    and final XOR 0xFFFFFFFF, whether "initial value 0" is read as the
    shift register's start or, as crcmod reads it, as the value after the
    final XOR. *)
Lemma upload_checksum_is_not_the_stated_variant :
  option_map (fun f => f check_input) crc32_func = Some 0xCBF43926 /\
  CrcRef.crc32_reflected 0x104C11D97 0 0xFFFFFFFF check_input <> 0xCBF43926 /\
  CrcRef.crc32_reflected 0x104C11D97 0xFFFFFFFF 0xFFFFFFFF check_input <> 0xCBF43926.
Proof. repeat split; vm_compute; congruence. Qed.

Example crc32_check_value_hex : image_crc32 check_input = Some "cbf43926".
Proof. vm_compute. reflexivity. Qed.

(** ** Running the monad *)

Lemma bind_ok {A B : Type} (m : M A) (k : A -> M B) (w w' : world) (a : A) :
  m w = (Ok a, w') -> bind m k w = k a w'.
Proof. intros H. unfold bind. rewrite H. reflexivity. Qed.

Lemma bind_raise {A B : Type} (m : M A) (k : A -> M B) (w w' : world) (e : exn) :
  m w = (Raise e, w') -> bind m k w = (Raise e, w').
Proof. intros H. unfold bind. rewrite H. reflexivity. Qed.

Lemma bind_assoc {A B C : Type} (m : M A) (k : A -> M B) (h : B -> M C) (w : world) :
  bind (bind m k) h w = bind m (fun a => bind (k a) h) w.
Proof. unfold bind. destruct (m w) as [[a|e|] w']; reflexivity. Qed.

Lemma generate_image_phases fuel self prompt file_path model width height sample_strength
    negative_prompt w :
  prompt <> EmptyString ->
  generate_image fuel self prompt file_path model width height sample_strength
    negative_prompt w =
  bind (start_job self prompt file_path model width height sample_strength negative_prompt)
       (await_result fuel self) w.
Proof.
  intros Hp. unfold generate_image, start_job.
  destruct (String.eqb_spec prompt EmptyString) as [E|_]; [contradiction|].
  unfold bind.
  destruct (upload_phase self file_path w) as [[u|e|] w1]; try reflexivity.
  destruct (credit_phase self w1) as [[[]|e|] w2]; reflexivity.
Qed.

(** ** Validation (C8) *)

(** C8. [generate_image] called with an empty prompt raises the
    validation error ([ValueError], the design document's
    [ValidationError]) and leaves the world as it found it: nothing was
    sent, nothing slept, no oracle was consulted; so no upload, balance,
    submission or polling request is issued. *)
Theorem empty_prompt_fails_before_any_network_call
    (fuel : nat) (self : client) (file_path model : option string) (width height : Z)
    (sample_strength : float) (negative_prompt : string) (w : world) :
  let run := generate_image fuel self EmptyString file_path model width height
               sample_strength negative_prompt w in
  fst run = Raise ValidationError /\
  snd run = w /\
  trace (snd run) = trace w /\
  exchanges (snd run) = exchanges w.
Proof. cbv zeta. unfold generate_image. simpl. repeat split. Qed.

(** ** The signer is a function of its arguments and the clock (C7) *)

(** C7. Two invocations of the signer with the same credentials, region,
    service, method, query parameters and body, in any two worlds whose
    clocks read the same UTC time, return the same header map, and with
    it the same [Authorization] header. *)
Theorem signing_is_deterministic
    (access_key_id secret_access_key session_token : json)
    (region service request_method : string) (request_params : dict)
    (request_body : option dict) (w1 w2 : world) :
  time_gmtime w1 (clock_reads w1) = time_gmtime w2 (clock_reads w2) ->
  exists hdrs : dict,
    fst (_generate_authorization_and_header access_key_id secret_access_key session_token
           region service request_method request_params request_body w1) = Ok hdrs /\
    fst (_generate_authorization_and_header access_key_id secret_access_key session_token
           region service request_method request_params request_body w2) = Ok hdrs /\
    dict_get hdrs "Authorization" <> None.
Proof.
  intros Hclock.
  unfold _generate_authorization_and_header, gmtime, bind, ret. simpl.
  rewrite Hclock. eexists. split; [reflexivity|]. split; [reflexivity|].
  unfold authorization_and_header.
  set (h := _add_headers _ _ _). set (a := JStr _).
  clearbody a. clear. 
  induction h as [|[k v] h IH]; simpl.
  - discriminate.
  - destruct (String.eqb k "Authorization") eqn:E; simpl; rewrite E; [discriminate|exact IH].
Qed.

(** ** The poll loop (C4, C5, C9, C10) *)

Section Polling.

Variables (self : client) (history_id : json).

Lemma poll_loop_done fuel st w :
  py_eq_int (status st) 20 = false ->
  poll_loop fuel self history_id st w = (Ok st, w).
Proof. intros H. destruct fuel; simpl; rewrite H; reflexivity. Qed.

Lemma poll_loop_step fuel st w :
  py_eq_int (status st) 20 = true ->
  poll_loop (S fuel) self history_id st w =
  bind (poll_once self history_id) (poll_loop fuel self history_id) w.
Proof. intros H. simpl. rewrite H. reflexivity. Qed.

(** Polls that find the job pending leave the loop where it was, with
    that much less fuel. *)
Lemma poll_loop_skip k : forall fuel st w w',
  py_eq_int (status st) 20 = true ->
  pending_polls k self history_id w = Some w' ->
  exists st', py_eq_int (status st') 20 = true /\
    poll_loop (k + fuel) self history_id st w = poll_loop fuel self history_id st' w'.
Proof.
  induction k as [|k IH]; intros fuel st w w' Hst Hk; simpl in Hk.
  - injection Hk as <-. exists st. split; [exact Hst|reflexivity].
  - destruct (poll_once self history_id w) as [[st1| |] w1] eqn:E; try discriminate.
    destruct (py_eq_int (status st1) 20) eqn:E1; try discriminate.
    destruct (IH fuel st1 w1 w' E1 Hk) as (st' & Hst' & Hloop).
    exists st'. split; [exact Hst'|].
    change (S k + fuel)%nat with (S (k + fuel)).
    rewrite poll_loop_step by exact Hst.
    rewrite (bind_ok _ _ _ _ _ E). exact Hloop.
Qed.

Lemma poll_once_record w w' fields :
  poll_fetch self history_id w = (Ok (JObj fields), w') ->
  poll_once self history_id w = poll_read (JObj fields) w'.
Proof. intros H. unfold poll_once. apply bind_ok. exact H. Qed.

Lemma poll_read_failed fields w :
  py_eq_int (field fields "status" JNull) 30 = true ->
  poll_read (JObj fields) w =
  (Raise (if py_eq_str (field fields "fail_code" JNull) "2038"
          then ContentFilteredError else GenerationFailedError), w).
Proof.
  intros H. unfold poll_read, bind, lift, py_get. fold (field fields "status" JNull).
  rewrite H. fold (field fields "fail_code" JNull).
  destruct (py_eq_str _ _); reflexivity.
Qed.

Lemma poll_read_other fields w :
  py_eq_int (field fields "status" JNull) 30 = false ->
  poll_read (JObj fields) w =
  (Ok (mkPoll (field fields "status" JNull) (field fields "fail_code" JNull)
              (field fields "item_list" (JArr []))), w).
Proof.
  intros H. unfold poll_read, bind, lift, py_get. fold (field fields "status" JNull).
  rewrite H. reflexivity.
Qed.

(** After [k] pending polls, a poll that finds the job failed ends the
    loop with the error its [fail_code] selects. *)
Lemma await_failed fuel k w1 w2 w3 fields :
  pending_polls k self history_id w1 = Some w2 ->
  poll_fetch self history_id w2 = (Ok (JObj fields), w3) ->
  py_eq_int (field fields "status" JNull) 30 = true ->
  (k < fuel)%nat ->
  await_result fuel self history_id w1 =
  (Raise (if py_eq_str (field fields "fail_code" JNull) "2038"
          then ContentFilteredError else GenerationFailedError), w3).
Proof.
  intros Hk Hf Hs Hfuel.
  replace fuel with (k + S (fuel - S k))%nat by lia.
  destruct (poll_loop_skip k (S (fuel - S k)) initial_poll_state w1 w2 eq_refl Hk)
    as (st' & Hst' & Hloop).
  unfold await_result. apply bind_raise. etransitivity; [exact Hloop|].
  rewrite poll_loop_step by exact Hst'. apply bind_raise.
  rewrite (poll_once_record _ _ _ Hf). apply poll_read_failed. exact Hs.
Qed.

(** After [k] pending polls, a poll that finds any status other than 20
    and 30 ends the loop, and the URLs are extracted from its items. *)
Lemma await_finished fuel k w1 w2 w3 fields :
  pending_polls k self history_id w1 = Some w2 ->
  poll_fetch self history_id w2 = (Ok (JObj fields), w3) ->
  py_eq_int (field fields "status" JNull) 20 = false ->
  py_eq_int (field fields "status" JNull) 30 = false ->
  (k < fuel)%nat ->
  await_result fuel self history_id w1 =
  (extract_image_urls (field fields "item_list" (JArr [])), w3).
Proof.
  intros Hk Hf H20 H30 Hfuel.
  replace fuel with (k + S (fuel - S k))%nat by lia.
  destruct (poll_loop_skip k (S (fuel - S k)) initial_poll_state w1 w2 eq_refl Hk)
    as (st' & Hst' & Hloop).
  unfold await_result.
  rewrite (bind_ok _ _ w1 w3
             (mkPoll (field fields "status" JNull) (field fields "fail_code" JNull)
                     (field fields "item_list" (JArr [])))); [reflexivity|].
  etransitivity; [exact Hloop|].
  rewrite poll_loop_step by exact Hst'.
  erewrite bind_ok.
  2:{ rewrite (poll_once_record _ _ _ Hf). apply poll_read_other. exact H30. }
  apply poll_loop_done. exact H20.
Qed.

End Polling.

Lemma py_eq_str_true v s : py_eq_str v s = true <-> v = JStr s.
Proof.
  destruct v; simpl; try (split; [discriminate|intros H; discriminate H]).
  split; intros H.
  - apply String.eqb_eq in H. subst. reflexivity.
  - injection H as ->. apply String.eqb_refl.
Qed.

(** C5. When, after any number of pending polls, a poll response reports
    status 30, [generate_image] raises the content-filter error if
    [fail_code] is the string ["2038"], and the generic generation error
    for every other [fail_code] (a missing one included); the two errors
    are distinct, so the content-filter error is raised if and only if
    [fail_code] equals ["2038"]. *)
Theorem failed_job_error_is_selected_by_fail_code
    (fuel : nat) (self : client) (prompt : string) (file_path model : option string)
    (width height : Z) (sample_strength : float) (negative_prompt : string)
    (w w1 w2 w3 : world) (history_id : json) (k : nat) (fields : dict) :
  prompt <> EmptyString ->
  start_job self prompt file_path model width height sample_strength negative_prompt w
    = (Ok history_id, w1) ->
  pending_polls k self history_id w1 = Some w2 ->
  poll_fetch self history_id w2 = (Ok (JObj fields), w3) ->
  py_eq_int (field fields "status" JNull) 30 = true ->
  (k < fuel)%nat ->
  let run := generate_image fuel self prompt file_path model width height sample_strength
               negative_prompt w in
  (field fields "fail_code" JNull = JStr "2038" -> run = (Raise ContentFilteredError, w3)) /\
  (field fields "fail_code" JNull <> JStr "2038" -> run = (Raise GenerationFailedError, w3)) /\
  (run = (Raise ContentFilteredError, w3) <-> field fields "fail_code" JNull = JStr "2038").
Proof.
  intros Hp Hstart Hk Hf Hs Hfuel run.
  assert (Hrun : run = (Raise (if py_eq_str (field fields "fail_code" JNull) "2038"
                               then ContentFilteredError else GenerationFailedError), w3)).
  { unfold run. rewrite generate_image_phases by exact Hp.
    rewrite (bind_ok _ _ _ _ _ Hstart).
    apply (await_failed self history_id fuel k w1 w2 w3 fields Hk Hf Hs Hfuel). }
  destruct (py_eq_str (field fields "fail_code" JNull) "2038") eqn:E.
  - apply py_eq_str_true in E. repeat split; auto; intros; congruence.
  - assert (N : field fields "fail_code" JNull <> JStr "2038").
    { intros C. apply py_eq_str_true in C. congruence. }
    repeat split; auto.
    + intros C; contradiction.
    + intros C. rewrite Hrun in C. discriminate C.
    + intros C; contradiction.
Qed.

(** C5 at work: one pending poll, then status 30 with [fail_code] "2038". *)
Lemma failed_job_error_witness :
  fst (Scenario.generate 5 "cat" (Scenario.one_pending_then_failed (JStr "2038")))
  = Raise ContentFilteredError.
Proof.
  pose (w := Scenario.one_pending_then_failed (JStr "2038")).
  pose (w1 := snd (Scenario.start "cat" w)).
  pose (w2 := snd (poll_once Scenario.self (JStr "h1") w1)).
  pose (w3 := snd (poll_fetch Scenario.self (JStr "h1") w2)).
  assert (H : Scenario.generate 5 "cat" w = (Raise ContentFilteredError, w3)).
  { refine (proj1 (failed_job_error_is_selected_by_fail_code 5 Scenario.self "cat" None None
              1024 1024 0.5%float EmptyString w w1 w2 w3
              (JStr "h1") 1 [("status", JInt 30); ("fail_code", JStr "2038")]
              _ _ _ _ _ _) _).
    - discriminate.
    - vm_compute. reflexivity.
    - vm_compute. reflexivity.
    - vm_compute. reflexivity.
    - vm_compute. reflexivity.
    - lia.
    - reflexivity. }
  fold w. rewrite H. reflexivity.
Defined.

(** *** What the URL extraction returns *)

Lemma collect_image_urls_app l1 : forall l2 acc,
  collect_image_urls (l1 ++ l2) acc =
  obind (collect_image_urls l1 acc) (collect_image_urls l2).
Proof.
  induction l1 as [|item l1 IH]; intros l2 acc; simpl; [reflexivity|].
  destruct (item_image_url item) as [v|e|]; simpl; [apply IH|reflexivity|reflexivity].
Qed.

(** On a well-formed entry the loop body finds what [Spec.item_urls]
    describes. *)
Lemma item_image_url_well_formed item :
  Spec.well_formed_item item = true ->
  exists v, item_image_url item = Ok v /\
            (if py_truth v then [v] else []) = Spec.item_urls item.
Proof.
  destruct item as [| | | | | |fields]; try discriminate.
  unfold Spec.well_formed_item, item_image_url, Spec.item_urls, Spec.large_images,
    Spec.cover_image_url, Spec.lookup, py_get, py_item.
  intros H. apply andb_prop in H as [Himage Hcommon].
  assert (Cover :
    exists v,
      obind (Ok (match dict_get fields "common_attr" with
                 | Some x => x | None => JObj [] end))
        (fun common_attr =>
           obind (match common_attr with
                  | JObj d => Ok (match dict_get d "cover_url" with
                                  | Some x => x | None => JNull end)
                  | _ => Raise (Raised AttributeError NoArg)
                  end)
             (fun cover_url =>
                if py_truth cover_url
                then obind (match dict_get fields "common_attr" with
                            | Some x => Ok x
                            | None => Raise (Raised KeyError (Arg (JStr "common_attr")))
                            end)
                       (fun common_attr' =>
                          match common_attr' with
                          | JObj d => match dict_get d "cover_url" with
                                      | Some x => Ok x
                                      | None => Raise (Raised KeyError (Arg (JStr "cover_url")))
                                      end
                          | _ => Raise (Raised TypeError NoArg)
                          end)
                else Ok JNull)) = Ok v /\
      (if py_truth v then [v] else []) =
      Spec.present (match dict_get fields "common_attr" with
                    | Some (JObj d) => dict_get d "cover_url"
                    | Some _ => None
                    | None => None
                    end)).
  { destruct (dict_get fields "common_attr") as [[| | | | | |c]|]; try discriminate; simpl.
    - destruct (dict_get c "cover_url") as [u|]; simpl.
      + destruct (py_truth u) eqn:T; simpl.
        * exists u. rewrite T. split; reflexivity.
        * exists JNull. split; reflexivity.
      + exists JNull. split; reflexivity.
    - exists JNull. split; reflexivity. }
  destruct (dict_get fields "image") as [[| | | | | |image]|]; try discriminate; simpl.
  - destruct (dict_get image "large_images") as [[| | | | |[|[| | | | | |first] rest]|]|];
      try discriminate; simpl; try exact Cover.
    destruct (dict_get first "image_url") as [u|]; simpl.
    + exists u. split; reflexivity.
    + exists JNull. split; reflexivity.
  - exact Cover.
Qed.

Lemma collect_image_urls_well_formed items : forall acc,
  forallb Spec.well_formed_item items = true ->
  collect_image_urls items acc = Ok (acc ++ Spec.result_urls items).
Proof.
  induction items as [|item items IH]; intros acc H; simpl in *.
  - rewrite app_nil_r. reflexivity.
  - apply andb_prop in H as [Hitem Hitems].
    destruct (item_image_url_well_formed item Hitem) as (v & Hv & Hurls).
    rewrite Hv. simpl. rewrite IH by exact Hitems.
    rewrite <- Hurls. destruct (py_truth v); simpl.
    + rewrite <- app_assoc. reflexivity.
    + reflexivity.
Qed.

(** C4 (as amended). When polling ends with status 50, [generate_image]
    returns, for the entries of [item_list] in their order, the
    [image_url] of the first large image if the entry has a non-empty
    [large_images] list, and else the entry's cover URL; an entry for
    which that URL is missing or empty contributes nothing. Entries are
    taken in the shape the service gives them ([Spec.well_formed_item]). *)
Theorem done_job_returns_urls_in_item_order
    (fuel : nat) (self : client) (prompt : string) (file_path model : option string)
    (width height : Z) (sample_strength : float) (negative_prompt : string)
    (w w1 w2 w3 : world) (history_id : json) (k : nat) (fields : dict) (items : list json) :
  prompt <> EmptyString ->
  start_job self prompt file_path model width height sample_strength negative_prompt w
    = (Ok history_id, w1) ->
  pending_polls k self history_id w1 = Some w2 ->
  poll_fetch self history_id w2 = (Ok (JObj fields), w3) ->
  py_eq_int (field fields "status" JNull) 50 = true ->
  field fields "item_list" (JArr []) = JArr items ->
  forallb Spec.well_formed_item items = true ->
  (k < fuel)%nat ->
  generate_image fuel self prompt file_path model width height sample_strength
    negative_prompt w
  = (Ok (Spec.result_urls items), w3).
Proof.
  intros Hp Hstart Hk Hf H50 Hitems Hwf Hfuel.
  rewrite generate_image_phases by exact Hp.
  rewrite (bind_ok _ _ _ _ _ Hstart).
  assert (H20 : py_eq_int (field fields "status" JNull) 20 = false /\
                py_eq_int (field fields "status" JNull) 30 = false).
  { destruct (field fields "status" JNull) as [| b | n | f | | |]; simpl in *;
      try discriminate.
    - destruct b; discriminate.
    - apply Z.eqb_eq in H50. subst. split; reflexivity.
    - unfold float_eq_Z in *.
      destruct (Prim2SF f) as [|s0|  |s0 m e]; try discriminate.
      destruct (Z.leb_spec 0 e); apply Z.eqb_eq in H50.
      + split; apply Z.eqb_neq; lia.
      + assert (0 < 2 ^ (- e)) by (apply Z.pow_pos_nonneg; lia).
        split; apply Z.eqb_neq; lia. }
  destruct H20 as [H20 H30].
  rewrite (await_finished self history_id fuel k w1 w2 w3 fields Hk Hf H20 H30 Hfuel).
  rewrite Hitems. unfold extract_image_urls. simpl.
  rewrite collect_image_urls_well_formed by exact Hwf. reflexivity.
Qed.

(** C4 at work, the scenario of the design document: the transport
    reports status 20 twice, then 50 with two items, one with
    [large_images] and one with only a [cover_url]; exactly two URLs come
    back, in item order. *)
Lemma done_job_two_urls_witness :
  fst (Scenario.generate 5 "cat" Scenario.two_pending_then_done)
  = Ok [ JStr "https://img.example/large-1.webp"; JStr "https://img.example/cover-2.webp" ].
Proof.
  pose (w := Scenario.two_pending_then_done).
  pose (w1 := snd (Scenario.start "cat" w)).
  pose (w2 := snd (poll_once Scenario.self (JStr "h1")
                     (snd (poll_once Scenario.self (JStr "h1") w1)))).
  pose (w3 := snd (poll_fetch Scenario.self (JStr "h1") w2)).
  assert (H : Scenario.generate 5 "cat" w
              = (Ok (Spec.result_urls [Scenario.with_large_images; Scenario.with_cover_only]),
                 w3)).
  { refine (done_job_returns_urls_in_item_order 5 Scenario.self "cat" None None
              1024 1024 0.5%float EmptyString w w1 w2 w3 (JStr "h1") 2
              [ ("status", JInt 50);
                ("item_list", JArr [Scenario.with_large_images; Scenario.with_cover_only]) ]
              _ _ _ _ _ _ _ _ _).
    - discriminate.
    - vm_compute. reflexivity.
    - vm_compute. reflexivity.
    - vm_compute. reflexivity.
    - vm_compute. reflexivity.
    - reflexivity.
    - vm_compute. reflexivity.
    - lia. }
  fold w. rewrite H. reflexivity.
Defined.

(** C4 (as stated) fails: an entry whose first large image has no
    [image_url] has no large-image URL, so the stated rule falls back to
    its cover URL; the code returns nothing for it. *)
Lemma done_job_urls_are_not_the_claimed_ones :
  fst (Scenario.generate 5 "cat" (Scenario.done_with 50 [Scenario.large_image_without_url]))
    = Ok [] /\
  Spec.claimed_urls [Scenario.large_image_without_url]
    = [JStr "https://img.example/cover-3.webp"].
Proof. split; vm_compute; reflexivity. Qed.

(** C9. When, after any number of pending polls, a poll response carries
    a status that is neither 20 nor 30, be it 50, 40 or anything else,
    the loop ends with that poll and [generate_image] returns what the
    URL extraction makes of the response's [item_list]: the status plays
    no further part, so the outcome is the one of a completed job. *)
Theorem any_other_status_ends_polling_as_done
    (fuel : nat) (self : client) (prompt : string) (file_path model : option string)
    (width height : Z) (sample_strength : float) (negative_prompt : string)
    (w w1 w2 w3 : world) (history_id : json) (k : nat) (fields : dict) :
  prompt <> EmptyString ->
  start_job self prompt file_path model width height sample_strength negative_prompt w
    = (Ok history_id, w1) ->
  pending_polls k self history_id w1 = Some w2 ->
  poll_fetch self history_id w2 = (Ok (JObj fields), w3) ->
  py_eq_int (field fields "status" JNull) 20 = false ->
  py_eq_int (field fields "status" JNull) 30 = false ->
  (k < fuel)%nat ->
  generate_image fuel self prompt file_path model width height sample_strength
    negative_prompt w
  = (extract_image_urls (field fields "item_list" (JArr [])), w3).
Proof.
  intros Hp Hstart Hk Hf H20 H30 Hfuel.
  rewrite generate_image_phases by exact Hp.
  rewrite (bind_ok _ _ _ _ _ Hstart).
  apply (await_finished self history_id fuel k w1 w2 w3 fields Hk Hf H20 H30 Hfuel).
Qed.

(** C9 at work: status 40, outside the documented set, with the two items
    of the scenario above. *)
Lemma undocumented_status_witness :
  fst (Scenario.generate 5 "cat"
         (Scenario.done_with 40 [Scenario.with_large_images; Scenario.with_cover_only]))
  = Ok [ JStr "https://img.example/large-1.webp"; JStr "https://img.example/cover-2.webp" ].
Proof.
  pose (w := Scenario.done_with 40 [Scenario.with_large_images; Scenario.with_cover_only]).
  pose (w1 := snd (Scenario.start "cat" w)).
  pose (w2 := snd (poll_once Scenario.self (JStr "h1") w1)).
  pose (w3 := snd (poll_fetch Scenario.self (JStr "h1") w2)).
  assert (H : Scenario.generate 5 "cat" w
              = (extract_image_urls
                   (JArr [Scenario.with_large_images; Scenario.with_cover_only]), w3)).
  { refine (any_other_status_ends_polling_as_done 5 Scenario.self "cat" None None
              1024 1024 0.5%float EmptyString w w1 w2 w3 (JStr "h1") 1
              [ ("status", JInt 40);
                ("item_list", JArr [Scenario.with_large_images; Scenario.with_cover_only]) ]
              _ _ _ _ _ _ _).
    - discriminate.
    - vm_compute. reflexivity.
    - vm_compute. reflexivity.
    - vm_compute. reflexivity.
    - reflexivity.
    - reflexivity.
    - lia. }
  fold w. rewrite H. reflexivity.
Defined.

(** *** Entries that yield no URL *)

Lemma collect_image_urls_length items : forall acc urls,
  collect_image_urls items acc = Ok urls ->
  (List.length urls <= List.length acc + List.length items)%nat.
Proof.
  induction items as [|item items IH]; intros acc urls H; simpl in H.
  - injection H as <-. simpl. lia.
  - destruct (item_image_url item) as [v| |]; simpl in H; try discriminate.
    apply IH in H. destruct (py_truth v); [rewrite length_app in H|]; simpl in *; lia.
Qed.

(** An entry for which the loop body finds nothing can be taken out of
    the list without changing the result. *)
Lemma dropped_entry pre post item v :
  item_image_url item = Ok v -> py_truth v = false ->
  extract_image_urls (JArr (pre ++ item :: post)) = extract_image_urls (JArr (pre ++ post)) /\
  (forall urls, extract_image_urls (JArr (pre ++ item :: post)) = Ok urls ->
                (List.length urls < List.length (pre ++ item :: post))%nat).
Proof.
  intros Hv Hfalse. unfold extract_image_urls. simpl.
  rewrite !collect_image_urls_app.
  destruct (collect_image_urls pre []) as [acc| |] eqn:Epre; simpl;
    try (split; [reflexivity|discriminate]).
  rewrite Hv. simpl. rewrite Hfalse. split; [reflexivity|].
  intros urls Hpost.
  apply collect_image_urls_length in Epre. apply collect_image_urls_length in Hpost.
  rewrite length_app. simpl in *. lia.
Qed.

Lemma large_image_without_url_yields_nothing fields image first rest :
  dict_get fields "image" = Some (JObj image) ->
  dict_get image "large_images" = Some (JArr (JObj first :: rest)) ->
  dict_get first "image_url" = None ->
  item_image_url (JObj fields) = Ok JNull.
Proof.
  intros Hi Hl Hu. unfold item_image_url, py_get, py_item. rewrite Hi. simpl.
  rewrite Hl. simpl. rewrite Hu. reflexivity.
Qed.

(** C10. An entry of [item_list] that has neither a first large-image URL
    nor a cover URL contributes nothing: the result is the one of the
    list without it. In particular an entry with a non-empty
    [large_images] list whose first element has no [image_url] is
    dropped whatever its [common_attr] holds, a usable cover URL
    included: the cover is not consulted. With such an entry the
    returned sequence is strictly shorter than [item_list]. *)
Theorem entry_without_url_is_dropped :
  (forall pre post item,
      Spec.well_formed_item item = true ->
      Spec.first_large_image_url item = None ->
      Spec.cover_image_url item = None ->
      extract_image_urls (JArr (pre ++ item :: post))
      = extract_image_urls (JArr (pre ++ post))) /\
  (forall pre post fields image first rest,
      dict_get fields "image" = Some (JObj image) ->
      dict_get image "large_images" = Some (JArr (JObj first :: rest)) ->
      dict_get first "image_url" = None ->
      extract_image_urls (JArr (pre ++ JObj fields :: post))
      = extract_image_urls (JArr (pre ++ post)) /\
      forall urls,
        extract_image_urls (JArr (pre ++ JObj fields :: post)) = Ok urls ->
        (List.length urls < List.length (pre ++ JObj fields :: post))%nat).
Proof.
  split.
  - intros pre post item Hwf Hlarge Hcover.
    destruct (item_image_url_well_formed item Hwf) as (v & Hv & Hurls).
    assert (Hnone : Spec.item_urls item = []).
    { unfold Spec.item_urls. unfold Spec.first_large_image_url in Hlarge.
      destruct (Spec.large_images item); [rewrite Hcover|rewrite Hlarge]; reflexivity. }
    rewrite Hnone in Hurls.
    apply (dropped_entry pre post item v Hv).
    destruct (py_truth v); [discriminate|reflexivity].
  - intros pre post fields image first rest Hi Hl Hu.
    apply (dropped_entry pre post (JObj fields) JNull); [|reflexivity].
    apply (large_image_without_url_yields_nothing fields image first rest Hi Hl Hu).
Qed.

(** C10 at work: between two entries that yield a URL, the entry whose
    first large image has no [image_url] is dropped although it has a
    cover URL; an entry with nothing at all is dropped too. *)
Lemma entry_without_url_witness :
  extract_image_urls
    (JArr [Scenario.with_large_images; Scenario.large_image_without_url;
           Scenario.with_cover_only])
  = extract_image_urls (JArr [Scenario.with_large_images; Scenario.with_cover_only]) /\
  (forall urls,
      extract_image_urls
        (JArr [Scenario.with_large_images; Scenario.large_image_without_url;
               Scenario.with_cover_only]) = Ok urls ->
      (List.length urls < 3)%nat) /\
  extract_image_urls (JArr [JObj []; Scenario.with_cover_only])
  = extract_image_urls (JArr [Scenario.with_cover_only]).
Proof.
  destruct entry_without_url_is_dropped as [Hneither Hlarge].
  destruct (Hlarge [Scenario.with_large_images] [Scenario.with_cover_only]
              [ ("image", JObj [("large_images", JArr [JObj [("width", JInt 2048)]])]);
                ("common_attr", JObj [("cover_url", JStr "https://img.example/cover-3.webp")]) ]
              [("large_images", JArr [JObj [("width", JInt 2048)]])]
              [("width", JInt 2048)] []
              eq_refl eq_refl eq_refl) as [Hsame Hshorter].
  split; [exact Hsame|]. split; [exact Hshorter|].
  exact (Hneither [] [Scenario.with_cover_only] (JObj []) eq_refl eq_refl eq_refl).
Defined.

(** The same through [generate_image]: three items, two URLs. *)
Example generate_drops_entry_without_url :
  fst (Scenario.generate 5 "cat"
         (Scenario.done_with 50 [Scenario.with_large_images; Scenario.large_image_without_url;
                                 Scenario.with_cover_only]))
  = Ok [ JStr "https://img.example/large-1.webp"; JStr "https://img.example/cover-2.webp" ].
Proof. vm_compute. reflexivity. Qed.

(** ** The daily grant (C2) *)

(** C2 (as amended). When the balance shows no credit (a total of zero or
    less), [generate_image] claims the daily grant before it builds the
    draft. The answer to the claim is not looked at: if the claim request
    returns, generation goes on to the submission. The claim is not
    shielded, though: an exception raised by the claim request ends
    [generate_image] with that exception, before any submission. *)
Theorem daily_grant_is_claimed_unshielded
    (fuel : nat) (self : client) (prompt : string) (file_path model : option string)
    (width height : Z) (sample_strength : float) (negative_prompt : string)
    (w w0 w1 : world) (upload_id : json) (credit_info : dict) :
  prompt <> EmptyString ->
  upload_phase self file_path w = (Ok upload_id, w0) ->
  get_credit self w0 = (Ok credit_info, w1) ->
  py_le_int (field credit_info "total_credit" JNull) 0 = Ok true ->
  let run := generate_image fuel self prompt file_path model width height sample_strength
               negative_prompt w in
  run = bind (receive_credit self)
             (fun _ => after_credit fuel self prompt file_path model width height
                         sample_strength negative_prompt upload_id) w1 /\
  (forall w2, receive_credit self w1 = (Ok tt, w2) ->
              run = after_credit fuel self prompt file_path model width height
                      sample_strength negative_prompt upload_id w2) /\
  (forall e w2, receive_credit self w1 = (Raise e, w2) -> run = (Raise e, w2)).
Proof.
  intros Hp Hup Hcredit Hle run.
  assert (Hrun : run = bind (receive_credit self)
             (fun _ => after_credit fuel self prompt file_path model width height
                         sample_strength negative_prompt upload_id) w1).
  { unfold run, generate_image.
    destruct (String.eqb_spec prompt EmptyString) as [E|_]; [contradiction|].
    rewrite (bind_ok _ _ _ _ _ Hup).
    unfold credit_phase. rewrite !bind_assoc.
    rewrite (bind_ok _ _ _ _ _ Hcredit).
    assert (Htotal : exists t, dict_get credit_info "total_credit" = Some t /\
                               py_le_int t 0 = Ok true).
    { unfold field in Hle. destruct (dict_get credit_info "total_credit") as [t|].
      - exists t. split; [reflexivity|exact Hle].
      - discriminate. }
    destruct Htotal as (t & Ht & Hlet). rewrite Ht.
    unfold bind at 1. unfold lift at 1. unfold bind at 1. unfold lift at 1. rewrite Hlet.
    reflexivity. }
  split; [exact Hrun|]. split.
  - intros w2 H. rewrite Hrun. unfold bind. rewrite H. reflexivity.
  - intros e w2 H. rewrite Hrun. unfold bind. rewrite H. reflexivity.
Qed.

(** C2 at work: no credit, the claim is answered with an error envelope
    that nobody reads, and the generation completes. *)
Lemma daily_grant_witness :
  fst (Scenario.generate 5 "cat"
         (Scenario.claim_answered
            (JObj [("ret", JStr "1014"); ("errmsg", JStr "already received")])))
  = Ok [JStr "https://img.example/cover-2.webp"].
Proof.
  pose (w := Scenario.claim_answered
               (JObj [("ret", JStr "1014"); ("errmsg", JStr "already received")])).
  pose (w1 := snd (get_credit Scenario.self w)).
  pose (w2 := snd (receive_credit Scenario.self w1)).
  pose proof (daily_grant_is_claimed_unshielded 5 Scenario.self "cat" None None 1024 1024
                0.5%float EmptyString w w w1 JNull
                [ ("gift_credit", JInt 0); ("purchase_credit", JInt 0);
                  ("vip_credit", JInt 0); ("total_credit", JInt 0) ]) as H.
  assert (Hp : "cat" <> EmptyString) by discriminate.
  assert (Hup : upload_phase Scenario.self None w = (Ok JNull, w)) by reflexivity.
  assert (Hcredit : get_credit Scenario.self w
                    = (Ok [ ("gift_credit", JInt 0); ("purchase_credit", JInt 0);
                            ("vip_credit", JInt 0); ("total_credit", JInt 0) ], w1))
    by (vm_compute; reflexivity).
  assert (Hle : py_le_int (field [ ("gift_credit", JInt 0); ("purchase_credit", JInt 0);
                                   ("vip_credit", JInt 0); ("total_credit", JInt 0) ]
                                 "total_credit" JNull) 0 = Ok true) by reflexivity.
  destruct (H Hp Hup Hcredit Hle) as (_ & Hanswered & _).
  assert (Hclaim : receive_credit Scenario.self w1 = (Ok tt, w2)) by (vm_compute; reflexivity).
  fold w. unfold Scenario.generate. rewrite (Hanswered w2 Hclaim).
  vm_compute. reflexivity.
Defined.

(** C2 (as stated) fails: with no credit left and a transport that fails
    the claim, [generate_image] ends with the transport's error after two
    requests, the balance and the claim; the submission is never sent,
    although the transport would have accepted it. *)
Lemma failed_claim_aborts_generation :
  fst (Scenario.generate 5 "cat" Scenario.claim_fails)
    = Raise (Raised Exception
               (Message [ Lit "即梦API请求失败: ";
                          StrOf (Raised RequestException (Arg (JStr "503 Server Error"))) ])) /\
  sent_urls (trace (snd (Scenario.generate 5 "cat" Scenario.claim_fails)))
    = [ "https://jimeng.jianying.com/commerce/v1/benefits/user_credit";
        "https://jimeng.jianying.com/commerce/v1/benefits/credit_receive" ].
Proof. split; vm_compute; reflexivity. Qed.

(** C7 at work: two worlds with different transports, the clock of both
    reading 2026-11-04 01:00:00 UTC. *)
Lemma signing_witness :
  exists hdrs : dict,
    fst (_generate_authorization_and_header (JStr "AKID") (JStr "secret") (JStr "session")
           "cn-north-1" "imagex" "GET"
           [("Action", JStr "ApplyImageUpload"); ("FileSize", JInt 1234)] None
           Scenario.two_pending_then_done) = Ok hdrs /\
    fst (_generate_authorization_and_header (JStr "AKID") (JStr "secret") (JStr "session")
           "cn-north-1" "imagex" "GET"
           [("Action", JStr "ApplyImageUpload"); ("FileSize", JInt 1234)] None
           Scenario.claim_fails) = Ok hdrs /\
    dict_get hdrs "Authorization" <> None.
Proof.
  apply (signing_is_deterministic (JStr "AKID") (JStr "secret") (JStr "session")
           "cn-north-1" "imagex" "GET"
           [("Action", JStr "ApplyImageUpload"); ("FileSize", JInt 1234)] None
           Scenario.two_pending_then_done Scenario.claim_fails).
  reflexivity.
Defined.

(** ** The canonical request (C3) *)

Lemma append_assoc (a b c : string) : (a +++ b) +++ c = a +++ (b +++ c).
Proof. induction a as [|x a IH]; simpl; [reflexivity|]. rewrite IH. reflexivity. Qed.

(** Lines joined by newlines and closed by one are lines each ending in a
    newline, as long as there is a line. *)
Lemma concat_lines (l : list string) :
  l <> [] ->
  String.concat LF l +++ LF = String.concat EmptyString (map (fun x => x +++ LF) l).
Proof.
  induction l as [|x l IH]; intros Hne; [contradiction|].
  destruct l as [|y l].
  - reflexivity.
  - change (String.concat LF (x :: y :: l)) with (x +++ LF +++ String.concat LF (y :: l)).
    change (String.concat EmptyString (map (fun x0 => x0 +++ LF) (x :: y :: l)))
      with ((x +++ LF) +++ EmptyString
              +++ String.concat EmptyString (map (fun x0 => x0 +++ LF) (y :: l))).
    rewrite <- IH by discriminate.
    rewrite !append_assoc. reflexivity.
Qed.

Lemma insert_sorted_In x k l : In x (insert_sorted k l) -> x = k \/ In x l.
Proof.
  induction l as [|y l IH]; simpl.
  - intros [<-|[]]. left. reflexivity.
  - destruct (String.leb k y); simpl.
    + intros [<-|H]; [left; reflexivity|right; exact H].
    + intros [<-|H]; [right; left; reflexivity|].
      destruct (IH H) as [->|H']; [left; reflexivity|right; right; exact H'].
Qed.

Lemma sorted_In x l : In x (sorted l) -> In x l.
Proof.
  induction l as [|y l IH]; simpl; [exact (fun H => H)|].
  intros H. apply insert_sorted_In in H as [->|H]; [left; reflexivity|right; exact (IH H)].
Qed.

Lemma sorted_not_nil l : l <> [] -> sorted l <> [].
Proof.
  destruct l as [|x l]; [contradiction|]. intros _. simpl.
  destruct (sorted l) as [|y r]; simpl; [discriminate|].
  destruct (String.leb x y); discriminate.
Qed.

(** Sorting the names and reading each value back is sorting the entries. *)
Lemma insert_by_key_tagged (val val' : string -> json) k v l :
  val' k = v ->
  (forall x, In x l -> val' x = val x) ->
  Spec.insert_by_key (k, v) (map (fun x => (x, val x)) l)
  = map (fun x => (x, val' x)) (insert_sorted k l).
Proof.
  intros Hk. induction l as [|y l IH]; intros Hl; simpl.
  - rewrite Hk. reflexivity.
  - destruct (String.leb k y); simpl.
    + rewrite Hk, (Hl y (or_introl eq_refl)). f_equal. f_equal.
      apply map_ext_in. intros x Hx. f_equal. symmetry. apply Hl. right. exact Hx.
    + rewrite (Hl y (or_introl eq_refl)). f_equal.
      apply IH. intros x Hx. apply Hl. right. exact Hx.
Qed.

Lemma distinct_head x rest :
  Spec.distinct (x :: rest) = true -> ~ In x rest /\ Spec.distinct rest = true.
Proof.
  simpl. intros H. apply andb_prop in H as [Hx Hrest]. split; [|exact Hrest].
  intros Hin. apply negb_true_iff in Hx.
  assert (E : existsb (String.eqb x) rest = true).
  { apply existsb_exists. exists x. split; [exact Hin|apply String.eqb_refl]. }
  congruence.
Qed.

Lemma sort_by_key_reads_back (h : dict) :
  Spec.distinct (dict_keys h) = true ->
  Spec.sort_by_key h = map (fun k => (k, header_value h k)) (sorted (dict_keys h)).
Proof.
  induction h as [|[k v] h IH]; intros Hd; [reflexivity|].
  apply distinct_head in Hd as [Hk Hd]. simpl.
  rewrite (IH Hd).
  apply insert_by_key_tagged.
  - unfold header_value. simpl. rewrite String.eqb_refl. reflexivity.
  - intros x Hx. apply sorted_In in Hx. unfold header_value. simpl.
    destruct (String.eqb_spec k x) as [->|_]; [contradiction|reflexivity].
Qed.

Lemma insert_by_key_In kv kv' d :
  In kv' (Spec.insert_by_key kv d) -> kv' = kv \/ In kv' d.
Proof.
  induction d as [|y d IH]; simpl.
  - intros [<-|[]]. left. reflexivity.
  - destruct (String.leb (fst kv) (fst y)); simpl.
    + intros [<-|H]; [left; reflexivity|right; exact H].
    + intros [<-|H]; [right; left; reflexivity|].
      destruct (IH H) as [->|H']; [left; reflexivity|right; right; exact H'].
Qed.

Lemma sort_by_key_In kv d : In kv (Spec.sort_by_key d) -> In kv d.
Proof.
  induction d as [|y d IH]; simpl; [exact (fun H => H)|].
  intros H. apply insert_by_key_In in H as [->|H]; [left; reflexivity|right; exact (IH H)].
Qed.

(** Where lower-casing keeps the order, sorting commutes with it. *)
Lemma insert_by_key_lower k v d :
  (forall kv, In kv d ->
     String.leb k (fst kv) = String.leb (str_lower k) (str_lower (fst kv))) ->
  Spec.insert_by_key (str_lower k, v) (Spec.lower_keys d)
  = Spec.lower_keys (Spec.insert_by_key (k, v) d).
Proof.
  induction d as [|[k' v'] d IH]; intros H; simpl; [reflexivity|].
  pose proof (H (k', v') (or_introl eq_refl)) as Hk. simpl in Hk.
  rewrite <- Hk.
  destruct (String.leb k k'); simpl; [reflexivity|].
  f_equal. apply IH. intros kv Hkv. apply H. right. exact Hkv.
Qed.

Lemma sort_by_key_lower (h : dict) :
  Spec.order_kept_by_lower (dict_keys h) = true ->
  Spec.sort_by_key (Spec.lower_keys h) = Spec.lower_keys (Spec.sort_by_key h).
Proof.
  intros Hord. unfold Spec.order_kept_by_lower in Hord. rewrite forallb_forall in Hord.
  assert (H : forall a b, In a (dict_keys h) -> In b (dict_keys h) ->
                String.leb a b = String.leb (str_lower a) (str_lower b)).
  { intros a b Ha Hb. specialize (Hord a Ha). rewrite forallb_forall in Hord.
    apply Bool.eqb_prop. apply Hord. exact Hb. }
  clear Hord. induction h as [|[k v] h IH]; [reflexivity|].
  simpl. rewrite IH.
  - apply insert_by_key_lower. intros kv Hkv. apply H.
    + left. reflexivity.
    + right. apply sort_by_key_In in Hkv. apply (in_map fst) in Hkv. exact Hkv.
  - intros a b Ha Hb. apply H; right; assumption.
Qed.

(** C3 (as amended). For every method and body, every query-parameter map
    that is already sorted by key, and every non-empty header map whose
    names keep their order under lower-casing, the method, the
    parameters and the headers being ASCII, the canonical request
    built by the signer is the stated one. The signer itself does not
    sort the query parameters (it encodes them in the order the map holds
    them) and orders the header lines by the names as given. *)
Theorem canonical_request_of_sorted_input
    (request_method : string) (request_params request_headers request_body : dict) :
  Spec.ascii_text request_method = true ->
  Spec.ascii_dict request_params = true ->
  Spec.ascii_dict request_headers = true ->
  Spec.sort_by_key request_params = request_params ->
  request_headers <> [] ->
  Spec.distinct (dict_keys request_headers) = true ->
  Spec.order_kept_by_lower (dict_keys request_headers) = true ->
  _canonical_string request_method request_params request_headers request_body
  = Spec.canonical_request request_method request_params request_headers request_body.
Proof.
  intros _ _ _ Hparams Hne Hdistinct Horder.
  unfold _canonical_string, Spec.canonical_request, _signed_headers.
  rewrite Hparams.
  assert (Hbody : (if py_truth (JObj request_body) then Json.dumps (JObj request_body)
                   else EmptyString)
                  = match request_body with
                    | [] => EmptyString
                    | _ => Json.dumps (JObj request_body)
                    end).
  { destruct request_body; reflexivity. }
  rewrite Hbody.
  assert (Hlines :
    String.concat LF
      (map (fun key => str_lower key +++ ":" +++ py_str (header_value request_headers key))
           (sorted (dict_keys request_headers))) +++ LF
    = String.concat EmptyString
        (map Spec.header_line (Spec.sort_by_key (Spec.lower_keys request_headers)))).
  { rewrite concat_lines.
    2:{ intros C. apply map_eq_nil in C. revert C. apply sorted_not_nil.
        destruct request_headers; [contradiction|discriminate]. }
    f_equal.
    rewrite (sort_by_key_lower _ Horder), (sort_by_key_reads_back _ Hdistinct).
    unfold Spec.lower_keys. rewrite !map_map. apply map_ext. intros key.
    unfold Spec.header_line. simpl. rewrite !append_assoc. reflexivity. }
  rewrite Hlines. reflexivity.
Qed.

(** C3 at work: the first signed call of the upload pipeline, whose
    parameters are written in key order and whose headers are the ones
    [_add_headers] makes. *)
Lemma canonical_request_witness :
  let request_params :=
    [ ("Action", JStr "ApplyImageUpload"); ("FileSize", JInt 1234);
      ("ServiceId", JStr "tb4s082cfz"); ("Version", JStr "2018-08-01");
      ("s", JStr "k3x9q0zr7ab") ] in
  let request_headers := _add_headers "20261104T010000Z" (JStr "session") [] in
  _canonical_string "GET" request_params request_headers []
  = Spec.canonical_request "GET" request_params request_headers [].
Proof.
  intros request_params request_headers.
  apply canonical_request_of_sorted_input.
  - reflexivity.
  - reflexivity.
  - reflexivity.
  - reflexivity.
  - discriminate.
  - reflexivity.
  - reflexivity.
Defined.

(** C3 (as stated) fails: the signer encodes a query-parameter map in the
    order it holds its keys; with ["b"] before ["a"] the canonical
    request has [b=1&a=2] where the stated one has [a=2&b=1]. *)
Lemma canonical_request_keeps_parameter_order :
  let request_headers := _add_headers "20261104T010000Z" (JStr "session") [] in
  _canonical_string "GET" [("b", JInt 1); ("a", JInt 2)] request_headers []
  <> Spec.canonical_request "GET" [("b", JInt 1); ("a", JInt 2)] request_headers [].
Proof.
  cbv zeta. intros C. apply String.eqb_eq in C. vm_compute in C. discriminate C.
Qed.

(** ** Identifiers of a draft (C6) *)

Lemma dict_get_among_strings (d : dict) (k : string) (v : json) :
  Forall (fun kv => exists s, snd kv = JStr s) d ->
  dict_get d k = Some v -> exists s, v = JStr s.
Proof.
  induction 1 as [|[k' v'] d Hkv _ IH]; simpl; [discriminate|].
  destruct (String.eqb k' k); [|exact IH].
  intros E. injection E as <-. exact Hkv.
Qed.

Lemma MODEL_MAP_holds_strings : Forall (fun kv => exists s, snd kv = JStr s) MODEL_MAP.
Proof. unfold MODEL_MAP. repeat constructor; eexists; reflexivity. Qed.

Lemma _get_model_is_a_string name : exists s, _get_model name = JStr s.
Proof.
  unfold _get_model.
  destruct (dict_get MODEL_MAP name) as [v|] eqn:E.
  - apply (dict_get_among_strings _ _ _ MODEL_MAP_holds_strings E).
  - eexists. vm_compute. reflexivity.
Qed.



(** The identifiers of a submission are draws of the UUID generator, one
    draw each, taken from where the generator stood. *)
Lemma build_submission_ids self file_path model prompt negative_prompt width height
    sample_strength upload_id w w' s :
  node_ids upload_id = [] ->
  build_submission self (has_file file_path) (_get_model (model_name file_path model))
    prompt negative_prompt width height sample_strength upload_id w = (Ok s, w') ->
  exists offsets : list nat,
    submission_ids s = map (fun i => JStr (uuid4 w (uuids_drawn w + i))) offsets /\
    NoDup offsets /\
    (forall i, In i offsets -> (uuids_drawn w + i < uuids_drawn w')%nat) /\
    uuid4 w' = uuid4 w.
Proof.
  intros Hup H.
  destruct (_get_model_is_a_string (model_name file_path model)) as (m & Hm).
  rewrite Hm in H. clear Hm.
  destruct w as [net ex gen n rb rd tt tg cr fs tr].
  destruct (has_file file_path).
  - cbv beta iota zeta delta
      [build_submission blend_abilities draft_document bind ret lift
       _generate_uuid new_uuid now tick
       network exchanges uuid4 uuids_drawn randbits randoms_drawn time_time time_gmtime
       clock_reads file_system trace] in H.
    destruct (py_int_of_float (web_id self)) as [wid| |]; try discriminate H.
    destruct (py_int_of_float _) as [ms| |] in H; try discriminate H.
    match type of H with
    | context [Urllib.quote ?x] =>
        set (babi_param := Urllib.quote x) in H; clearbody babi_param
    end.
    injection H as <- <-.
    exists [9; 10; 0; 11; 12; 1; 2; 3; 4; 5; 6; 7; 8]%nat.
    split; [|split; [|split]].
    + unfold submission_ids. cbn [submit_id draft]. simpl. rewrite !Hup. simpl.
      repeat f_equal; lia.
    + repeat (constructor; [simpl; intuition lia|]). constructor.
    + simpl. intros i Hi. intuition lia.
    + reflexivity.
  - cbv beta iota zeta delta
      [build_submission generate_abilities draft_document bind ret lift
       _generate_uuid new_uuid now tick randint randbelow
       network exchanges uuid4 uuids_drawn randbits randoms_drawn time_time time_gmtime
       clock_reads file_system trace] in H.
    destruct (py_int_of_float (web_id self)) as [wid| |]; try discriminate H.
    destruct (py_int_of_float _) as [ms| |] in H; try discriminate H.
    match type of H with
    | context [Urllib.quote ?x] =>
        set (babi_param := Urllib.quote x) in H; clearbody babi_param
    end.
    match type of H with
    | context [("seed", JInt ?x)] => set (seed := x) in H; clearbody seed
    end.
    injection H as <- <-.
    exists [5; 6; 0; 7; 8; 1; 2; 3; 4]%nat.
    split; [|split; [|split]].
    + unfold submission_ids. cbn [submit_id draft]. simpl.
      repeat f_equal; lia.
    + repeat (constructor; [simpl; intuition lia|]). constructor.
    + simpl. intros i Hi. intuition lia.
    + reflexivity.
Qed.

(** C6. Provided the UUID generator never returns the same value twice,
    the identifiers of one submission (the [submit_id] and the [id] of
    every node of the draft) are pairwise distinct, and a submission built
    in any later state of the world shares no identifier with it. The
    asset reference put into the draft is taken without [id] fields of
    its own (it is a string, or [None] without an image). *)
Theorem draft_identifiers_are_unique_and_never_reused
    (self : client) (file_path model : option string) (prompt negative_prompt : string)
    (width height : Z) (sample_strength : float) (upload_id : json)
    (w w' : world) (s : submission) :
  (forall i j, uuid4 w i = uuid4 w j -> i = j) ->
  node_ids upload_id = [] ->
  build_submission self (has_file file_path) (_get_model (model_name file_path model))
    prompt negative_prompt width height sample_strength upload_id w = (Ok s, w') ->
  NoDup (submission_ids s) /\
  forall (self2 : client) (file_path2 model2 : option string)
         (prompt2 negative_prompt2 : string) (width2 height2 : Z) (sample_strength2 : float)
         (upload_id2 : json) (w2 w2' : world) (s2 : submission),
    later w' w2 ->
    node_ids upload_id2 = [] ->
    build_submission self2 (has_file file_path2) (_get_model (model_name file_path2 model2))
      prompt2 negative_prompt2 width2 height2 sample_strength2 upload_id2 w2 = (Ok s2, w2') ->
    NoDup (submission_ids s2) /\
    forall id, In id (submission_ids s) -> ~ In id (submission_ids s2).
Proof.
  intros Hinj Hup Hbuild.
  destruct (build_submission_ids _ _ _ _ _ _ _ _ _ _ _ _ Hup Hbuild)
    as (offsets & Hids & Hnodup & Hbound & Hsame).
  assert (Hinj' : forall n i j,
             JStr (uuid4 w (n + i)) = JStr (uuid4 w (n + j)) -> i = j).
  { intros n i j E. injection E as E. apply Hinj in E. lia. }
  assert (Unique : forall n l, NoDup l ->
             NoDup (map (fun i => JStr (uuid4 w (n + i))) l)).
  { intros n l Hl. induction Hl as [|i l Hi Hl IH]; simpl; constructor; [|exact IH].
    intros Hin. apply in_map_iff in Hin as (j & E & Hj).
    apply Hinj' in E. subst. contradiction. }
  split.
  - rewrite Hids. apply Unique. exact Hnodup.
  - intros self2 file_path2 model2 prompt2 negative_prompt2 width2 height2 sample_strength2
      upload_id2 w2 w2' s2 [Hgen Hlater] Hup2 Hbuild2.
    destruct (build_submission_ids _ _ _ _ _ _ _ _ _ _ _ _ Hup2 Hbuild2)
      as (offsets2 & Hids2 & Hnodup2 & _ & _).
    rewrite Hgen, Hsame in Hids2.
    split.
    + rewrite Hids2. apply Unique. exact Hnodup2.
    + intros id Hin Hin2. rewrite Hids in Hin. rewrite Hids2 in Hin2.
      apply in_map_iff in Hin as (i & <- & Hi).
      apply in_map_iff in Hin2 as (j & E & Hj).
      injection E as E. apply Hinj in E.
      apply Hbound in Hi. lia.
Qed.

(** The numbered identifiers of the scripted worlds are pairwise distinct. *)
Lemma str_of_Z_injective a b : str_of_Z a = str_of_Z b -> a = b.
Proof.
  unfold str_of_Z. intros E.
  assert (N : forall z, NilZero.int_of_string (NilZero.string_of_int (Z.to_int z))
                        = Some (Z.to_int z)).
  { intros z. apply NilZero.isi.
    - destruct z; simpl; try discriminate.
      intros C. injection C as C. revert C. apply DecimalPos.Unsigned.to_uint_nonnil.
    - destruct z; simpl; try discriminate.
      intros C. injection C as C. revert C. apply DecimalPos.Unsigned.to_uint_nonnil. }
  pose proof (N a) as Ha. rewrite E, N in Ha. injection Ha as Ha.
  rewrite <- (DecimalZ.of_to a), <- (DecimalZ.of_to b). f_equal. symmetry. exact Ha.
Qed.

Lemma numbered_uuid_injective i j :
  Scenario.numbered_uuid i = Scenario.numbered_uuid j -> i = j.
Proof.
  unfold Scenario.numbered_uuid. simpl. intros E. injection E as E.
  apply str_of_Z_injective in E. lia.
Qed.

(** C6 at work: the submission of a first call, and the one of a second
    call made after the first ran to its end. *)
Lemma draft_identifiers_witness :
  exists s s2,
    fst (Scenario.build Scenario.two_pending_then_done) = Ok s /\
    fst (Scenario.build (snd (Scenario.generate 5 "cat" Scenario.two_pending_then_done)))
      = Ok s2 /\
    NoDup (submission_ids s) /\ NoDup (submission_ids s2) /\
    forall id, In id (submission_ids s) -> ~ In id (submission_ids s2).
Proof.
  pose (w := Scenario.two_pending_then_done).
  pose (w' := snd (Scenario.build w)).
  pose (w2 := snd (Scenario.generate 5 "cat" w)).
  pose (w2' := snd (Scenario.build w2)).
  eexists. eexists.
  split; [vm_compute; reflexivity|].
  split; [vm_compute; reflexivity|].
  match goal with
  | |- NoDup (submission_ids ?s) /\ NoDup (submission_ids ?s2) /\ _ =>
      assert (E : build_submission Scenario.self (has_file None)
                    (_get_model (model_name None None))
                    "cat" EmptyString 1024 1024 0.5%float JNull w = (Ok s, w'))
        by (vm_compute; reflexivity);
      assert (E2 : build_submission Scenario.self (has_file None)
                     (_get_model (model_name None None))
                     "cat" EmptyString 1024 1024 0.5%float JNull w2 = (Ok s2, w2'))
        by (vm_compute; reflexivity)
  end.
  assert (Hinj : forall i j, uuid4 w i = uuid4 w j -> i = j)
    by (intros i j; change (uuid4 w) with Scenario.numbered_uuid;
        apply numbered_uuid_injective).
  assert (Hup : node_ids JNull = []) by reflexivity.
  assert (Hlater : later w' w2)
    by (split; vm_compute; [reflexivity|repeat constructor]).
  destruct (draft_identifiers_are_unique_and_never_reused Scenario.self None None "cat"
              EmptyString 1024 1024 0.5%float JNull w w' _ Hinj Hup E)
    as [Hunique Hfresh].
  destruct (Hfresh Scenario.self None None "cat" EmptyString 1024 1024 0.5%float JNull
              w2 w2' _ Hlater Hup E2) as [Hunique2 Hdisjoint].
  split; [exact Hunique|]. split; [exact Hunique2|exact Hdisjoint].
Defined.

(** * Further properties of the code *)

(** ** Dictionaries *)

Lemma dict_get_set d k v k' :
  dict_get (dict_set d k v) k' = if String.eqb k k' then Some v else dict_get d k'.
Proof.
  induction d as [|[k0 v0] d IH]; simpl.
  - reflexivity.
  - destruct (String.eqb k0 k) eqn:E0; simpl.
    + apply String.eqb_eq in E0. subst k0.
      destruct (String.eqb k k'); reflexivity.
    + destruct (String.eqb k0 k') eqn:E1; [|exact IH].
      apply String.eqb_eq in E1. subst k0. rewrite String.eqb_sym, E0. reflexivity.
Qed.

(** In [{**a, **b}] a key of [a] is still there, and a key [b] does
    not have reads as in [a]. *)
Lemma dict_merge_keeps b : forall a k,
  dict_get a k <> None -> dict_get (dict_merge a b) k <> None.
Proof.
  unfold dict_merge. induction b as [|[k0 v0] b IH]; intros a k H; simpl; [exact H|].
  apply IH. rewrite dict_get_set. destruct (String.eqb k0 k); [discriminate|exact H].
Qed.

Lemma dict_merge_other b : forall a k,
  dict_get b k = None -> dict_get (dict_merge a b) k = dict_get a k.
Proof.
  unfold dict_merge. induction b as [|[k0 v0] b IH]; intros a k H; simpl in *; [reflexivity|].
  destruct (String.eqb k0 k) eqn:E; [discriminate|].
  rewrite (IH _ _ H), dict_get_set, E. reflexivity.
Qed.

(** ** Requests to the service *)

(** The cookie is made whenever the clock reads a time that [int]
    accepts; making it reads the clock once. *)
Lemma _generate_cookie_run self w ts :
  py_int_of_float (time_time w (clock_reads w)) = Ok ts ->
  exists cookie, _generate_cookie self w = (Ok cookie, tick w).
Proof.
  intros H. unfold _generate_cookie, bind, now, lift. rewrite H. eexists. reflexivity.
Qed.

Lemma _generate_cookie_cases self w :
  (exists cookie, _generate_cookie self w = (Ok cookie, tick w)) \/
  (exists e, _generate_cookie self w = (Raise e, tick w) /\ is_RequestException e = false).
Proof.
  unfold _generate_cookie, bind, now, lift.
  unfold py_int_of_float. destruct (Prim2SF _) as [s|s| |s m e].
  - left. eexists. reflexivity.
  - right. eexists. split; reflexivity.
  - right. eexists. split; reflexivity.
  - left. eexists. reflexivity.
Qed.

(** X1. Whenever the clock can be read, [_request] makes exactly one
    exchange, through the session, with an [https] URL and a [Cookie]
    header, whatever the path and the headers of the caller. *)
Theorem request_is_one_https_exchange_with_cookie
    (self : client) (meth path : string) (data params hdrs : option dict)
    (w : world) (ts : Z) :
  py_int_of_float (time_time w (clock_reads w)) = Ok ts ->
  exists (r : request) (h : dict),
    trace (snd (_request self meth path data params hdrs w)) = trace w ++ [Sent r] /\
    exchanges (snd (_request self meth path data params hdrs w)) = S (exchanges w) /\
    via_session r = true /\
    String.prefix "https://" (url r) = true /\
    headers r = Some h /\ dict_get h "Cookie" <> None.
Proof.
  intros Hclock.
  destruct (_generate_cookie_run self w ts Hclock) as (cookie & Hcookie).
  unfold _request, bind. rewrite Hcookie. unfold try_except.
  assert (Hurl : String.prefix "https://"
                   (if String.prefix "https://" path then path
                    else "https://jimeng.jianying.com" +++ path) = true).
  { destruct (String.prefix "https://" path) eqn:E; [exact E|reflexivity]. }
  assert (Hcookie' : forall c, dict_get (dict_merge [("Cookie", JStr c)] (or_empty hdrs))
                                 "Cookie" <> None).
  { intros c. apply dict_merge_keeps. discriminate. }
  destruct (String.eqb (str_upper meth) "GET");
    unfold send, bind; cbn [network exchanges trace tick];
    match goal with
    | |- context [network w (exchanges w) ?r] =>
        exists r; eexists;
        destruct (network w (exchanges w) r) as [e|resp];
        [ destruct (is_RequestException e)
        | unfold check_status, read_json;
          destruct (raise_for_status resp) as [e|];
          [ unfold raise; destruct (is_RequestException e)
          | unfold ret; destruct (json_of resp) as [e|v];
            [ unfold raise; destruct (is_RequestException e) | ] ] ]
    end;
    (split; [reflexivity|]; split; [reflexivity|]; split; [reflexivity|];
     split; [exact Hurl|]; split; [reflexivity|apply Hcookie']).
Qed.

(** X1 at work: the balance request of a first call. *)
Lemma request_is_one_https_exchange_witness :
  exists (r : request) (h : dict),
    trace (snd (_request Scenario.self "POST" "/commerce/v1/benefits/user_credit"
                  (Some []) (Some []) (Some generate_referer)
                  Scenario.two_pending_then_done))
      = trace Scenario.two_pending_then_done ++ [Sent r] /\
    exchanges (snd (_request Scenario.self "POST" "/commerce/v1/benefits/user_credit"
                      (Some []) (Some []) (Some generate_referer)
                      Scenario.two_pending_then_done))
      = S (exchanges Scenario.two_pending_then_done) /\
    via_session r = true /\
    String.prefix "https://" (url r) = true /\
    headers r = Some h /\ dict_get h "Cookie" <> None.
Proof.
  apply (request_is_one_https_exchange_with_cookie Scenario.self "POST"
           "/commerce/v1/benefits/user_credit" (Some []) (Some []) (Some generate_referer)
           Scenario.two_pending_then_done 1762218000).
  vm_compute. reflexivity.
Defined.

(** X2. No [RequestException] leaves [_request]: what it raises is the
    wrapping [Exception], or an error of another class. *)
Theorem request_never_raises_RequestException
    (self : client) (meth path : string) (data params hdrs : option dict)
    (w : world) (e : exn) :
  fst (_request self meth path data params hdrs w) = Raise e ->
  is_RequestException e = false.
Proof.
  unfold _request, bind.
  destruct (_generate_cookie_cases self w) as [(cookie & Hc)|(e0 & Hc & He0)]; rewrite Hc.
  2:{ simpl. intros H. injection H as <-. exact He0. }
  unfold try_except.
  match goal with
  | |- context [if ?b then send ?r1 else send ?r2] =>
      assert (G : forall r, fst (match (resp <- send r ;; check_status resp ;; read_json resp)
                                         (tick w) with
                                 | (Raise e1, w') =>
                                     if is_RequestException e1
                                     then raise (Raised Exception
                                                   (Message [Lit "即梦API请求失败: "; StrOf e1])) w'
                                     else (Raise e1, w')
                                 | r0 => r0
                                 end) = Raise e -> is_RequestException e = false);
      [|destruct b; apply G]
  end.
  intros r. unfold send, bind, check_status, read_json, raise, ret.
  destruct (network (tick w) (exchanges (tick w)) r) as [e1|resp].
  - destruct (is_RequestException e1) eqn:E; simpl; intros H; injection H as <-;
      [reflexivity|exact E].
  - destruct (raise_for_status resp) as [e1|].
    + destruct (is_RequestException e1) eqn:E; simpl; intros H; injection H as <-;
        [reflexivity|exact E].
    + destruct (json_of resp) as [e1|v].
      * destruct (is_RequestException e1) eqn:E; simpl; intros H; injection H as <-;
          [reflexivity|exact E].
      * simpl. discriminate.
Qed.

(** X2 at work: a transport that refuses the connection. *)
Lemma request_never_raises_RequestException_witness :
  let w := Scenario.world_of
             (Scenario.scripted [inl (Raised RequestException (Arg (JStr "refused")))]) in
  let e := Raised Exception
             (Message [Lit "即梦API请求失败: ";
                       StrOf (Raised RequestException (Arg (JStr "refused")))]) in
  fst (_request Scenario.self "POST" "/commerce/v1/benefits/user_credit"
         (Some []) (Some []) (Some generate_referer) w) = Raise e /\
  is_RequestException e = false.
Proof.
  intros w e.
  assert (H : fst (_request Scenario.self "POST" "/commerce/v1/benefits/user_credit"
                     (Some []) (Some []) (Some generate_referer) w) = Raise e)
    by (vm_compute; reflexivity).
  split; [exact H|].
  exact (request_never_raises_RequestException Scenario.self "POST"
           "/commerce/v1/benefits/user_credit" (Some []) (Some []) (Some generate_referer)
           w e H).
Defined.

(** X3. An error of the transport ends [_request]: as
    [Exception("即梦API请求失败: " + str(e))] if it is a
    [RequestException], as it is if it is of another class; the answer
    is never read. *)
Theorem transport_error_is_reported
    (self : client) (meth path : string) (data params hdrs : option dict)
    (w : world) (ts : Z) (cause : exn) :
  py_int_of_float (time_time w (clock_reads w)) = Ok ts ->
  (forall r, network w (exchanges w) r = inl cause) ->
  fst (_request self meth path data params hdrs w)
  = Raise (if is_RequestException cause
           then Raised Exception (Message [Lit "即梦API请求失败: "; StrOf cause])
           else cause).
Proof.
  intros Hclock Hnet.
  destruct (_generate_cookie_run self w ts Hclock) as (cookie & Hcookie).
  unfold _request, bind. rewrite Hcookie. unfold try_except.
  destruct (String.eqb (str_upper meth) "GET");
    unfold send, bind; cbn [network exchanges tick]; rewrite Hnet;
    destruct (is_RequestException cause); reflexivity.
Qed.

Lemma transport_error_is_reported_witness :
  fst (_request Scenario.self "GET" "https://imagex.bytedanceapi.com/?Action=ApplyImageUpload"
         (Some []) (Some []) None
         (Scenario.world_of
            (Scenario.scripted [inl (Raised RequestException (Arg (JStr "refused")))])))
  = Raise (Raised Exception
             (Message [Lit "即梦API请求失败: ";
                       StrOf (Raised RequestException (Arg (JStr "refused")))])).
Proof.
  apply (transport_error_is_reported Scenario.self "GET"
           "https://imagex.bytedanceapi.com/?Action=ApplyImageUpload"
           (Some []) (Some []) None
           (Scenario.world_of
              (Scenario.scripted [inl (Raised RequestException (Arg (JStr "refused")))]))
           1762218000 (Raised RequestException (Arg (JStr "refused")))).
  - vm_compute. reflexivity.
  - intros r. reflexivity.
Defined.

Lemma existsb_eqb_dict_get (d : dict) k :
  existsb (String.eqb k) (dict_keys d) = false -> dict_get d k = None.
Proof.
  induction d as [|[k0 v0] d IH]; simpl; [reflexivity|].
  intros H. apply orb_false_elim in H as [H1 H2].
  rewrite String.eqb_sym, H1. exact (IH H2).
Qed.

(** In [{**a, **b}] an entry of [b] wins. *)
Lemma dict_merge_wins b : forall a k v,
  Spec.distinct (dict_keys b) = true ->
  dict_get b k = Some v -> dict_get (dict_merge a b) k = Some v.
Proof.
  induction b as [|[k0 v0] b IH]; intros a k v Hd H; simpl in *; [discriminate|].
  apply andb_prop in Hd as [Hfresh Hd].
  change (dict_merge a ((k0, v0) :: b)) with (dict_merge (dict_set a k0 v0) b).
  destruct (String.eqb k0 k) eqn:E.
  - injection H as <-. apply String.eqb_eq in E. subst k0.
    rewrite dict_merge_other, dict_get_set, String.eqb_refl; [reflexivity|].
    apply existsb_eqb_dict_get. apply negb_true_iff. exact Hfresh.
  - apply IH; assumption.
Qed.

(** X4. How [_request] carries [data]: a GET (in any letter case) sends
    [data] and [params] together as query parameters, an entry of
    [params] winning over one of [data], and no body; any other method
    is sent in lower case with [data] as the JSON body and [params] as
    given. *)
Theorem request_carries_data_by_method
    (self : client) (meth path : string) (data query hdrs : option dict)
    (w : world) (ts : Z) :
  py_int_of_float (time_time w (clock_reads w)) = Ok ts ->
  Spec.distinct (dict_keys (or_empty query)) = true ->
  exists r : request,
    trace (snd (_request self meth path data query hdrs w)) = trace w ++ [Sent r] /\
    data_body r = None /\
    if String.eqb (str_upper meth) "GET"
    then method r = "GET" /\ json_body r = None /\
         exists q, params r = Some q /\
           forall k, dict_get q k = match dict_get (or_empty query) k with
                                    | Some v => Some v
                                    | None => dict_get (or_empty data) k
                                    end
    else method r = str_lower meth /\ json_body r = data /\ params r = query.
Proof.
  intros Hclock Hdistinct.
  destruct (_generate_cookie_run self w ts Hclock) as (cookie & Hcookie).
  unfold _request, bind. rewrite Hcookie. unfold try_except.
  destruct (String.eqb (str_upper meth) "GET");
    unfold send, bind; cbn [network exchanges trace tick];
    match goal with
    | |- context [network w (exchanges w) ?r] =>
        exists r;
        destruct (network w (exchanges w) r) as [e|resp];
        [ destruct (is_RequestException e)
        | unfold check_status, read_json;
          destruct (raise_for_status resp) as [e|];
          [ unfold raise; destruct (is_RequestException e)
          | unfold ret; destruct (json_of resp) as [e|v];
            [ unfold raise; destruct (is_RequestException e) | ] ] ]
    end;
    (split; [reflexivity|]; split; [reflexivity|]);
    try (split; [reflexivity|]; split; reflexivity);
    (split; [reflexivity|]; split; [reflexivity|]; eexists; split; [reflexivity|];
     intros k; destruct (dict_get (or_empty query) k) as [x|] eqn:E;
     [apply dict_merge_wins; assumption|apply dict_merge_other; exact E]).
Qed.

Lemma request_carries_data_by_method_witness :
  exists r : request,
    trace (snd (_request Scenario.self "get" "/probe" (Some [("a", JInt 1); ("b", JInt 2)])
                  (Some [("b", JInt 3)]) None Scenario.two_pending_then_done))
      = trace Scenario.two_pending_then_done ++ [Sent r] /\
    data_body r = None /\
    if String.eqb (str_upper "get") "GET"
    then method r = "GET" /\ json_body r = None /\
         exists q, params r = Some q /\
           forall k, dict_get q k = match dict_get (or_empty (Some [("b", JInt 3)])) k with
                                    | Some v => Some v
                                    | None => dict_get (or_empty (Some [("a", JInt 1);
                                                                        ("b", JInt 2)])) k
                                    end
    else method r = str_lower "get" /\
         json_body r = Some [("a", JInt 1); ("b", JInt 2)] /\
         params r = Some [("b", JInt 3)].
Proof.
  apply (request_carries_data_by_method Scenario.self "get" "/probe"
           (Some [("a", JInt 1); ("b", JInt 2)]) (Some [("b", JInt 3)]) None
           Scenario.two_pending_then_done 1762218000).
  - vm_compute. reflexivity.
  - reflexivity.
Defined.

(** ** The balance *)

(** X5. [get_credit] reads the three credits of the answer, a missing
    one counting as zero, and totals them. *)
Theorem get_credit_totals_the_three_credits
    (self : client) (w w' : world) (answer credit : dict) (gift purchase vip : Z) :
  _request self "POST" "/commerce/v1/benefits/user_credit" (Some []) (Some [])
    (Some generate_referer) w = (Ok (JObj answer), w') ->
  field answer "credit" (JObj []) = JObj credit ->
  field credit "gift_credit" (JInt 0) = JInt gift ->
  field credit "purchase_credit" (JInt 0) = JInt purchase ->
  field credit "vip_credit" (JInt 0) = JInt vip ->
  get_credit self w
  = (Ok [ ("gift_credit", JInt gift); ("purchase_credit", JInt purchase);
          ("vip_credit", JInt vip); ("total_credit", JInt (gift + purchase + vip)) ], w').
Proof.
  intros Hreq Hcredit Hgift Hpurchase Hvip.
  unfold get_credit, bind. rewrite Hreq.
  unfold lift, py_get. fold (field answer "credit" (JObj [])). rewrite Hcredit.
  fold (field credit "gift_credit" (JInt 0)) (field credit "purchase_credit" (JInt 0))
       (field credit "vip_credit" (JInt 0)).
  rewrite Hgift, Hpurchase, Hvip. reflexivity.
Qed.

(** X5 at work: an account with ten gift credits and nothing else. *)
Lemma get_credit_totals_witness :
  fst (get_credit Scenario.self Scenario.two_pending_then_done)
  = Ok [ ("gift_credit", JInt 10); ("purchase_credit", JInt 0);
         ("vip_credit", JInt 0); ("total_credit", JInt 10) ].
Proof.
  pose (w := Scenario.two_pending_then_done).
  pose (w' := snd (_request Scenario.self "POST" "/commerce/v1/benefits/user_credit"
                     (Some []) (Some []) (Some generate_referer) w)).
  assert (Hreq : _request Scenario.self "POST" "/commerce/v1/benefits/user_credit"
                   (Some []) (Some []) (Some generate_referer) w
                 = (Ok (JObj [("credit", JObj [("gift_credit", JInt 10)])]), w'))
    by (vm_compute; reflexivity).
  exact (f_equal fst
           (get_credit_totals_the_three_credits Scenario.self w w'
              [("credit", JObj [("gift_credit", JInt 10)])] [("gift_credit", JInt 10)]
              10 0 0 Hreq eq_refl eq_refl eq_refl eq_refl)).
Defined.

(** X6. With credit left, [generate_image] makes no claim: the check of
    the balance is one request, and the world after it is the world
    after that request. *)
Theorem credit_left_means_no_claim
    (self : client) (w w' : world) (answer credit : dict) (gift purchase vip : Z) :
  _request self "POST" "/commerce/v1/benefits/user_credit" (Some []) (Some [])
    (Some generate_referer) w = (Ok (JObj answer), w') ->
  field answer "credit" (JObj []) = JObj credit ->
  field credit "gift_credit" (JInt 0) = JInt gift ->
  field credit "purchase_credit" (JInt 0) = JInt purchase ->
  field credit "vip_credit" (JInt 0) = JInt vip ->
  0 < gift + purchase + vip ->
  credit_phase self w = (Ok tt, w').
Proof.
  intros Hreq Hcredit Hgift Hpurchase Hvip Hleft.
  unfold credit_phase, bind. 
  assert (Hrun : get_credit self w
                 = (Ok [ ("gift_credit", JInt gift); ("purchase_credit", JInt purchase);
                         ("vip_credit", JInt vip);
                         ("total_credit", JInt (gift + purchase + vip)) ], w')).
  { unfold get_credit, bind. rewrite Hreq.
    unfold lift, py_get. fold (field answer "credit" (JObj [])). rewrite Hcredit.
    fold (field credit "gift_credit" (JInt 0)) (field credit "purchase_credit" (JInt 0))
         (field credit "vip_credit" (JInt 0)).
    rewrite Hgift, Hpurchase, Hvip. reflexivity. }
  rewrite Hrun. cbn [dict_get String.eqb Ascii.eqb Bool.eqb lift py_le_int].
  replace (gift + purchase + vip <=? 0) with false by (symmetry; apply Z.leb_gt; lia).
  reflexivity.
Qed.

Lemma credit_left_witness :
  exists w', credit_phase Scenario.self Scenario.two_pending_then_done = (Ok tt, w') /\
             exchanges w' = 1%nat.
Proof.
  pose (w := Scenario.two_pending_then_done).
  pose (w' := snd (_request Scenario.self "POST" "/commerce/v1/benefits/user_credit"
                     (Some []) (Some []) (Some generate_referer) w)).
  assert (Hreq : _request Scenario.self "POST" "/commerce/v1/benefits/user_credit"
                   (Some []) (Some []) (Some generate_referer) w
                 = (Ok (JObj [("credit", JObj [("gift_credit", JInt 10)])]), w'))
    by (vm_compute; reflexivity).
  exists w'. split.
  - apply (credit_left_means_no_claim Scenario.self w w'
             [("credit", JObj [("gift_credit", JInt 10)])] [("gift_credit", JInt 10)]
             10 0 0 Hreq eq_refl eq_refl eq_refl eq_refl).
    reflexivity.
  - vm_compute. reflexivity.
Defined.

(** X7. An answer whose [credit] is there but is no object ([null], a
    number, a string, a list) makes [get_credit] raise
    [AttributeError]: the default [{}] only stands in for a missing
    key. *)
Theorem get_credit_rejects_a_credit_that_is_no_object
    (self : client) (w w' : world) (answer : dict) (credit : json) :
  _request self "POST" "/commerce/v1/benefits/user_credit" (Some []) (Some [])
    (Some generate_referer) w = (Ok (JObj answer), w') ->
  dict_get answer "credit" = Some credit ->
  (forall fields, credit <> JObj fields) ->
  get_credit self w = (Raise (Raised AttributeError NoArg), w').
Proof.
  intros Hreq Hcredit Hshape.
  unfold get_credit, bind. rewrite Hreq.
  unfold lift, py_get. rewrite Hcredit.
  destruct credit; try reflexivity.
  exfalso. exact (Hshape _ eq_refl).
Qed.

Lemma get_credit_rejects_null_credit_witness :
  fst (get_credit Scenario.self
         (Scenario.world_of (Scenario.scripted [Scenario.reply (JObj [("credit", JNull)])])))
  = Raise (Raised AttributeError NoArg).
Proof.
  pose (w := Scenario.world_of
               (Scenario.scripted [Scenario.reply (JObj [("credit", JNull)])])).
  pose (w' := snd (_request Scenario.self "POST" "/commerce/v1/benefits/user_credit"
                     (Some []) (Some []) (Some generate_referer) w)).
  assert (Hreq : _request Scenario.self "POST" "/commerce/v1/benefits/user_credit"
                   (Some []) (Some []) (Some generate_referer) w
                 = (Ok (JObj [("credit", JNull)]), w'))
    by (vm_compute; reflexivity).
  assert (Hshape : forall fields, JNull <> JObj fields) by (intros fields; discriminate).
  exact (f_equal fst
           (get_credit_rejects_a_credit_that_is_no_object Scenario.self w w'
              [("credit", JNull)] JNull Hreq eq_refl Hshape)).
Defined.

(** ** The upload token *)

(** X8. [_get_upload_auth] returns the [data] of the answer when it is
    there and not empty, and otherwise raises an [Exception] with the
    [errmsg] of the answer, or with
    ["获取上传凭证失败,账号可能已掉线!"] when the answer has none. *)
Theorem upload_auth_is_the_data_or_an_error
    (self : client) (w w' : world) (answer : dict) :
  _request self "POST"
    "/mweb/v1/get_upload_token?aid=513695&da_version=3.2.2&aigc_features=app_lip_sync"
    (Some [("scene", JInt 2)]) None None w = (Ok (JObj answer), w') ->
  _get_upload_auth self w
  = (if py_truth (field answer "data" JNull)
     then Ok (field answer "data" JNull)
     else Raise (Raised Exception
                   (Arg (field answer "errmsg" (JStr "获取上传凭证失败,账号可能已掉线!")))),
     w').
Proof.
  intros Hreq. unfold _get_upload_auth, bind. rewrite Hreq.
  unfold lift, py_get, py_item, field.
  destruct (dict_get answer "data") as [data|] eqn:E; simpl.
  - destruct (py_truth data); reflexivity.
  - reflexivity.
Qed.

Lemma upload_auth_witness :
  fst (_get_upload_auth Scenario.self
         (Scenario.world_of
            (Scenario.scripted [Scenario.reply (JObj [("errmsg", JStr "login expired")])])))
  = Raise (Raised Exception (Arg (JStr "login expired"))).
Proof.
  pose (w := Scenario.world_of
               (Scenario.scripted [Scenario.reply (JObj [("errmsg", JStr "login expired")])])).
  pose (w' := snd (_request Scenario.self "POST"
                     "/mweb/v1/get_upload_token?aid=513695&da_version=3.2.2&aigc_features=app_lip_sync"
                     (Some [("scene", JInt 2)]) None None w)).
  assert (Hreq : _request Scenario.self "POST"
                   "/mweb/v1/get_upload_token?aid=513695&da_version=3.2.2&aigc_features=app_lip_sync"
                   (Some [("scene", JInt 2)]) None None w
                 = (Ok (JObj [("errmsg", JStr "login expired")]), w'))
    by (vm_compute; reflexivity).
  exact (f_equal fst
           (upload_auth_is_the_data_or_an_error Scenario.self w w'
              [("errmsg", JStr "login expired")] Hreq)).
Defined.

(** ** Reading the image *)

(** X9. Whatever goes wrong while the image is read, from a URL or from
    a file, leaves [_get_file_content] as an [Exception] that names the
    path and the cause. *)
Theorem file_read_failure_names_the_path (file_path : string) (w : world) (e : exn) :
  fst (_get_file_content file_path w) = Raise e ->
  exists cause,
    e = Raised Exception
          (Message [Lit "读取文件失败: "; Lit file_path; Lit ", 错误: "; StrOf cause]).
Proof.
  unfold _get_file_content, try_except.
  destruct (String.prefix "http://" file_path || String.prefix "https://" file_path).
  - unfold bind, send, check_status, raise, ret.
    destruct (network w (exchanges w) _) as [cause|resp]; simpl.
    + intros H. injection H as <-. exists cause. reflexivity.
    + destruct (raise_for_status resp) as [cause|]; simpl.
      * intros H. injection H as <-. exists cause. reflexivity.
      * discriminate.
  - unfold read_file. destruct (file_system w file_path) as [cause|bs]; simpl.
    + intros H. injection H as <-. exists cause. reflexivity.
    + discriminate.
Qed.

(** X9 at work: the file system of the scripted worlds has no file. *)
Lemma file_read_failure_witness :
  let e := Raised Exception
             (Message [Lit "读取文件失败: "; Lit "01.jpeg"; Lit ", 错误: ";
                       StrOf (Raised OSError NoArg)]) in
  fst (_get_file_content "01.jpeg" Scenario.two_pending_then_done) = Raise e /\
  exists cause,
    e = Raised Exception
          (Message [Lit "读取文件失败: "; Lit "01.jpeg"; Lit ", 错误: "; StrOf cause]).
Proof.
  intros e.
  assert (H : fst (_get_file_content "01.jpeg" Scenario.two_pending_then_done) = Raise e)
    by (vm_compute; reflexivity).
  split; [exact H|].
  exact (file_read_failure_names_the_path "01.jpeg" Scenario.two_pending_then_done e H).
Defined.

(** X10. A path that starts with [http://] or [https://] is fetched
    with one plain GET, outside the session and without a header of the
    client (no cookie goes to the host of the image); any other path is
    opened as a file, and nothing is sent. *)
Theorem image_is_fetched_outside_the_session (file_path : string) (w : world) :
  let w' := snd (_get_file_content file_path w) in
  if String.prefix "http://" file_path || String.prefix "https://" file_path
  then trace w' = trace w ++ [Sent (mkRequest false "GET" file_path None None None None)]
       /\ exchanges w' = S (exchanges w)
  else trace w' = trace w ++ [Opened file_path] /\ exchanges w' = exchanges w.
Proof.
  unfold _get_file_content, try_except.
  destruct (String.prefix "http://" file_path || String.prefix "https://" file_path).
  - unfold bind, send, check_status, raise, ret.
    destruct (network w (exchanges w) _) as [cause|resp]; simpl.
    + split; reflexivity.
    + destruct (raise_for_status resp) as [cause|]; simpl; split; reflexivity.
  - unfold read_file.
    destruct (file_system w file_path) as [cause|bs]; simpl; split; reflexivity.
Qed.

(** ** Random strings *)

Lemma characters_at (i : nat) :
  (i < 36)%nat ->
  exists c, String.substring i 1 characters = str1 c /\ str_mem c characters = true.
Proof.
  intros H.
  do 36 (destruct i as [|i]; [eexists; split; reflexivity|]).
  lia.
Qed.

(** X11. [_generate_random_string n] always returns a string of [n]
    characters, each a lower-case letter or a digit, and draws [n]
    random numbers to make it. *)
Theorem random_string_has_length_and_alphabet (n : nat) (w : world) :
  exists s w',
    _generate_random_string n w = (Ok s, w') /\
    String.length s = n /\
    (forall c, str_mem c s = true -> str_mem c characters = true) /\
    randoms_drawn w' = (randoms_drawn w + n)%nat /\
    trace w' = trace w /\ exchanges w' = exchanges w.
Proof.
  revert w. induction n as [|n IH]; intros w.
  - exists EmptyString, w. simpl. repeat split; try reflexivity; [discriminate|lia].
  - cbn [_generate_random_string]. unfold bind, randbelow.
    set (i := randbits w (randoms_drawn w) mod 36).
    set (w1 := mkWorld _ _ _ _ _ _ _ _ _ _ _).
    destruct (IH w1) as (rest & w2 & Hrun & Hlen & Halpha & Hdraws & Htrace & Hsent).
    destruct (characters_at (Z.to_nat i)) as (c & Hc & Hmem).
    { pose proof (Z.mod_pos_bound (randbits w (randoms_drawn w)) 36 ltac:(lia)).
      subst i. lia. }
    rewrite Hrun. unfold ret.
    exists (String.substring (Z.to_nat i) 1 characters +++ rest), w2.
    split; [reflexivity|]. rewrite Hc. simpl.
    split; [rewrite Hlen; reflexivity|].
    split; [|split; [|split]].
    + intros c0 H0. apply orb_prop in H0 as [H0|H0].
      * apply Ascii.eqb_eq in H0. subst c0. exact Hmem.
      * apply Halpha. exact H0.
    + rewrite Hdraws. subst w1. simpl. lia.
    + rewrite Htrace. reflexivity.
    + rewrite Hsent. reflexivity.
Qed.

(** ** What the signer signs *)

(** X12. The headers the signer lists as signed are the date and the
    session token, and the body hash exactly when there is a body:
    whatever the date, the token and the body are. *)
Theorem signed_headers_of_a_request
    (amz_date : string) (session_token : json) (request_body : dict) :
  _signed_headers (_add_headers amz_date session_token request_body)
  = match request_body with
    | [] => "x-amz-date;x-amz-security-token"
    | _ => "x-amz-content-sha256;x-amz-date;x-amz-security-token"
    end.
Proof. destruct request_body; reflexivity. Qed.

Lemma authorization_value (key date8 region service signed signature : string) :
  String.concat ", "
    [ "AWS4-HMAC-SHA256 Credential=" +++ key +++ "/"
        +++ String.concat "/" [date8; region; service; "aws4_request"];
      "SignedHeaders=" +++ signed;
      "Signature=" +++ signature ]
  = "AWS4-HMAC-SHA256 Credential=" +++ key +++ "/" +++ date8 +++ "/" +++ region +++ "/"
      +++ service +++ "/aws4_request, "
      +++ "SignedHeaders=" +++ signed +++ ", " +++ "Signature=" +++ signature.
Proof. cbn [String.concat]. rewrite !append_assoc. reflexivity. Qed.

(** X13. The header map the signer returns is the map of
    [_add_headers] with [Authorization] added: every other header is
    there with the value [_add_headers] gave it, and the value of
    [Authorization] names the algorithm, the access key and the scope
    of the credential. *)
Theorem signer_adds_authorization_to_the_headers
    (access_key_id secret_access_key session_token : json)
    (region service request_method : string) (request_params : dict)
    (request_body : option dict) (w : world) :
  let amz_date := strftime_amz (time_gmtime w (clock_reads w)) in
  exists (hdrs : dict) (rest : string),
    fst (_generate_authorization_and_header access_key_id secret_access_key session_token
           region service request_method request_params request_body w) = Ok hdrs /\
    dict_get hdrs "Authorization"
    = Some (JStr ("AWS4-HMAC-SHA256 Credential=" +++ py_str access_key_id +++ "/"
                    +++ String.substring 0 8 amz_date +++ "/" +++ region +++ "/" +++ service
                    +++ "/aws4_request, " +++ rest)) /\
    forall k, k <> "Authorization" ->
      dict_get hdrs k = dict_get (_add_headers amz_date session_token (or_empty request_body)) k.
Proof.
  intros amz_date.
  exists (authorization_and_header amz_date access_key_id secret_access_key session_token
            region service request_method request_params request_body).
  exists ("SignedHeaders="
            +++ _signed_headers (_add_headers amz_date session_token (or_empty request_body))
            +++ ", " +++ "Signature="
            +++ _signature secret_access_key amz_date region service request_method
                  request_params
                  (_add_headers amz_date session_token (or_empty request_body))
                  (or_empty request_body)).
  split; [reflexivity|].
  unfold authorization_and_header, _credential_string.
  rewrite authorization_value.
  split.
  - rewrite dict_get_set, String.eqb_refl. reflexivity.
  - intros k Hk. rewrite dict_get_set.
    destruct (String.eqb "Authorization" k) eqn:E; [|reflexivity].
    apply String.eqb_eq in E. congruence.
Qed.

(** ** The upload pipeline *)


(** X14. Every error that leaves [_upload_cover_file] is an
    [Exception] whose message is ["上传文件失败: "] followed by the text
    of what went wrong inside, whatever its class was. *)
Theorem upload_failure_is_wrapped (self : client) (file_path : string) (w : world) (e : exn) :
  fst (_upload_cover_file self file_path w) = Raise e ->
  exists cause, e = Raised Exception (Message [Lit "上传文件失败: "; StrOf cause]).
Proof.
  unfold _upload_cover_file, try_except.
  match goal with
  | |- context [match ?run with _ => _ end] => destruct run as [[uri|cause|] w']
  end; simpl; try discriminate.
  intros H. injection H as <-. exists cause. reflexivity.
Qed.

(** X14 at work: the token is had, the file is not there. *)
Lemma upload_failure_witness :
  let e := Raised Exception
             (Message [Lit "上传文件失败: ";
                       StrOf (Raised Exception
                                (Message [Lit "读取文件失败: "; Lit "missing.png";
                                          Lit ", 错误: "; StrOf (Raised OSError NoArg)]))]) in
  fst (_upload_cover_file Scenario.self "missing.png" (Scenario.upload_answered (JInt 2000)))
    = Raise e /\
  exists cause, e = Raised Exception (Message [Lit "上传文件失败: "; StrOf cause]).
Proof.
  intros e.
  assert (H : fst (_upload_cover_file Scenario.self "missing.png"
                     (Scenario.upload_answered (JInt 2000))) = Raise e)
    by (vm_compute; reflexivity).
  split; [exact H|].
  exact (upload_failure_is_wrapped Scenario.self "missing.png"
           (Scenario.upload_answered (JInt 2000)) e H).
Defined.

(** X15. When the upload token cannot be had, the upload ends there:
    the error is wrapped, the image is not read and nothing more is
    sent. *)
Theorem failed_auth_ends_the_upload
    (self : client) (file_path : string) (w w' : world) (cause : exn) :
  _get_upload_auth self w = (Raise cause, w') ->
  _upload_cover_file self file_path w
  = (Raise (Raised Exception (Message [Lit "上传文件失败: "; StrOf cause])), w').
Proof.
  intros H. unfold _upload_cover_file, try_except.
  rewrite (bind_raise _ _ _ _ _ H). reflexivity.
Qed.

(** X15 at work: the service says the login has expired. *)
Lemma failed_auth_witness :
  exists w',
    _upload_cover_file Scenario.self "01.jpeg"
      (Scenario.with_file
         (Scenario.scripted [Scenario.reply (JObj [("errmsg", JStr "login expired")])]))
    = (Raise (Raised Exception
                (Message [Lit "上传文件失败: ";
                          StrOf (Raised Exception (Arg (JStr "login expired")))])), w') /\
    exchanges w' = 1%nat.
Proof.
  pose (w := Scenario.with_file
               (Scenario.scripted [Scenario.reply (JObj [("errmsg", JStr "login expired")])])).
  pose (w' := snd (_get_upload_auth Scenario.self w)).
  assert (H : _get_upload_auth Scenario.self w
              = (Raise (Raised Exception (Arg (JStr "login expired"))), w'))
    by (vm_compute; reflexivity).
  exists w'. split.
  - exact (failed_auth_ends_the_upload Scenario.self "01.jpeg" w w' _ H).
  - vm_compute. reflexivity.
Defined.










(** ** Exchanges of the upload pipeline *)

Lemma quiet_lift {A : Type} (o : outcome A) : o <> OutOfFuel -> quiet (lift o).
Proof. intros Ho w o' w' H. injection H as <- <-. repeat split. exact Ho. Qed.

Lemma py_item_ends v k : py_item v k <> OutOfFuel.
Proof. destruct v; simpl; try discriminate. destruct (dict_get fields k); discriminate. Qed.

Lemma py_first_ends v : py_first v <> OutOfFuel.
Proof.
  destruct v; simpl; try discriminate.
  - destruct s; discriminate.
  - destruct items; discriminate.
Qed.

Lemma py_get_ends v k d : py_get v k d <> OutOfFuel.
Proof. destruct v; discriminate. Qed.

Lemma py_in_ends k v : py_in k v <> OutOfFuel.
Proof. destruct v; discriminate. Qed.

Lemma check_error_envelope_ends res : check_error_envelope res <> OutOfFuel.
Proof.
  unfold check_error_envelope.
  destruct (py_in "Response" res) as [[|]| |] eqn:E1; simpl; try discriminate.
  - destruct (py_item res "Response") as [r| |] eqn:E2; simpl; try discriminate.
    + destruct (py_in "Error" r) as [[|]| |] eqn:E3; simpl; try discriminate.
      * destruct (py_item r "Error") as [err| |] eqn:E4; simpl; try discriminate.
        -- destruct (py_item err "Message") as [msg| |] eqn:E5; simpl; try discriminate.
           exfalso. exact (py_item_ends _ _ E5).
        -- exfalso. exact (py_item_ends _ _ E4).
      * exfalso. exact (py_in_ends _ _ E3).
    + exfalso. exact (py_item_ends _ _ E2).
  - exfalso. exact (py_in_ends _ _ E1).
Qed.

Lemma quiet_signer access_key_id secret_access_key session_token region service
    request_method request_params request_body :
  quiet (_generate_authorization_and_header access_key_id secret_access_key session_token
           region service request_method request_params request_body).
Proof.
  intros w o w' H. unfold _generate_authorization_and_header, bind, gmtime, ret in H.
  injection H as <- <-. repeat split. discriminate.
Qed.

Lemma quiet_random_string n : quiet (_generate_random_string n).
Proof.
  induction n as [|n IH]; intros w o w' H.
  - injection H as <- <-. repeat split. discriminate.
  - cbn [_generate_random_string] in H. unfold bind at 1, randbelow at 1 in H.
    unfold bind in H.
    match type of H with
    | context [_generate_random_string n ?w1] =>
        destruct (_generate_random_string n w1) as [o1 w2] eqn:E;
        destruct (IH _ _ _ E) as (Hnet & Hex & Hfuel)
    end.
    destruct o1 as [s| |]; [|injection H as <- <-|contradiction].
    + unfold ret in H. injection H as <- <-. repeat split; [exact Hnet|exact Hex|discriminate].
    + repeat split; [exact Hnet|exact Hex|discriminate].
Qed.

Lemma quiet_local_file file_path :
  String.prefix "http://" file_path || String.prefix "https://" file_path = false ->
  quiet (_get_file_content file_path).
Proof.
  intros Hlocal w o w' H. unfold _get_file_content, try_except in H. rewrite Hlocal in H.
  unfold read_file in H. destruct (file_system w file_path); injection H as <- <-;
    repeat split; discriminate.
Qed.

Lemma one_exchange_request self meth path data query hdrs :
  one_exchange (_request self meth path data query hdrs).
Proof.
  intros w o w'. unfold _request, bind.
  destruct (_generate_cookie_cases self w) as [(cookie & Hc)|(e0 & Hc & He0)]; rewrite Hc.
  2:{ intros H. injection H as <- <-. simpl. repeat split; try discriminate; lia. }
  unfold try_except.
  destruct (String.eqb (str_upper meth) "GET");
    unfold send, bind; cbn [network exchanges trace tick];
    match goal with
    | |- context [network w (exchanges w) ?r] =>
        destruct (network w (exchanges w) r) as [e|resp];
        [ destruct (is_RequestException e)
        | unfold check_status, read_json;
          destruct (raise_for_status resp) as [e|];
          [ unfold raise; destruct (is_RequestException e)
          | unfold ret; destruct (json_of resp) as [e|v];
            [ unfold raise; destruct (is_RequestException e) | ] ] ]
    end;
    intros H; injection H as <- <-; simpl; repeat split; try discriminate; lia.
Qed.

Lemma one_exchange_upload_auth self : one_exchange (_get_upload_auth self).
Proof.
  intros w o w' H. unfold _get_upload_auth, bind in H.
  match type of H with
  | context [_request ?s ?m ?p ?d ?q ?h w] =>
      destruct (_request s m p d q h w) as [o1 w1] eqn:E;
      destruct (one_exchange_request s m p d q h _ _ _ E) as (Hnet & Hfuel & Hle & Hok)
  end.
  destruct o1 as [auth_res| |]; [|injection H as <- <-|contradiction].
  2:{ repeat split; try assumption; try discriminate; lia. }
  specialize (Hok _ eq_refl).
  unfold lift in H.
  destruct (py_get auth_res "data" JNull) as [data| |] eqn:E1;
    [|injection H as <- <-|exfalso; exact (py_get_ends _ _ _ E1)].
  2:{ repeat split; try assumption; try discriminate; lia. }
  destruct (negb (py_truth data)).
  - destruct (py_get auth_res "errmsg" _) as [errmsg| |] eqn:E2;
      [|injection H as <- <-|exfalso; exact (py_get_ends _ _ _ E2)].
    + unfold raise in H. injection H as <- <-.
      repeat split; try assumption; try discriminate; lia.
    + repeat split; try assumption; try discriminate; lia.
  - injection H as <- <-.
    split; [assumption|]. split; [apply py_item_ends|]. split; [lia|].
    intros _ _. exact Hok.
Qed.

Lemma doomed_quiet {A B : Type} net limit pos (m : M A) (k : A -> M B) :
  quiet m -> (pos <= limit)%nat ->
  (forall a, doomed net limit pos (k a)) ->
  doomed net limit pos (bind m k).
Proof.
  intros Hm Hpos Hk w Hnet Hex. unfold bind.
  destruct (m w) as [o w1] eqn:E. destruct (Hm _ _ _ E) as (Hnet1 & Hex1 & Hfuel).
  destruct o as [a|e|]; [|exists e, w1; split; [reflexivity|lia]|contradiction].
  apply Hk; congruence.
Qed.

Lemma doomed_one {A B : Type} net limit pos (m : M A) (k : A -> M B) :
  one_exchange m -> (S pos <= limit)%nat ->
  (forall a, doomed net limit (S pos) (k a)) ->
  doomed net limit pos (bind m k).
Proof.
  intros Hm Hpos Hk w Hnet Hex. unfold bind.
  destruct (m w) as [o w1] eqn:E. destruct (Hm _ _ _ E) as (Hnet1 & Hfuel & Hle & Hok).
  destruct o as [a|e|]; [|exists e, w1; split; [reflexivity|lia]|contradiction].
  apply Hk; [congruence|]. rewrite (Hok a eq_refl). congruence.
Qed.

Ltac quiet_side :=
  lazymatch goal with
  | |- quiet (lift (py_item _ _)) => apply quiet_lift, py_item_ends
  | |- quiet (lift (py_first _)) => apply quiet_lift, py_first_ends
  | |- quiet (lift (py_get _ _ _)) => apply quiet_lift, py_get_ends
  | |- quiet (lift (check_error_envelope _)) => apply quiet_lift, check_error_envelope_ends
  | |- quiet (_generate_authorization_and_header _ _ _ _ _ _ _ _) => apply quiet_signer
  | |- quiet (_generate_random_string _) => apply quiet_random_string
  end.

Ltac quiet_step := apply doomed_quiet; [quiet_side | lia | intros ?].

(** X17. An upload the storage host does not accept is never committed.
    For an image read from a file, the upload request is the third
    exchange; if its answer, whenever it is a JSON object, carries a
    [code] other than 2000, [_upload_cover_file] raises and makes no
    fourth exchange. *)
Theorem rejected_upload_is_not_committed (self : client) (file_path : string) (w : world) :
  String.prefix "http://" file_path || String.prefix "https://" file_path = false ->
  (forall r resp fields,
      network w (2 + exchanges w) r = inr resp ->
      json_of resp = inr (JObj fields) ->
      py_eq_int (field fields "code" JNull) 2000 = false) ->
  exists cause w',
    _upload_cover_file self file_path w
    = (Raise (Raised Exception (Message [Lit "上传文件失败: "; StrOf cause])), w') /\
    (exchanges w' <= 3 + exchanges w)%nat.
Proof.
  intros Hlocal Hrejected.
  unfold _upload_cover_file, try_except.
  match goal with
  | |- context [match ?body w with _ => _ end] =>
      assert (D : doomed (network w) (3 + exchanges w) (exchanges w) body)
  end.
  { cbv zeta.
    apply doomed_one; [apply one_exchange_upload_auth|lia|intros upload_auth].
    apply doomed_quiet; [apply quiet_local_file; exact Hlocal|lia|intros image_data].
    apply doomed_quiet; [|lia|intros crc].
    { intros w0 o w1 H. destruct (image_crc32 image_data); injection H as <- <-;
        repeat split; discriminate. }
    do 5 quiet_step.
    apply doomed_one; [apply one_exchange_request|lia|intros upload_img_res].
    do 11 quiet_step.
    intros w0 Hnet Hex. unfold bind at 1. unfold send.
    rewrite Hnet, Hex. cbn [exchanges].
    change (S (S (exchanges w))) with (2 + exchanges w)%nat.
    match goal with
    | |- context [network w (2 + exchanges w)%nat ?r] =>
        pose proof (Hrejected r) as Hr;
        destruct (network w (2 + exchanges w)%nat r) as [e|resp]
    end.
    { eexists. eexists. split; [reflexivity|]. simpl. lia. }
    unfold bind at 1. unfold read_json.
    destruct (json_of resp) as [e|res] eqn:Ejson.
    { eexists. eexists. split; [reflexivity|]. simpl. lia. }
    unfold ret. unfold bind at 1. unfold lift at 1.
    destruct res as [| | | | | |fields];
      try (eexists; eexists; split; [reflexivity|simpl; lia]).
    unfold py_get at 1. fold (field fields "code" JNull).
    rewrite (Hr resp fields eq_refl Ejson). cbn [negb].
    unfold bind at 1. unfold bind at 1. unfold lift at 1. unfold py_get at 1.
    eexists. eexists. split; [reflexivity|]. simpl. lia. }
  destruct (D w eq_refl eq_refl) as (cause & w' & Hrun & Hle).
  rewrite Hrun. exists cause, w'. split; [reflexivity|exact Hle].
Qed.

(** X17 at work: the storage host answers with code 4001. *)
Lemma rejected_upload_witness :
  exists cause w',
    _upload_cover_file Scenario.self "01.jpeg" (Scenario.upload_answered (JInt 4001))
    = (Raise (Raised Exception (Message [Lit "上传文件失败: "; StrOf cause])), w') /\
    (exchanges w' <= 3 + exchanges (Scenario.upload_answered (JInt 4001)))%nat.
Proof.
  apply (rejected_upload_is_not_committed Scenario.self "01.jpeg"
           (Scenario.upload_answered (JInt 4001))).
  - reflexivity.
  - intros r resp fields Hresp Hjson.
    change (network (Scenario.upload_answered (JInt 4001))
              (2 + exchanges (Scenario.upload_answered (JInt 4001))) r)
      with (Scenario.stored_reply (JInt 4001)) in Hresp.
    injection Hresp as <-. injection Hjson as <-. reflexivity.
Defined.

(** ** The model and the seed *)

(** X18. With a reference image the model asked for is set aside:
    the backend model is the one of [jimeng-3.0], whatever [model]
    is. *)
Theorem reference_image_selects_the_blend_model (file_path : string) (model : option string) :
  file_path <> EmptyString ->
  _get_model (model_name (Some file_path) model)
  = JStr "high_aes_general_v30l:general_v3.0_18b".
Proof.
  intros Hfile. unfold model_name, has_file.
  destruct (String.eqb_spec file_path EmptyString) as [E|_]; [contradiction|].
  reflexivity.
Qed.

Lemma reference_image_witness :
  _get_model (model_name (Some "01.jpeg") (Some "jimeng-xl-pro"))
  = JStr "high_aes_general_v30l:general_v3.0_18b".
Proof.
  apply (reference_image_selects_the_blend_model "01.jpeg" (Some "jimeng-xl-pro")).
  discriminate.
Defined.

(** X19. Without a reference image, a model name that is not in
    [MODEL_MAP] (the empty name included) selects the backend model of
    [jimeng-3.1]; no error is raised for it. *)
Theorem unknown_model_falls_back_to_default (model : string) :
  dict_get MODEL_MAP model = None ->
  _get_model (model_name None (Some model))
  = JStr "high_aes_general_v30l_art_fangzhou:general_v3.0_18b".
Proof.
  intros Hunknown. unfold model_name. cbn [has_file].
  destruct (String.eqb model EmptyString); [reflexivity|].
  unfold _get_model. rewrite Hunknown. reflexivity.
Qed.

Lemma unknown_model_witness :
  _get_model (model_name None (Some "jimeng-9"))
  = JStr "high_aes_general_v30l_art_fangzhou:general_v3.0_18b".
Proof. apply (unknown_model_falls_back_to_default "jimeng-9"). reflexivity. Defined.

(** X20. The seed put into a draft without a reference image is an
    integer from 2500000000 to 2600000000, whatever the random
    generator gives. *)
Theorem seed_is_within_its_range
    (actual_model : json) (prompt negative_prompt : string) (width height : Z)
    (sample_strength : float) (w : world) :
  exists (abilities generate core_param : dict) (seed : Z),
    fst (generate_abilities actual_model prompt negative_prompt width height
           sample_strength w) = Ok abilities /\
    dict_get abilities "generate" = Some (JObj generate) /\
    dict_get generate "core_param" = Some (JObj core_param) /\
    dict_get core_param "seed" = Some (JInt seed) /\
    2500000000 <= seed <= 2600000000.
Proof.
  unfold generate_abilities, bind, _generate_uuid, new_uuid, randint, randbelow, ret.
  cbn [fst uuids_drawn uuid4 randbits randoms_drawn].
  eexists. eexists. eexists. eexists.
  split; [reflexivity|]. split; [reflexivity|]. split; [reflexivity|].
  split; [reflexivity|].
  match goal with
  | |- _ <= _ + ?x mod ?n <= _ => pose proof (Z.mod_pos_bound x n ltac:(lia))
  end.
  lia.
Qed.

(** ** The submission *)

(** X21. A reference image is uploaded before anything else: when the
    upload fails, [generate_image] ends with the error of the upload,
    and neither the balance nor the draft is touched. *)
Theorem failed_upload_ends_generation
    (fuel : nat) (self : client) (prompt file_path : string) (model : option string)
    (width height : Z) (sample_strength : float) (negative_prompt : string)
    (w w' : world) (e : exn) :
  prompt <> EmptyString ->
  file_path <> EmptyString ->
  _upload_cover_file self file_path w = (Raise e, w') ->
  generate_image fuel self prompt (Some file_path) model width height sample_strength
    negative_prompt w = (Raise e, w').
Proof.
  intros Hprompt Hfile Hupload. unfold generate_image.
  destruct (String.eqb_spec prompt EmptyString) as [E|_]; [contradiction|].
  apply bind_raise. unfold upload_phase, has_file.
  destruct (String.eqb_spec file_path EmptyString) as [E|_]; [contradiction|].
  exact Hupload.
Qed.

Lemma failed_upload_witness :
  exists e w',
    generate_image 5 Scenario.self "cat" (Some "missing.png") None 1024 1024 0.5%float
      EmptyString (Scenario.upload_answered (JInt 2000)) = (Raise e, w') /\
    exchanges w' = 1%nat.
Proof.
  pose (w := Scenario.upload_answered (JInt 2000)).
  pose (r := _upload_cover_file Scenario.self "missing.png" w).
  assert (H : r = (Raise (Raised Exception
                     (Message [Lit "上传文件失败: ";
                               StrOf (Raised Exception
                                 (Message [Lit "读取文件失败: "; Lit "missing.png";
                                           Lit ", 错误: "; StrOf (Raised OSError NoArg)]))])),
                   snd r)) by (vm_compute; reflexivity).
  eexists. exists (snd r). split.
  - apply (failed_upload_ends_generation 5 Scenario.self "cat" "missing.png" None
             1024 1024 0.5%float EmptyString w (snd r) _); [discriminate|discriminate|exact H].
  - vm_compute. reflexivity.
Defined.



(** ** Polling *)

(** A request other than a GET, once the clock has been read. *)
Lemma _request_trace_other self meth path data query hdrs w ts :
  py_int_of_float (time_time w (clock_reads w)) = Ok ts ->
  String.eqb (str_upper meth) "GET" = false ->
  exists h,
    trace (snd (_request self meth path data query hdrs w))
    = trace w ++ [Sent (mkRequest true (str_lower meth)
                          (if String.prefix "https://" path then path
                           else "https://jimeng.jianying.com" +++ path)
                          query data None (Some h))].
Proof.
  intros Hclock Hmeth.
  destruct (_generate_cookie_run self w ts Hclock) as (cookie & Hcookie).
  unfold _request, bind. rewrite Hcookie, Hmeth. unfold try_except.
  unfold send, bind; cbn [network exchanges trace tick].
  eexists.
  match goal with
  | |- context [network w (exchanges w) ?r] =>
      destruct (network w (exchanges w) r) as [e|resp];
      [ destruct (is_RequestException e)
      | unfold check_status, read_json;
        destruct (raise_for_status resp) as [e|];
        [ unfold raise; destruct (is_RequestException e)
        | unfold ret; destruct (json_of resp) as [e|v];
          [ unfold raise; destruct (is_RequestException e) | ] ] ]
  end; reflexivity.
Qed.

(** A request that is answered, whatever is sent. *)
Lemma _request_answered self meth path data query hdrs w ts resp v :
  py_int_of_float (time_time w (clock_reads w)) = Ok ts ->
  (forall r, network w (exchanges w) r = inr resp) ->
  raise_for_status resp = None ->
  json_of resp = inr v ->
  exists w', _request self meth path data query hdrs w = (Ok v, w') /\
    network w' = network w /\ time_time w' = time_time w /\
    exchanges w' = S (exchanges w).
Proof.
  intros Hclock Hnet Hstatus Hjson.
  destruct (_generate_cookie_run self w ts Hclock) as (cookie & Hcookie).
  unfold _request, bind. rewrite Hcookie. unfold try_except.
  destruct (String.eqb (str_upper meth) "GET");
    unfold send, bind; cbn [network exchanges trace tick]; rewrite Hnet;
    unfold check_status, read_json; rewrite Hstatus, Hjson; unfold ret;
    eexists; (split; [reflexivity|]); repeat split.
Qed.

Lemma poll_read_world record w : snd (poll_read record w) = w.
Proof.
  unfold poll_read, bind, lift.
  destruct (py_get record "status" JNull) as [st| |]; try reflexivity.
  destruct (py_get record "fail_code" JNull) as [fc| |]; try reflexivity.
  destruct (py_get record "item_list" (JArr [])) as [il| |]; try reflexivity.
  destruct (py_eq_int st 30); [destruct (py_eq_str fc "2038")|]; reflexivity.
Qed.

Lemma poll_once_world self history_id w :
  snd (poll_once self history_id w)
  = snd (_request self "POST" "/mweb/v1/get_history_by_ids"
           (Some (history_query history_id)) None None (log (Slept 1) w)).
Proof.
  unfold poll_once, poll_fetch. unfold bind at 1 2 3. unfold sleep.
  destruct (_request _ _ _ _ _ _ _) as [[result|e|] w1]; try reflexivity.
  unfold bind at 1. unfold lift at 1.
  destruct (py_get result "data" (JObj [])) as [data| |]; try reflexivity.
  unfold bind at 1. unfold lift at 1.
  destruct (py_get_value data history_id) as [record| |]; try reflexivity.
  destruct (negb (py_truth record)); [reflexivity|].
  unfold ret. apply poll_read_world.
Qed.

(** X23. Every pass of the poll loop first sleeps one second and then
    asks for the job, with one POST to [/mweb/v1/get_history_by_ids]
    that carries the job identifier in its JSON body; it does nothing
    else to the outside. *)
Theorem each_poll_sleeps_then_asks
    (self : client) (history_id : json) (w : world) (ts : Z) :
  py_int_of_float (time_time w (clock_reads w)) = Ok ts ->
  exists h,
    trace (snd (poll_once self history_id w))
    = trace w ++
      [ Slept 1;
        Sent (mkRequest true "post" "https://jimeng.jianying.com/mweb/v1/get_history_by_ids"
                None (Some (history_query history_id)) None (Some h)) ].
Proof.
  intros Hclock. rewrite poll_once_world.
  destruct (_request_trace_other self "POST" "/mweb/v1/get_history_by_ids"
              (Some (history_query history_id)) None None (log (Slept 1) w) ts Hclock eq_refl)
    as (h & Htrace).
  exists h. rewrite Htrace. cbn [log trace]. rewrite <- app_assoc. reflexivity.
Qed.

Lemma each_poll_witness :
  exists h,
    trace (snd (poll_once Scenario.self (JStr "h1") Scenario.two_pending_then_done))
    = trace Scenario.two_pending_then_done ++
      [ Slept 1;
        Sent (mkRequest true "post" "https://jimeng.jianying.com/mweb/v1/get_history_by_ids"
                None (Some (history_query (JStr "h1"))) None (Some h)) ].
Proof.
  apply (each_poll_sleeps_then_asks Scenario.self (JStr "h1")
           Scenario.two_pending_then_done 1762218000).
  vm_compute. reflexivity.
Defined.



(** X25. The poll loop has no deadline of its own: in a world where
    every poll finds the job pending, it is still polling after any
    number of passes, one request per pass. *)
Theorem polling_has_no_deadline
    (self : client) (history_id : string) (record : dict) (w : world) :
  (forall i, exists ts, py_int_of_float (time_time w i) = Ok ts) ->
  (forall i r, network w i r
               = inr (mkResponse None
                        (inr (JObj [("data", JObj [(history_id, JObj record)])])) [])) ->
  py_eq_int (field record "status" JNull) 20 = true ->
  forall fuel, exists w',
    poll_loop fuel self (JStr history_id) initial_poll_state w = (OutOfFuel, w') /\
    exchanges w' = (exchanges w + fuel)%nat.
Proof.
  intros Hclock Hnet Hpending fuel.
  assert (Hfilled : py_truth (JObj record) = true).
  { destruct record; [discriminate Hpending|reflexivity]. }
  assert (Hstill : py_eq_int (field record "status" JNull) 30 = false).
  { destruct (field record "status" JNull) as [|b|n|f| | |]; try discriminate Hpending.
    - destruct b; discriminate Hpending.
    - simpl in *. apply Z.eqb_eq in Hpending. subst n. reflexivity.
    - simpl in *. unfold float_eq_Z in *.
      destruct (Prim2SF f) as [s|s| |s m e]; try discriminate Hpending.
      destruct (Z.leb_spec 0 e); apply Z.eqb_eq in Hpending; apply Z.eqb_neq.
      + lia.
      + assert (0 < 2 ^ (- e)) by (apply Z.pow_pos_nonneg; lia). nia. }
  assert (Loop : forall n st w0,
             py_eq_int (status st) 20 = true ->
             network w0 = network w -> time_time w0 = time_time w ->
             exists w', poll_loop n self (JStr history_id) st w0 = (OutOfFuel, w') /\
                        exchanges w' = (exchanges w0 + n)%nat).
  { induction n as [|n IH]; intros st w0 Hst Hn Ht.
    - exists w0. simpl. rewrite Hst. split; [reflexivity|lia].
    - destruct (Hclock (clock_reads w0)) as (ts & Hts).
      destruct (_request_answered self "POST" "/mweb/v1/get_history_by_ids"
                  (Some (history_query (JStr history_id))) None None (log (Slept 1) w0) ts
                  (mkResponse None
                     (inr (JObj [("data", JObj [(history_id, JObj record)])])) [])
                  (JObj [("data", JObj [(history_id, JObj record)])]))
        as (w1 & Hreq & Hn1 & Ht1 & He1).
      { cbn [log time_time clock_reads]. rewrite Ht. exact Hts. }
      { intros r. cbn [log network exchanges]. rewrite Hn. apply Hnet. }
      { reflexivity. }
      { reflexivity. }
      cbn [poll_loop]. rewrite Hst.
      unfold bind at 1. unfold poll_once, poll_fetch.
      unfold bind at 1 2 3. unfold sleep. rewrite Hreq.
      unfold bind at 1. unfold lift at 1. cbn [py_get dict_get String.eqb Ascii.eqb Bool.eqb].
      unfold bind at 1. unfold lift at 1. unfold py_get_value. cbn [dict_get].
      rewrite String.eqb_refl. rewrite Hfilled. cbn [negb]. unfold ret.
      rewrite poll_read_other by exact Hstill.
      destruct (IH (mkPoll (field record "status" JNull) (field record "fail_code" JNull)
                      (field record "item_list" (JArr []))) w1) as (w2 & Hloop & He2).
      { exact Hpending. }
      { rewrite Hn1. exact Hn. }
      { rewrite Ht1. exact Ht. }
      exists w2. split; [exact Hloop|].
      rewrite He2, He1. cbn [log exchanges]. lia. }
  apply Loop; reflexivity.
Qed.

(** X25 at work: a status endpoint that always says [pending]. *)
Lemma polling_has_no_deadline_witness :
  exists w',
    poll_loop 1000 Scenario.self (JStr "h1") initial_poll_state
      (Scenario.world_of (Scenario.scripted [])) = (OutOfFuel, w') /\
    exchanges w' = (exchanges (Scenario.world_of (Scenario.scripted [])) + 1000)%nat.
Proof.
  apply (polling_has_no_deadline Scenario.self "h1" [("status", JInt 20)]
           (Scenario.world_of (Scenario.scripted []))).
  - intros i. exists 1762218000. vm_compute. reflexivity.
  - intros i r. unfold Scenario.world_of, Scenario.scripted. cbn [network].
    destruct i as [|i]; reflexivity.
  - reflexivity.
Defined.

(** ** The result *)

Lemma collect_image_urls_truthy items : forall acc urls,
  Forall (fun u => py_truth u = true) acc ->
  collect_image_urls items acc = Ok urls ->
  Forall (fun u => py_truth u = true) urls.
Proof.
  induction items as [|item items IH]; intros acc urls Hacc H; simpl in H.
  - injection H as <-. exact Hacc.
  - destruct (item_image_url item) as [v| |]; simpl in H; try discriminate.
    eapply IH; [|exact H].
    destruct (py_truth v) eqn:E; [|exact Hacc].
    apply Forall_app. split; [exact Hacc|]. constructor; [exact E|constructor].
Qed.

(** X26. No URL that [generate_image] returns is empty or [None], and
    there are at most as many as the job has entries: an entry gives
    one URL or none. *)
Theorem returned_urls_are_not_empty (items urls : list json) :
  extract_image_urls (JArr items) = Ok urls ->
  Forall (fun u => py_truth u = true) urls /\
  (List.length urls <= List.length items)%nat.
Proof.
  unfold extract_image_urls. cbn [py_iter obind]. intros H. split.
  - exact (collect_image_urls_truthy items [] urls (Forall_nil _) H).
  - exact (collect_image_urls_length items [] urls H).
Qed.

Lemma returned_urls_witness :
  Forall (fun u => py_truth u = true)
    [JStr "https://img.example/large-1.webp"; JStr "https://img.example/cover-2.webp"] /\
  (List.length [JStr "https://img.example/large-1.webp";
                JStr "https://img.example/cover-2.webp"]
   <= List.length [Scenario.with_large_images; Scenario.large_image_without_url;
                   Scenario.with_cover_only])%nat.
Proof.
  apply (returned_urls_are_not_empty
           [Scenario.with_large_images; Scenario.large_image_without_url;
            Scenario.with_cover_only]).
  reflexivity.
Defined.

(** ** The draft *)

(** X27. The draft of a submission is consistent with itself: it has
    one component, [main_component_id] is the [id] of that component,
    and the component's [generate_type] ([blend] with a reference
    image, [generate] without) names an entry of its [abilities]. *)
Theorem draft_names_its_component
    (self : client) (has_file_path : bool) (actual_model : json)
    (prompt negative_prompt : string) (width height : Z) (sample_strength : float)
    (upload_id : json) (w w' : world) (s : submission) :
  build_submission self has_file_path actual_model prompt negative_prompt width height
    sample_strength upload_id w = (Ok s, w') ->
  exists (document component abilities : dict) (component_id : json),
    draft s = JObj document /\
    dict_get document "component_list" = Some (JArr [JObj component]) /\
    dict_get document "main_component_id" = Some component_id /\
    dict_get component "id" = Some component_id /\
    dict_get component "generate_type"
      = Some (JStr (if has_file_path then "blend" else "generate")) /\
    dict_get component "abilities" = Some (JObj abilities) /\
    dict_get abilities (if has_file_path then "blend" else "generate") <> None.
Proof.
  intros H.
  destruct w as [net ex gen n rb rd tt tg cr fs tr].
  destruct has_file_path.
  - cbv beta iota zeta delta
      [build_submission blend_abilities draft_document bind ret lift
       _generate_uuid new_uuid now tick
       network exchanges uuid4 uuids_drawn randbits randoms_drawn time_time time_gmtime
       clock_reads file_system trace] in H.
    destruct (py_int_of_float (web_id self)) as [wid| |]; try discriminate H.
    destruct (py_int_of_float _) as [ms| |] in H; try discriminate H.
    match type of H with
    | context [Urllib.quote ?x] => set (babi_param := Urllib.quote x) in H; clearbody babi_param
    end.
    injection H as <- <-. cbn [draft].
    do 4 eexists.
    split; [reflexivity|]. split; [reflexivity|]. split; [reflexivity|].
    split; [reflexivity|]. split; [reflexivity|]. split; [reflexivity|].
    discriminate.
  - cbv beta iota zeta delta
      [build_submission generate_abilities draft_document bind ret lift
       _generate_uuid new_uuid now tick randint randbelow
       network exchanges uuid4 uuids_drawn randbits randoms_drawn time_time time_gmtime
       clock_reads file_system trace] in H.
    destruct (py_int_of_float (web_id self)) as [wid| |]; try discriminate H.
    destruct (py_int_of_float _) as [ms| |] in H; try discriminate H.
    match type of H with
    | context [Urllib.quote ?x] => set (babi_param := Urllib.quote x) in H; clearbody babi_param
    end.
    match type of H with
    | context [("seed", JInt ?x)] => set (seed := x) in H; clearbody seed
    end.
    injection H as <- <-. cbn [draft].
    do 4 eexists.
    split; [reflexivity|]. split; [reflexivity|]. split; [reflexivity|].
    split; [reflexivity|]. split; [reflexivity|]. split; [reflexivity|].
    discriminate.
Qed.

Lemma draft_names_its_component_witness :
  exists s : submission,
    fst (Scenario.build Scenario.two_pending_then_done) = Ok s /\
  exists (document component abilities : dict) (component_id : json),
    draft s = JObj document /\
    dict_get document "component_list" = Some (JArr [JObj component]) /\
    dict_get document "main_component_id" = Some component_id /\
    dict_get component "id" = Some component_id /\
    dict_get component "generate_type" = Some (JStr (if false then "blend" else "generate")) /\
    dict_get component "abilities" = Some (JObj abilities) /\
    dict_get abilities (if false then "blend" else "generate") <> None.
Proof.
  pose (w := Scenario.two_pending_then_done).
  pose (b := build_submission Scenario.self false (_get_model (model_name None None))
               "cat" EmptyString 1024 1024 0.5%float JNull w).
  pose (s := match fst b with Ok s => s | _ => mkSubmission [] EmptyString JNull end).
  assert (Hbuild : b = (Ok s, snd b)) by (vm_compute; reflexivity).
  exists s.
  split; [vm_compute; reflexivity|].
  exact (draft_names_its_component Scenario.self false (_get_model (model_name None None))
           "cat" EmptyString 1024 1024 0.5%float JNull w (snd b) s Hbuild).
Defined.

(** ** Making a client *)

Lemma str_remove_mem c s : str_mem c (str_remove c s) = false.
Proof.
  induction s as [|x s IH]; simpl; [reflexivity|].
  destruct (Ascii.eqb x c) eqn:E; [exact IH|].
  simpl. rewrite Ascii.eqb_sym, E. exact IH.
Qed.

(** X28. Without a token, neither given nor in the environment (an
    empty one counts as none), no client is made: [__init__] raises
    [ValueError] and draws nothing from the random generators. *)
Theorem client_without_token_is_refused
    (environ : string -> option string) (refresh_token : option string) (w : world) :
  refresh_token = None \/ refresh_token = Some EmptyString ->
  environ "JIMENG_API_TOKEN" = None \/ environ "JIMENG_API_TOKEN" = Some EmptyString ->
  __init__ environ refresh_token w = (Raise no_token, w).
Proof.
  intros [->| ->] [E|E]; unfold __init__; cbn [String.eqb]; rewrite E; reflexivity.
Qed.

Lemma client_without_token_witness :
  __init__ (fun _ => None) (Some EmptyString) Scenario.two_pending_then_done
  = (Raise no_token, Scenario.two_pending_then_done).
Proof.
  apply (client_without_token_is_refused (fun _ => None) (Some EmptyString)
           Scenario.two_pending_then_done).
  - right. reflexivity.
  - left. reflexivity.
Defined.

(** X29. A client that is made has a token that is not empty, the one
    given if one was given, else the one of the environment; its
    [user_id] is one fresh UUID without its hyphens; making it sends
    nothing. *)
Theorem client_is_made_with_a_token
    (environ : string -> option string) (given : option string)
    (w w' : world) (self : client) :
  __init__ environ given w = (Ok self, w') ->
  refresh_token self <> EmptyString /\
  (forall t, given = Some t -> t <> EmptyString -> refresh_token self = t) /\
  (given = None \/ given = Some EmptyString ->
   environ "JIMENG_API_TOKEN" = Some (refresh_token self)) /\
  user_id self = str_remove "-" (uuid4 w (uuids_drawn w)) /\
  str_mem "-" (user_id self) = false /\
  uuids_drawn w' = S (uuids_drawn w) /\
  exchanges w' = exchanges w /\ trace w' = trace w.
Proof.
  unfold __init__.
  set (token := match given with
                | Some t => if String.eqb t EmptyString then environ "JIMENG_API_TOKEN"
                            else Some t
                | None => environ "JIMENG_API_TOKEN"
                end).
  destruct token as [t|] eqn:Etoken; [|discriminate].
  destruct (String.eqb_spec t EmptyString) as [E|Hne]; [discriminate|].
  unfold bind, random_random, new_uuid, ret. cbn [uuids_drawn uuid4].
  intros H. injection H as <- <-. cbn [refresh_token user_id uuids_drawn exchanges trace].
  split; [exact Hne|]. split; [|split].
  - intros t0 -> Ht0. subst token.
    destruct (String.eqb_spec t0 EmptyString) as [E|_]; [contradiction|].
    injection Etoken as ->. reflexivity.
  - intros [->| ->]; subst token; cbn [String.eqb] in Etoken; exact Etoken.
  - split; [reflexivity|]. split; [apply str_remove_mem|]. repeat split.
Qed.

Lemma client_is_made_witness :
  exists self w',
    __init__ (fun _ => Some "from-env") (Some "given") Scenario.two_pending_then_done
      = (Ok self, w') /\
    refresh_token self = "given" /\ user_id self = "uuid0".
Proof.
  pose (w := Scenario.two_pending_then_done).
  pose (r := __init__ (fun _ => Some "from-env") (Some "given") w).
  pose (self := match fst r with Ok c => c | _ => Scenario.self end).
  assert (H : r = (Ok self, snd r)) by (vm_compute; reflexivity).
  exists self, (snd r). split; [exact H|].
  destruct (client_is_made_with_a_token (fun _ => Some "from-env") (Some "given")
              w (snd r) self H) as (_ & Hgiven & _ & Huser & _).
  split.
  - apply Hgiven; [reflexivity|discriminate].
  - rewrite Huser. vm_compute. reflexivity.
Defined.
